(** * Wi-Fi provisioning utility (wifi_setup.py): model and verified properties

    The development follows the layout of the program:
    - [PyStr]     : Python strings (sequences of code points) and the
                    string methods the program calls;
    - [TextIO]    : UTF-8 text files as Python writes and reads them;
    - [Sys]       : the world the program acts on (configuration file,
                    module globals, trace of external actions), its
                    surroundings, and the effect monad;
    - [WifiSetup] : the functions of wifi_setup.py;
    - the vocabulary in which the properties are stated;
    - the properties, component by component: Credential Persistor,
      Connection Establisher and Hotspot Controller, Credential Capture
      Portal and Shutdown Sequencer, startup. *)

From Stdlib Require Import List NArith ZArith Lia Bool Ascii String.
Import ListNotations.

Set Implicit Arguments.

(* ===================================================================== *)
(** * Python strings *)
(* ===================================================================== *)

Module PyStr.

(** A Python [str] is a sequence of Unicode code points. *)
Definition char := N.
Definition str := list char.

(** An ASCII literal of the source as a [str]. *)
Definition lit (s : string) : str :=
  map N_of_ascii (list_ascii_of_string s).
Arguments lit s%_string.

Definition LF : char := 10%N.    (* "\n" *)
Definition CR : char := 13%N.    (* "\r" *)
Definition DQ : char := 34%N.    (* the double quote *)
Definition BSL : char := 92%N.   (* the backslash *)
Definition COLON : char := 58%N.

Fixpoint str_eqb (a b : str) : bool :=
  match a, b with
  | [], [] => true
  | x :: a', y :: b' => N.eqb x y && str_eqb a' b'
  | _, _ => false
  end.

(** Truth value of a string: [bool(s)]. *)
Definition truthy (s : str) : bool :=
  match s with [] => false | _ :: _ => true end.

(** [a or b] on strings. *)
Definition str_or (a b : str) : str := if truthy a then a else b.

(** [s.startswith(p)] *)
Fixpoint startswith (p s : str) : bool :=
  match p, s with
  | [], _ => true
  | x :: p', y :: s' => N.eqb x y && startswith p' s'
  | _ :: _, [] => false
  end.

(** [needle in hay] *)
Fixpoint str_in (needle hay : str) : bool :=
  startswith needle hay ||
  match hay with
  | [] => false
  | _ :: hay' => str_in needle hay'
  end.

(** [s.replace(old, new)]: leftmost, non-overlapping occurrences.  [skip]
    counts the characters of a matched occurrence still to be passed. *)
Fixpoint replace_from (old new : str) (skip : nat) (s : str) : str :=
  match s with
  | [] => []
  | c :: s' =>
      match skip with
      | S k => replace_from old new k s'
      | O =>
          if startswith old s
          then new ++ replace_from old new (List.length old - 1) s'
          else c :: replace_from old new 0 s'
      end
  end.

Definition replace (old new s : str) : str :=
  match old with
  | [] => new ++ flat_map (fun c => c :: new) s
  | _ :: _ => replace_from old new 0 s
  end.

(** [str.isspace] for one code point (Unicode White_Space plus the
    information separators 0x1C..0x1F, as CPython has it). *)
Definition isspace (c : char) : bool :=
  ((9 <=? c) && (c <=? 13) || (28 <=? c) && (c <=? 32)
   || (c =? 133) || (c =? 160) || (c =? 5760)
   || (8192 <=? c) && (c <=? 8202)
   || (c =? 8232) || (c =? 8233) || (c =? 8239) || (c =? 8287)
   || (c =? 12288))%N.

Fixpoint lstrip (s : str) : str :=
  match s with
  | [] => []
  | c :: s' => if isspace c then lstrip s' else s
  end.

Definition rstrip (s : str) : str := rev (lstrip (rev s)).

(** [s.strip()] *)
Definition strip (s : str) : str := rstrip (lstrip s).

(** Line boundaries of [str.splitlines]. *)
Definition is_linebreak (c : char) : bool :=
  ((10 <=? c) && (c <=? 13) || (28 <=? c) && (c <=? 30)
   || (c =? 133) || (c =? 8232) || (c =? 8233))%N.

(** [s.splitlines()]: [cur] is the current line, reversed; [after_cr]
    tells that the previous character was a carriage return, so that a
    line feed right after it belongs to the same boundary. *)
Fixpoint splitlines_from (cur : str) (after_cr : bool) (s : str) : list str :=
  match s with
  | [] => match cur with [] => [] | _ :: _ => [rev cur] end
  | c :: s' =>
      if after_cr && N.eqb c LF then splitlines_from cur false s'
      else if is_linebreak c
           then rev cur :: splitlines_from [] (N.eqb c CR) s'
           else splitlines_from (c :: cur) false s'
  end.

Definition splitlines (s : str) : list str := splitlines_from [] false s.

(** [s.split(sep)] for a non-empty separator. *)
Fixpoint split_from (sep : str) (cur : str) (skip : nat) (s : str) : list str :=
  match s with
  | [] => [rev cur]
  | c :: s' =>
      match skip with
      | S k => split_from sep cur k s'
      | O =>
          if startswith sep s
          then rev cur :: split_from sep [] (List.length sep - 1) s'
          else split_from sep (c :: cur) 0 s'
      end
  end.

Definition split (sep s : str) : list str := split_from sep [] 0 s.

(** [" ".join(parts)] *)
Fixpoint join (sep : str) (parts : list str) : str :=
  match parts with
  | [] => []
  | [p] => p
  | p :: rest => p ++ sep ++ join sep rest
  end.

End PyStr.

Import PyStr.

(* ===================================================================== *)
(** * Text files *)
(* ===================================================================== *)

Module TextIO.

(** A byte is a number below 256. *)
Definition byte := N.

(** ** Writing: [open(path, "a", encoding="utf-8")]

    The UTF-8 encoder.  Surrogate code points cannot be encoded
    ([UnicodeEncodeError], here [None]).  On the target platform
    [os.linesep] is the line feed, so text mode writes every character
    as it is. *)
Definition encode_char (c : char) : option (list byte) :=
  (if c <? 0x80 then Some [c]
   else if c <? 0x800 then Some [0xC0 + c / 64; 0x80 + c mod 64]
   else if c <? 0x10000 then
     if (0xD800 <=? c) && (c <=? 0xDFFF) then None
     else Some [0xE0 + c / 4096; 0x80 + (c / 64) mod 64; 0x80 + c mod 64]
   else if c <? 0x110000 then
     Some [0xF0 + c / 262144; 0x80 + (c / 4096) mod 64;
           0x80 + (c / 64) mod 64; 0x80 + c mod 64]
   else None)%N.

Fixpoint utf8_encode (s : str) : option (list byte) :=
  match s with
  | [] => Some []
  | c :: s' =>
      match encode_char c, utf8_encode s' with
      | Some bs, Some rest => Some (bs ++ rest)
      | _, _ => None
      end
  end.

(** ** Reading: [read_text(encoding="utf-8", errors="ignore")]

    The UTF-8 decoder with [errors="ignore"]: a well-formed sequence
    gives its code point, any other byte is dropped. *)
Definition cont (b : byte) : bool := ((0x80 <=? b) && (b <=? 0xBF))%N.

Definition lead2 (b0 : byte) : bool := ((0xC2 <=? b0) && (b0 <=? 0xDF))%N.

Definition lead3 (b0 b1 : byte) : bool :=
  ((b0 =? 0xE0) && (0xA0 <=? b1) && (b1 <=? 0xBF)
   || (0xE1 <=? b0) && (b0 <=? 0xEC) && cont b1
   || (b0 =? 0xED) && (0x80 <=? b1) && (b1 <=? 0x9F)
   || (0xEE <=? b0) && (b0 <=? 0xEF) && cont b1)%N.

Definition lead4 (b0 b1 : byte) : bool :=
  ((b0 =? 0xF0) && (0x90 <=? b1) && (b1 <=? 0xBF)
   || (0xF1 <=? b0) && (b0 <=? 0xF3) && cont b1
   || (b0 =? 0xF4) && (0x80 <=? b1) && (b1 <=? 0x8F))%N.

Definition cp2 (b0 b1 : byte) : char :=
  ((b0 - 0xC0) * 64 + (b1 - 0x80))%N.
Definition cp3 (b0 b1 b2 : byte) : char :=
  ((b0 - 0xE0) * 4096 + (b1 - 0x80) * 64 + (b2 - 0x80))%N.
Definition cp4 (b0 b1 b2 b3 : byte) : char :=
  ((b0 - 0xF0) * 262144 + (b1 - 0x80) * 4096 + (b2 - 0x80) * 64
   + (b3 - 0x80))%N.

Fixpoint utf8_decode_ignore (l : list byte) : str :=
  match l with
  | [] => []
  | b0 :: r0 =>
      if (b0 <? 0x80)%N then b0 :: utf8_decode_ignore r0
      else
        match r0 with
        | [] => []
        | b1 :: r1 =>
            if lead2 b0 && cont b1 then cp2 b0 b1 :: utf8_decode_ignore r1
            else
              match r1 with
              | [] => utf8_decode_ignore r0
              | b2 :: r2 =>
                  if lead3 b0 b1 && cont b2
                  then cp3 b0 b1 b2 :: utf8_decode_ignore r2
                  else
                    match r2 with
                    | [] => utf8_decode_ignore r0
                    | b3 :: r3 =>
                        if lead4 b0 b1 && cont b2 && cont b3
                        then cp4 b0 b1 b2 b3 :: utf8_decode_ignore r3
                        else utf8_decode_ignore r0
                    end
              end
        end
  end.

(** Universal newlines ([newline=None] on reading): a carriage return,
    alone or followed by a line feed, is read as one line feed. *)
Fixpoint universal_newlines (s : str) : str :=
  match s with
  | [] => []
  | c :: s' =>
      if N.eqb c CR then
        LF :: match s' with
              | [] => []
              | d :: s'' =>
                  if N.eqb d LF then universal_newlines s''
                  else universal_newlines s'
              end
      else c :: universal_newlines s'
  end.

(** What [read_text] returns for a file with these bytes. *)
Definition decode_text (data : list byte) : str :=
  universal_newlines (utf8_decode_ignore data).

End TextIO.

Import TextIO.

(* ===================================================================== *)
(** * The world of the program and its effects *)
(* ===================================================================== *)

Module Sys.

Inductive exn : Type :=
| CalledProcessError (returncode : Z) (cmd : list str)
| OSError
| ValueError
| UnicodeEncodeError
| UnicodeDecodeError
| HTTPException (status : Z)
| SystemExit (code : Z).

(** [except Exception] catches everything but [SystemExit]. *)
Definition is_Exception (e : exn) : bool :=
  match e with SystemExit _ => false | _ => true end.

Inductive level : Type := INFO | ERROR | EXCEPTION.

Inductive arg : Type :=
| Str (s : str)
| Int (z : Z)
| Exc (e : exn).

(** The only thread target of the program. *)
Inductive target : Type := Target_shutdown.

(** What the program does to its surroundings, in order. *)
Inductive event : Type :=
| Log (lv : level) (fmt : string) (args : list arg)
| Run (command : list str)              (* subprocess.run *)
| Probe                                  (* socket.create_connection *)
| Sleep (seconds : N)                    (* time.sleep *)
| ThreadStart (t : target)               (* threading.Thread(...).start() *)
| Serve (host : str) (port : Z).         (* app.run: the listener is bound *)

Record world : Type := mkWorld {
  config_file : option (list byte);   (* bytes of WPA_SUPPLICANT_FILE, if it exists *)
  config_dir : bool;                  (* its parent directory exists *)
  WIFI_INTERFACE : str;
  HOTSPOT_CONNECTION_NAME : str;
  trace : list event
}.

Inductive io_op : Type := OpRead | OpMkdir | OpOpen | OpWrite.

(** What becomes of a command whose arguments [subprocess.run] has
    accepted: it ran to its end, with an exit status and its output as
    text; or the program could not be started ([OSError]: not installed,
    not permitted, no process to be had); or it ran and its output is not
    text in the encoding of the locale ([UnicodeDecodeError]). *)
Inductive proc_outcome : Type :=
| Completed (returncode : Z) (stdout : str)
| NotStarted
| Undecodable.

(** The surroundings: what external commands, the network probe, the file
    system, the command line and the listener answer, each as a function
    of what has happened so far.  [io_fault] tells that a file operation
    raises [OSError], and [torn_write] how many bytes of a failed write
    reached the file.  [parse_args] is [None] when [argparse] rejects the
    command line, which ends the process with [SystemExit(2)].
    [listen_fault] is the exception [app.run] raises instead of serving
    ([SystemExit(1)] when the address cannot be bound), [None] when it
    serves. *)
Record env : Type := mkEnv {
  proc_result : list event -> list str -> proc_outcome;
  probe_result : list event -> bool;
  io_fault : list event -> io_op -> bool;
  torn_write : list event -> nat;
  parse_args : option (str * Z);                    (* --host, --port *)
  listen_fault : list event -> str -> Z -> option exn
}.

(** ** The effect monad: state, exceptions, process exit *)

Inductive outcome (A : Type) : Type :=
| Ret (a : A)
| Raise (e : exn)
| Exit (code : Z).
Arguments Ret {A} a.
Arguments Raise {A} e.
Arguments Exit {A} code.

Definition M (A : Type) : Type := world -> outcome A * world.

Definition ret {A} (a : A) : M A := fun w => (Ret a, w).

Definition bind {A B} (m : M A) (k : A -> M B) : M B :=
  fun w =>
    match m w with
    | (Ret a, w') => k a w'
    | (Raise e, w') => (Raise e, w')
    | (Exit c, w') => (Exit c, w')
    end.

Definition raise {A} (e : exn) : M A := fun w => (Raise e, w).

(** [try: body  except Exception as exc: handler] *)
Definition try_except {A} (body : M A) (handler : exn -> M A) : M A :=
  fun w =>
    match body w with
    | (Raise e, w') =>
        if is_Exception e then handler e w' else (Raise e, w')
    | r => r
    end.

Definition emit (e : event) : M unit :=
  fun w =>
    (Ret tt,
     mkWorld (config_file w) (config_dir w) (WIFI_INTERFACE w)
             (HOTSPOT_CONNECTION_NAME w) (trace w ++ [e])).

Definition set_WIFI_INTERFACE (v : str) : M unit :=
  fun w =>
    (Ret tt,
     mkWorld (config_file w) (config_dir w) v
             (HOTSPOT_CONNECTION_NAME w) (trace w)).

Definition set_HOTSPOT_CONNECTION_NAME (v : str) : M unit :=
  fun w =>
    (Ret tt,
     mkWorld (config_file w) (config_dir w) (WIFI_INTERFACE w) v (trace w)).

Definition set_config (f : option (list byte)) (d : bool) : M unit :=
  fun w =>
    (Ret tt,
     mkWorld f d (WIFI_INTERFACE w) (HOTSPOT_CONNECTION_NAME w) (trace w)).

Definition get {A} (f : world -> A) : M A := fun w => (Ret (f w), w).

(** [os._exit(code)] *)
Definition os_exit {A} (code : Z) : M A := fun w => (Exit code, w).

(** [time.sleep(seconds)] *)
Definition sleep (seconds : N) : M unit := emit (Sleep seconds).

End Sys.

Import Sys.

Declare Scope py_scope.
Delimit Scope py_scope with py.
Notation "x <- m ;; k" := (bind m (fun x => k))
  (at level 61, m at next level, right associativity) : py_scope.
Notation "m ;; k" := (bind m (fun _ => k))
  (at level 61, right associativity) : py_scope.
Open Scope py_scope.

(* ===================================================================== *)
(** * wifi_setup.py *)
(* ===================================================================== *)

Module WifiSetup.

Definition HOTSPOT_SSID : str := lit "SmartLock-Setup".
Definition HOTSPOT_PASSWORD : str := lit "electroniccliks".

(** An HTTP request as the handler sees it: the method and the form
    fields in the order received ([request.form.get] returns the first
    value of a key).  Flask reads the form when [request.form] is first
    asked for; [form_error] is the exception that raises when Flask
    refuses the form (a field that is too large gives
    [RequestEntityTooLarge], status 413), and [None] when the form is
    read. *)
Record Request : Type := mkRequest {
  method : str;
  form : list (str * str);
  form_error : option exn
}.

Fixpoint form_get (f : list (str * str)) (key : str) : option str :=
  match f with
  | [] => None
  | (k, v) :: rest => if str_eqb k key then Some v else form_get rest key
  end.

(** [value or ""] for an optional string. *)
Definition or_empty (v : option str) : str :=
  match v with
  | Some s => str_or s []
  | None => []
  end.

(** [escape_wpa] *)
Definition escape_wpa (value : str) : str :=
  replace [DQ] [BSL; DQ] (replace [BSL] [BSL; BSL] value).

(** The block built at the head of [write_wifi_credentials]. *)
Definition network_block (ssid password : str) : str :=
  [LF] ++ lit "network={" ++ [LF]
  ++ lit "    ssid=" ++ [DQ] ++ escape_wpa ssid ++ [DQ] ++ [LF]
  ++ lit "    psk=" ++ [DQ] ++ escape_wpa password ++ [DQ] ++ [LF]
  ++ lit "    key_mgmt=WPA-PSK" ++ [LF]
  ++ lit "}" ++ [LF].

(** The string looked for by the presence check. *)
Definition ssid_entry (ssid : str) : str :=
  lit "ssid=" ++ [DQ] ++ escape_wpa ssid ++ [DQ].

(** [html.escape(message)] (with [quote=True]). *)
Definition html_escape (s : str) : str :=
  replace [39%N] (lit "&#x27;")
    (replace [DQ] (lit "&quot;")
      (replace (lit ">") (lit "&gt;")
        (replace (lit "<") (lit "&lt;")
          (replace (lit "&") (lit "&amp;") s)))).

(** The page template holds many double quotes and no apostrophe: the
    literals below write an apostrophe for each double quote and [lit_q]
    puts the double quotes back. *)
Definition lit_q (s : string) : str :=
  map (fun c => if N.eqb c 39 then DQ else c) (lit s).
Arguments lit_q s%_string.

Definition template_head : str := lit_q "
<!doctype html>
<html lang='en'>
<head>
  <meta charset='utf-8'>
  <meta name='viewport' content='width=device-width, initial-scale=1'>
  <title>ELECTRONIC CLIKS SmartLock Setup</title>
  <style>
    body { font-family: Arial, sans-serif; background: #f4f6f8; margin: 0; padding: 24px; }
    .card { max-width: 480px; margin: 32px auto; background: #ffffff; border-radius: 10px; padding: 24px; box-shadow: 0 6px 20px rgba(0,0,0,0.08); }
    h1 { font-size: 1.25rem; margin-top: 0; color: #0f172a; }
    label { display: block; margin-top: 12px; font-weight: 600; color: #334155; }
    input { width: 100%; padding: 10px; margin-top: 6px; border: 1px solid #cbd5e1; border-radius: 8px; }
    button { margin-top: 18px; width: 100%; padding: 10px; border: 0; border-radius: 8px; background: #1d4ed8; color: white; font-weight: 600; cursor: pointer; }
    .msg { margin-top: 14px; color: ".

Definition template_mid : str := lit_q "; font-weight: 600; }
    .sub { color: #475569; font-size: .95rem; margin-top: 0; }
  </style>
</head>
<body>
  <div class='card'>
    <h1>ELECTRONIC CLIKS | SmartLock Wi-Fi Setup</h1>
    <p class='sub'>Connect your SmartLock device to your local Wi-Fi network.</p>
    <form method='post'>
      <label for='ssid'>Wi-Fi SSID</label>
      <input id='ssid' name='ssid' type='text' required>
      <label for='password'>Wi-Fi Password</label>
      <input id='password' name='password' type='password' required>
      <button type='submit'>Connect Device</button>
    </form>
    <div class='msg'>".

Definition template_tail : str := lit_q "</div>
  </div>
</body>
</html>
".

(** [render_form] *)
Definition render_form (message : str) (is_error : bool) : str :=
  let safe_message := html_escape message in
  let color := if is_error then lit "#b91c1c" else lit "#166534" in
  template_head ++ color ++ template_mid ++ safe_message ++ template_tail.

(** An argument of a command is handed to the operating system in the
    file-system encoding, UTF-8 with [surrogateescape]: a code point that
    UTF-8 cannot encode raises [UnicodeEncodeError], unless it is one of
    the escapes U+DC80 to U+DCFF, and a NUL character in the argument
    raises [ValueError].  The arguments are converted in their order, so
    the first argument at fault decides. *)
Definition fs_encodable (c : char) : bool :=
  match encode_char c with
  | Some _ => true
  | None => ((0xDC80 <=? c) && (c <=? 0xDCFF))%N
  end.

Definition arg_error (a : str) : option exn :=
  if negb (forallb fs_encodable a) then Some UnicodeEncodeError
  else if existsb (N.eqb 0) a then Some ValueError
  else None.

Fixpoint argument_error (command : list str) : option exn :=
  match command with
  | [] => None
  | a :: rest =>
      match arg_error a with
      | Some e => Some e
      | None => argument_error rest
      end
  end.

(** The loops of [detect_wifi_interface] and
    [get_active_connection_for_device] over the lines of the output. *)
Fixpoint first_wifi_device (lines : list str) : str :=
  match lines with
  | [] => []
  | line :: rest =>
      let parts := split [COLON] line in
      if (2 <=? List.length parts)%nat
         && str_eqb (nth 1 parts []) (lit "wifi")
         && truthy (nth 0 parts [])
      then nth 0 parts []
      else first_wifi_device rest
  end.

Fixpoint first_connection_on (device : str) (lines : list str) : str :=
  match lines with
  | [] => []
  | line :: rest =>
      let parts := split [COLON] line in
      if (2 <=? List.length parts)%nat && str_eqb (nth 1 parts []) device
      then nth 0 parts []
      else first_connection_on device rest
  end.

Section Program.

Variable E : env.

Definition LOGGER_info (fmt : string) (args : list arg) : M unit :=
  emit (Log INFO fmt args).
Definition LOGGER_error (fmt : string) (args : list arg) : M unit :=
  emit (Log ERROR fmt args).
Definition LOGGER_exception (fmt : string) (args : list arg) : M unit :=
  emit (Log EXCEPTION fmt args).

(** [subprocess.run(command, check=check, text=True, capture_output=True)]:
    arguments at fault and a program that cannot be started raise before
    any command runs, with [check=False] as well; [check] only decides
    what an exit status other than zero does. *)
Definition subprocess_run (command : list str) (check : bool) : M (Z * str) :=
  fun w =>
    match argument_error command with
    | Some e => (Raise e, w)
    | None =>
        match proc_result E (trace w) command with
        | NotStarted => (Raise OSError, w)
        | Undecodable => (Raise UnicodeDecodeError, snd (emit (Run command) w))
        | Completed returncode stdout =>
            match emit (Run command) w with
            | (_, w') =>
                if check && negb (Z.eqb returncode 0)
                then (Raise (CalledProcessError returncode command), w')
                else (Ret (returncode, stdout), w')
            end
        end
    end.

(** [run_command] *)
Definition run_command (command : list str) (check : bool) : M (Z * str) :=
  LOGGER_info "Executing command: %s" [Str (join (lit " ") command)] ;;
  subprocess_run command check.

(** [is_internet_connected] *)
Definition is_internet_connected : M bool :=
  fun w =>
    match emit Probe w with
    | (_, w') => (Ret (probe_result E (trace w)), w')
    end.

(** [detect_wifi_interface] *)
Definition detect_wifi_interface : M str :=
  result <- run_command
    [lit "nmcli"; lit "-t"; lit "-f"; lit "DEVICE,TYPE"; lit "device";
     lit "status"] true ;;
  ret (first_wifi_device (splitlines (snd result))).

(** [get_active_connection_for_device] *)
Definition get_active_connection_for_device (device : str) : M str :=
  result <- run_command
    [lit "nmcli"; lit "-t"; lit "-f"; lit "NAME,DEVICE"; lit "connection";
     lit "show"; lit "--active"] true ;;
  ret (first_connection_on device (splitlines (snd result))).

(** [start_hotspot] *)
Definition start_hotspot : M unit :=
  iface <- get WIFI_INTERFACE ;;
  run_command
    [lit "nmcli"; lit "device"; lit "set"; iface; lit "managed"; lit "yes"]
    false ;;
  run_command
    [lit "nmcli"; lit "device"; lit "wifi"; lit "hotspot"; lit "ifname";
     iface; lit "ssid"; HOTSPOT_SSID; lit "password"; HOTSPOT_PASSWORD]
    true ;;
  name <- get_active_connection_for_device iface ;;
  set_HOTSPOT_CONNECTION_NAME (str_or name (lit "Hotspot")) ;;
  LOGGER_info "Hotspot '%s' started on %s" [Str HOTSPOT_SSID; Str iface].

(** [stop_hotspot] *)
Definition stop_hotspot : M unit :=
  name <- get HOTSPOT_CONNECTION_NAME ;;
  if truthy name then
    run_command [lit "nmcli"; lit "connection"; lit "down"; name] false ;;
    LOGGER_info "Hotspot connection '%s' stopped." [Str name]
  else ret tt.

(** ** The configuration file *)

Definition WPA_SUPPLICANT_FILE : str :=
  lit "/etc/wpa_supplicant/wpa_supplicant.conf".

(** [WPA_SUPPLICANT_FILE.exists()] *)
Definition config_exists : M bool :=
  get (fun w => match config_file w with Some _ => true | None => false end).

(** [WPA_SUPPLICANT_FILE.read_text(encoding="utf-8", errors="ignore")] *)
Definition read_text : M str :=
  fun w =>
    if io_fault E (trace w) OpRead then (Raise OSError, w)
    else
      match config_file w with
      | Some data => (Ret (decode_text data), w)
      | None => (Raise OSError, w)
      end.

(** [WPA_SUPPLICANT_FILE.parent.mkdir(parents=True, exist_ok=True)] *)
Definition mkdir_parent : M unit :=
  fun w =>
    if io_fault E (trace w) OpMkdir then (Raise OSError, w)
    else set_config (config_file w) true w.

(** [with open(WPA_SUPPLICANT_FILE, "a", encoding="utf-8") as file_handle:
       file_handle.write(text)]: opening creates a missing file; a
    failed write may leave part of the data behind. *)
Definition append_text (text : str) : M unit :=
  fun w =>
    if io_fault E (trace w) OpOpen || negb (config_dir w)
    then (Raise OSError, w)
    else
      let old := match config_file w with Some d => d | None => [] end in
      match utf8_encode text with
      | None => (Raise UnicodeEncodeError, snd (set_config (Some old) true w))
      | Some data =>
          if io_fault E (trace w) OpWrite
          then (Raise OSError,
                snd (set_config
                       (Some (old ++ firstn (torn_write E (trace w)) data))
                       true w))
          else set_config (Some (old ++ data)) true w
      end.

(** [write_wifi_credentials] *)
Definition write_wifi_credentials (ssid password : str) : M unit :=
  let network_block := network_block ssid password in
  ex <- config_exists ;;
  existing <- (if ex then read_text else ret []) ;;
  if str_in (ssid_entry ssid) existing then
    LOGGER_info
      "SSID already present in wpa_supplicant. Skipping file append." []
  else
    mkdir_parent ;;
    append_text network_block ;;
    LOGGER_info "Wi-Fi credentials appended to %s" [Str WPA_SUPPLICANT_FILE].

(** [connect_to_wifi] *)
Definition connect_to_wifi (ssid password : str) : M unit :=
  run_command [lit "nmcli"; lit "connection"; lit "delete"; ssid] false ;;
  iface <- get WIFI_INTERFACE ;;
  run_command
    [lit "nmcli"; lit "device"; lit "wifi"; lit "connect"; ssid;
     lit "password"; password; lit "ifname"; iface] true ;;
  LOGGER_info "Connected to Wi-Fi SSID '%s'" [Str ssid].

(** The worker [_shutdown] of [schedule_shutdown]. *)
Definition _shutdown : M unit :=
  sleep 2 ;;
  LOGGER_info "Shutting down setup portal after successful provisioning." [] ;;
  stop_hotspot ;;
  sleep 1 ;;
  os_exit 0.


(** [schedule_shutdown] *)
Definition schedule_shutdown : M unit :=
  emit (ThreadStart Target_shutdown).

(** [request.form]: the fields, or the exception of a refused form. *)
Definition request_form (request : Request) : M (list (str * str)) :=
  match form_error request with
  | Some e => raise e
  | None => ret (form request)
  end.

(** [portal] *)
Definition portal (request : Request) : M str :=
  if str_eqb (method request) (lit "POST") then
    ssid_form <- request_form request ;;
    let ssid := strip (or_empty (form_get ssid_form (lit "ssid"))) in
    password_form <- request_form request ;;
    let password :=
      strip (or_empty (form_get password_form (lit "password"))) in
    if negb (truthy ssid) || negb (truthy password) then
      ret (render_form (lit "SSID and password are required.") true)
    else
      try_except
        (write_wifi_credentials ssid password ;;
         connect_to_wifi ssid password ;;
         schedule_shutdown ;;
         ret (render_form
                (lit "Wi-Fi connected successfully. Hotspot is shutting down.")
                false))
        (fun exc =>
           LOGGER_exception "Wi-Fi provisioning failed: %s" [Exc exc] ;;
           ret (render_form
                  (lit "Connection failed. Please verify credentials and retry.")
                  true))
  else ret (render_form [] false).

(** [setup_logger] only chooses where log records go; the records
    themselves are the [Log] events of the trace. *)
Definition setup_logger : M unit := ret tt.

(** [app.run(host=..., port=..., debug=False)]: when the listener cannot
    be set up it raises ([SystemExit(1)] for an address that cannot be
    bound) and nothing is served.  Otherwise the listener is bound, the
    [Serve] event, and the call stays there while requests come in: each
    request is a run of [portal] on the world as it then is, and the
    thread a request starts runs [thread_body].  Those runs are steps of
    the requests, not of [main]; [app_run] returns when the server is
    stopped. *)
Definition app_run (host : str) (port : Z) : M unit :=
  fun w =>
    match listen_fault E (trace w) host port with
    | Some e => (Raise e, w)
    | None => emit (Serve host port) w
    end.

(** [main] *)
Definition main : M Z :=
  setup_logger ;;
  LOGGER_info "=== ELECTRONIC CLIKS Wi-Fi setup start ===" [] ;;
  online <- is_internet_connected ;;
  if online then
    LOGGER_info "Internet already connected. Wi-Fi provisioning skipped." [] ;;
    ret 0%Z
  else
    iface <- detect_wifi_interface ;;
    set_WIFI_INTERFACE iface ;;
    if negb (truthy iface) then
      LOGGER_error
        "No Wi-Fi interface detected. Ensure NetworkManager is installed and enabled."
        [] ;;
      ret 1%Z
    else
      start_hotspot ;;
      match parse_args E with
      | None => raise (SystemExit 2)
      | Some (host, port) =>
          LOGGER_info "Portal started at http://%s:%s" [Str host; Int port] ;;
          app_run host port ;;
          ret 0%Z
      end.

End Program.

End WifiSetup.

Import WifiSetup.

(* ===================================================================== *)
(** * bootstrap.py *)
(* ===================================================================== *)

Module Bootstrap.

Definition COMMA : char := 44%N.

(** The two scripts the launcher chooses between. *)
Inductive script : Type := CLOUD_GPIO_SCRIPT | LOCAL_GPIO_SCRIPT.

Inductive level : Type := INFO | WARNING | ERROR | CRITICAL | EXCEPTION.

Inductive arg : Type :=
| Str (s : str)
| Path (p : script)
| Int (z : Z)
| Exc.                                   (* the text of a caught exception *)

(** What the launcher does to its surroundings, in order. *)
Inductive event : Type :=
| Log (lv : level) (fmt : string) (args : list arg)
| Probe                                  (* socket.create_connection *)
| Download (url : str)                   (* requests.get and the file steps *)
| Exists                                 (* LOCAL_GPIO_SCRIPT.exists() *)
| Launch (p : script).                   (* subprocess.run of the script *)

(** The surroundings of the launcher, each answer a function of what has
    happened so far: whether the probe connects, whether a download and
    the replacement of the cloud script go through, whether the local
    script exists, and the exit code of a launched script ([None] when
    launching raises).  The module is taken as loaded: its settings were
    read and the logger is set up.  A probe that fails fails with
    [OSError], the one exception [is_internet_reachable] catches, as it
    does for a port number within range. *)
Record env : Type := mkEnv {
  probe_result : list event -> bool;
  download_result : list event -> str -> bool;
  exists_result : list event -> bool;
  launch_result : list event -> script -> option Z
}.

(** The launcher catches every exception it meets: a computation is a
    function of the trace. *)
Definition M (A : Type) : Type := list event -> A * list event.

Definition ret {A} (a : A) : M A := fun t => (a, t).

Definition bind {A B} (m : M A) (k : A -> M B) : M B :=
  fun t => let (a, t') := m t in k a t'.

Definition emit (e : event) : M unit := fun t => (tt, t ++ [e]).

(** The loop of [_cloud_source_urls]: [seen] is the set, [deduped] the
    list built so far. *)
Fixpoint dedupe (urls seen deduped : list str) : list str :=
  match urls with
  | [] => deduped
  | url :: rest =>
      if truthy url && negb (existsb (str_eqb url) seen)
      then dedupe rest (url :: seen) (deduped ++ [url])
      else dedupe rest seen deduped
  end.

Section Launcher.

(** The two settings read from the environment when the module loads. *)
Variables PRIMARY_CLOUD_URL ADDITIONAL_CLOUD_URLS : str.

Variable E : env.

(** [_cloud_source_urls] *)
Definition _cloud_source_urls : list str :=
  let urls :=
    [strip PRIMARY_CLOUD_URL]
    ++ map strip (filter (fun item => truthy (strip item))
                    (split [COMMA] ADDITIONAL_CLOUD_URLS)) in
  dedupe urls [] [].

(** [is_internet_reachable] *)
Definition is_internet_reachable : M bool :=
  fun t =>
    if probe_result E t
    then (true,
          t ++ [Probe; Log INFO "Internet connectivity check succeeded." []])
    else (false,
          t ++ [Probe;
                Log WARNING "Internet connectivity check failed: %s" [Exc]]).

(** [download_latest_gpio_script] *)
Definition download_latest_gpio_script (url : str) (output_path : script)
  : M bool :=
  bind (emit (Log INFO "Attempting cloud GPIO download from %s" [Str url]))
    (fun _ t =>
       if download_result E t url
       then (true,
             t ++ [Download url;
                   Log INFO "Cloud GPIO script downloaded to %s"
                       [Path output_path]])
       else (false,
             t ++ [Download url;
                   Log ERROR "Cloud GPIO download failed: %s" [Exc]])).

(** The [for] loop of [select_main_script]: [true] when a download went
    through, which ends the loop. *)
Fixpoint try_cloud_urls (urls : list str) : M bool :=
  match urls with
  | [] => ret false
  | cloud_url :: rest =>
      bind (download_latest_gpio_script cloud_url CLOUD_GPIO_SCRIPT)
        (fun ok =>
           if ok then
             bind (emit (Log INFO "Using cloud GPIO script: %s"
                             [Path CLOUD_GPIO_SCRIPT]))
               (fun _ => ret true)
           else try_cloud_urls rest)
  end.

(** The end of [select_main_script], from [LOCAL_GPIO_SCRIPT.exists()]
    on. *)
Definition select_local : M (option script) :=
  fun t =>
    if exists_result E t
    then (Some LOCAL_GPIO_SCRIPT,
          t ++ [Exists;
                Log INFO "Using local fallback GPIO script: %s"
                    [Path LOCAL_GPIO_SCRIPT]])
    else (None,
          t ++ [Exists;
                Log CRITICAL
                  "No runnable GPIO script found. Expected local script at %s"
                  [Path LOCAL_GPIO_SCRIPT]]).

(** [select_main_script] *)
Definition select_main_script : M (option script) :=
  bind is_internet_reachable
    (fun reachable =>
       if reachable then
         bind (try_cloud_urls _cloud_source_urls)
           (fun found =>
              if found then ret (Some CLOUD_GPIO_SCRIPT)
              else
                bind (emit (Log WARNING
                              "Cloud script unavailable, falling back to local GPIO script."
                              []))
                  (fun _ => select_local))
       else select_local).

(** [run_script] *)
Definition run_script (script_path : script) : M Z :=
  bind (emit (Log INFO "Launching GPIO runtime: %s" [Path script_path]))
    (fun _ t =>
       match launch_result E t script_path with
       | Some returncode =>
           (returncode,
            t ++ [Launch script_path;
                  Log INFO "GPIO runtime exited with code %s"
                      [Int returncode]])
       | None =>
           (1%Z,
            t ++ [Launch script_path;
                  Log EXCEPTION "Failed to execute GPIO runtime: %s" [Exc]])
       end).

(** [main] *)
Definition main : M Z :=
  bind (emit (Log INFO "=== ELECTRONIC CLIKS SmartLock bootstrap start ===" []))
    (fun _ =>
       bind select_main_script
         (fun script_to_run =>
            match script_to_run with
            | None =>
                bind (emit (Log CRITICAL
                              "Bootstrap stopping because no GPIO script could be selected."
                              []))
                  (fun _ => ret 1%Z)
            | Some p =>
                bind (run_script p)
                  (fun exit_code =>
                     bind (emit (Log INFO
                                   "=== ELECTRONIC CLIKS SmartLock bootstrap stop (code=%s) ==="
                                   [Int exit_code]))
                       (fun _ => ret exit_code))
            end)).

End Launcher.

End Bootstrap.

(* ===================================================================== *)
(** * Vocabulary of the properties *)
(* ===================================================================== *)

(** ** Escaping *)

(** What [escape_wpa] puts in place of one character. *)
Definition escape_char (c : char) : str :=
  if N.eqb c BSL then [BSL; BSL]
  else if N.eqb c DQ then [BSL; DQ]
  else [c].

(** Reading a quoted string the way the configuration syntax does: a
    backslash takes the next character with it; a double quote that no
    backslash took would end the string.  [pending] tells that a backslash
    is waiting for its character. *)
Fixpoint quotes_escaped_from (pending : bool) (s : str) : bool :=
  match s with
  | [] => negb pending
  | c :: s' =>
      if pending then quotes_escaped_from false s'
      else if N.eqb c BSL then quotes_escaped_from true s'
      else if N.eqb c DQ then false
      else quotes_escaped_from false s'
  end.

Definition quotes_escaped (s : str) : bool := quotes_escaped_from false s.

(** The string holds no carriage return. *)
Definition no_cr (s : str) : bool := forallb (fun c => negb (N.eqb c CR)) s.

(** ** The network block *)

(** The line of the block that holds the password. *)
Definition psk_entry (password : str) : str :=
  lit "psk=" ++ [DQ] ++ escape_wpa password ++ [DQ].

(** The fixed texts of the block: before the SSID line, between the two
    lines, and after the password line. *)
Definition block_open : str := [LF] ++ lit "network={" ++ [LF] ++ lit "    ".

Definition block_mid : str := [LF] ++ lit "    ".

Definition block_close : str :=
  [LF] ++ lit "    key_mgmt=WPA-PSK" ++ [LF] ++ lit "}" ++ [LF].

(** ** Worlds and events *)

(** The text the presence check looks at: what [read_text] gives for the
    file, or the empty string when there is no file. *)
Definition existing_text (w : world) : str :=
  match config_file w with
  | Some data => decode_text data
  | None => []
  end.

(** The bytes of the configuration file, none when there is no file. *)
Definition file_bytes (w : world) : list byte :=
  match config_file w with
  | Some data => data
  | None => []
  end.

(** The world with more events in its trace. *)
Definition extend (w : world) (evs : list event) : world :=
  mkWorld (config_file w) (config_dir w) (WIFI_INTERFACE w)
          (HOTSPOT_CONNECTION_NAME w) (trace w ++ evs).

(** The world with the interface that [main] stores in the global. *)
Definition with_interface (w : world) (iface : str) : world :=
  mkWorld (config_file w) (config_dir w) iface (HOTSPOT_CONNECTION_NAME w)
          (trace w).

(** The events a computation added, and the commands among them. *)
Definition new_events (w w' : world) : list event :=
  skipn (List.length (trace w)) (trace w').

Definition run_commands (evs : list event) : list (list str) :=
  flat_map (fun e => match e with Run c => [c] | _ => [] end) evs.

Definition is_log (e : event) : bool :=
  match e with Log _ _ _ => true | _ => false end.

Definition is_log_or_run (e : event) : bool :=
  match e with Log _ _ _ | Run _ => true | _ => false end.

Definition is_thread_start (e : event) : bool :=
  match e with ThreadStart _ => true | _ => false end.

Definition is_serve (e : event) : bool :=
  match e with Serve _ _ => true | _ => false end.

(** A computation is tame for a class [P] of events when, from any world,
    it adds only events of that class to the trace, leaves the two globals
    alone, does not end the process, and raises nothing but exceptions
    that [except Exception] catches. *)
Definition tame (P : event -> bool) {A} (m : M A) : Prop :=
  forall w,
    (exists evs, trace (snd (m w)) = trace w ++ evs /\ forallb P evs = true)
    /\ WIFI_INTERFACE (snd (m w)) = WIFI_INTERFACE w
    /\ HOTSPOT_CONNECTION_NAME (snd (m w)) = HOTSPOT_CONNECTION_NAME w
    /\ (forall c, fst (m w) <> Exit c)
    /\ (forall e, fst (m w) = Raise e -> is_Exception e = true).

(** The exceptions a command can end with: the status that [check=True]
    refuses, an argument at fault, a program that cannot be started,
    output that cannot be read. *)
Definition command_error (e : exn) : bool :=
  match e with
  | CalledProcessError _ _ | OSError | ValueError | UnicodeEncodeError
  | UnicodeDecodeError => true
  | HTTPException _ | SystemExit _ => false
  end.

(** The command was started and ran to its end, and its output was
    read. *)
Definition completes (o : proc_outcome) : bool :=
  match o with
  | Completed _ _ => true
  | NotStarted | Undecodable => false
  end.

(** A computation that only logs and runs commands: from any world it
    leaves the configuration file and the interface global alone, adds
    only records and commands to the trace, does not end the process, and
    raises nothing but the exception of a command. *)
Definition commands_only {A} (m : M A) : Prop :=
  forall w,
    config_file (snd (m w)) = config_file w
    /\ WIFI_INTERFACE (snd (m w)) = WIFI_INTERFACE w
    /\ (exists evs, trace (snd (m w)) = trace w ++ evs
                    /\ forallb is_log_or_run evs = true)
    /\ (forall c, fst (m w) <> Exit c)
    /\ (forall e, fst (m w) = Raise e -> command_error e = true).

(** ** The commands and records of the program *)

(** The record [run_command] writes before it runs a command. *)
Definition executing (command : list str) : event :=
  Log INFO "Executing command: %s" [Str (join (lit " ") command)].

(** The two commands of [connect_to_wifi]. *)
Definition delete_command (ssid : str) : list str :=
  [lit "nmcli"; lit "connection"; lit "delete"; ssid].

Definition connect_command (ssid password iface : str) : list str :=
  [lit "nmcli"; lit "device"; lit "wifi"; lit "connect"; ssid;
   lit "password"; password; lit "ifname"; iface].

(** The command of [stop_hotspot]. *)
Definition down_command (name : str) : list str :=
  [lit "nmcli"; lit "connection"; lit "down"; name].

(** The commands of [start_hotspot] and of the query it makes. *)
Definition managed_command (iface : str) : list str :=
  [lit "nmcli"; lit "device"; lit "set"; iface; lit "managed"; lit "yes"].

Definition hotspot_command (iface : str) : list str :=
  [lit "nmcli"; lit "device"; lit "wifi"; lit "hotspot"; lit "ifname";
   iface; lit "ssid"; HOTSPOT_SSID; lit "password"; HOTSPOT_PASSWORD].

Definition active_command : list str :=
  [lit "nmcli"; lit "-t"; lit "-f"; lit "NAME,DEVICE"; lit "connection";
   lit "show"; lit "--active"].

(** The command of [detect_wifi_interface]. *)
Definition status_command : list str :=
  [lit "nmcli"; lit "-t"; lit "-f"; lit "DEVICE,TYPE"; lit "device";
   lit "status"].

(** The events of [start_hotspot] up to the command that creates the
    access point, and up to the query for the active connection. *)
Definition until_hotspot (iface : str) : list event :=
  [executing (managed_command iface); Run (managed_command iface);
   executing (hotspot_command iface)].

Definition until_query (iface : str) : list event :=
  until_hotspot iface
  ++ [Run (hotspot_command iface); executing active_command].

(** The name [start_hotspot] remembers, from the output of the query. *)
Definition remembered_name (iface output : str) : str :=
  str_or (first_connection_on iface (splitlines output)) (lit "Hotspot").

(** The first record of [main]. *)
Definition setup_start : event :=
  Log INFO "=== ELECTRONIC CLIKS Wi-Fi setup start ===" [].

(** The record [portal] logs when provisioning raised. *)
Definition provisioning_failed (e : exn) : event :=
  Log EXCEPTION "Wi-Fi provisioning failed: %s" [Exc e].

(** ** Requests and pages *)

(** The two fields as [portal] takes them from a request. *)
Definition submitted_ssid (request : Request) : str :=
  strip (or_empty (form_get (form request) (lit "ssid"))).

Definition submitted_password (request : Request) : str :=
  strip (or_empty (form_get (form request) (lit "password"))).

(** The three pages [portal] answers a POST with. *)
Definition required_page : str :=
  render_form (lit "SSID and password are required.") true.

Definition failure_page : str :=
  render_form (lit "Connection failed. Please verify credentials and retry.")
    true.

Definition success_page : str :=
  render_form (lit "Wi-Fi connected successfully. Hotspot is shutting down.")
    false.

(** A POST with the two fields of the form, read by Flask. *)
Definition post (ssid password : str) : Request :=
  mkRequest (lit "POST") [(lit "ssid", ssid); (lit "password", password)]
            None.

(** The exception [portal] meets when it asks for the form: only a POST
    asks for it. *)
Definition refusal (request : Request) : option exn :=
  if str_eqb (method request) (lit "POST") then form_error request else None.

(** ** Sample surroundings *)

(** A device before provisioning: no configuration file yet. *)
Definition fresh_world : world :=
  mkWorld None false (lit "wlan0") (lit "Hotspot") [].

(** Nothing fails: commands exit with status 0 and print nothing, the
    probe finds no network, file operations succeed. *)
Definition quiet_env : env :=
  mkEnv (fun _ _ => Completed 0 []) (fun _ => false) (fun _ _ => false)
        (fun _ => 0%nat) (Some (lit "0.0.0.0", 80%Z)) (fun _ _ _ => None).


(** The parent directory of the configuration file cannot be created. *)
Definition no_directory_env : env :=
  mkEnv (fun _ _ => Completed 0 []) (fun _ => false)
        (fun _ op => match op with OpMkdir => true | _ => false end)
        (fun _ => 0%nat) (Some (lit "0.0.0.0", 80%Z)) (fun _ _ _ => None).

(** The connect command exits with status 4. *)
Definition no_join_env : env :=
  mkEnv (fun _ command =>
           if str_eqb (nth 3 command []) (lit "connect")
           then Completed 4 [] else Completed 0 [])
        (fun _ => false) (fun _ _ => false) (fun _ => 0%nat)
        (Some (lit "0.0.0.0", 80%Z)) (fun _ _ _ => None).


(** [wlan0] is listed as a wireless device and the command that creates
    the access point exits with status 10. *)
Definition no_hotspot_env : env :=
  mkEnv (fun _ command =>
           if str_eqb (nth 3 command []) (lit "DEVICE,TYPE")
           then Completed 0
                  (lit "lo:loopback" ++ [LF] ++ lit "wlan0:wifi" ++ [LF])
           else if str_eqb (nth 3 command []) (lit "hotspot")
           then Completed 10 []
           else Completed 0 [])
        (fun _ => false) (fun _ _ => false) (fun _ => 0%nat)
        (Some (lit "0.0.0.0", 80%Z)) (fun _ _ _ => None).

(** The configuration file exists. *)
Definition file_exists (w : world) : bool :=
  match config_file w with Some _ => true | None => false end.

(** ** Characters with a special meaning *)

(** The characters [escape_wpa] rewrites. *)
Definition is_wpa_special (c : char) : bool := N.eqb c BSL || N.eqb c DQ.

(** What [html.escape] puts in place of one character. *)
Definition html_char (c : char) : str :=
  if N.eqb c 38 then lit "&amp;"
  else if N.eqb c 60 then lit "&lt;"
  else if N.eqb c 62 then lit "&gt;"
  else if N.eqb c DQ then lit "&quot;"
  else if N.eqb c 39 then lit "&#x27;"
  else [c].

(** The characters [html.escape] rewrites, and those of them that open or
    close markup: the angle brackets and the two quotes. *)
Definition is_html_special (c : char) : bool :=
  N.eqb c 38 || N.eqb c 60 || N.eqb c 62 || N.eqb c DQ || N.eqb c 39.

Definition is_markup (c : char) : bool :=
  N.eqb c 60 || N.eqb c 62 || N.eqb c DQ || N.eqb c 39.

(** The string is empty or neither begins nor ends with whitespace. *)
Definition trimmed (s : str) : Prop :=
  match s with
  | [] => True
  | c :: _ => isspace c = false /\ isspace (last s c) = false
  end.

(** ** The terse output of the network manager *)

(** A field without colon and without line boundary. *)
Definition plain_field (f : str) : bool :=
  forallb (fun c => negb (N.eqb c COLON) && negb (is_linebreak c)) f.

(** Rows that each have at least one field, all fields plain. *)
Definition plain_row (row : list str) : bool :=
  match row with
  | [] => false
  | _ :: _ => forallb plain_field row
  end.

Definition plain_rows (rows : list (list str)) : bool :=
  forallb plain_row rows.

(** One line per row, the fields of a row joined with colons. *)
Definition terse_output (rows : list (list str)) : str :=
  flat_map (fun row => join [COLON] row ++ [LF]) rows.

(** The rows [detect_wifi_interface] and
    [get_active_connection_for_device] stop at. *)
Definition is_wifi_row (row : list str) : bool :=
  (2 <=? List.length row)%nat && str_eqb (nth 1 row []) (lit "wifi")
  && truthy (nth 0 row []).

Definition is_row_of (device : str) (row : list str) : bool :=
  (2 <=? List.length row)%nat && str_eqb (nth 1 row []) device.

(** The first field of the first row that satisfies [p], or the empty
    string. *)
Definition first_field_where (p : list str -> bool) (rows : list (list str))
  : str :=
  match find p rows with
  | Some row => nth 0 row []
  | None => []
  end.

(** The records of [main] and the options of the command line. *)
Definition already_online : event :=
  Log INFO "Internet already connected. Wi-Fi provisioning skipped." [].

Definition no_interface : event :=
  Log ERROR
    "No Wi-Fi interface detected. Ensure NetworkManager is installed and enabled."
    [].

Definition portal_started (host : str) (port : Z) : event :=
  Log INFO "Portal started at http://%s:%s" [Str host; Int port].

Definition hotspot_started (iface : str) : event :=
  Log INFO "Hotspot '%s' started on %s" [Str HOTSPOT_SSID; Str iface].

(** The device is online. *)
Definition online_env : env :=
  mkEnv (fun _ _ => Completed 0 []) (fun _ => true) (fun _ _ => false)
        (fun _ => 0%nat) (Some (lit "0.0.0.0", 80%Z)) (fun _ _ _ => None).

(** The device is offline, [wlan0] is a wireless device, every command
    exits with status 0 and the query names the hotspot profile. *)
Definition offline_env : env :=
  mkEnv (fun _ command =>
           if str_eqb (nth 3 command []) (lit "DEVICE,TYPE")
           then Completed 0 (terse_output [[lit "lo"; lit "loopback"];
                                           [lit "wlan0"; lit "wifi"]])
           else if str_eqb (nth 3 command []) (lit "NAME,DEVICE")
           then Completed 0 (terse_output [[lit "Hotspot"; lit "wlan0"]])
           else Completed 0 [])
        (fun _ => false) (fun _ _ => false) (fun _ => 0%nat)
        (Some (lit "0.0.0.0", 80%Z)) (fun _ _ _ => None).

(** The same, but the command line is rejected. *)
Definition bad_arguments_env : env :=
  mkEnv (proc_result offline_env) (fun _ => false) (fun _ _ => false)
        (fun _ => 0%nat) None (fun _ _ _ => None).

(** The same as [offline_env], but the address of the listener is taken. *)
Definition port_taken_env : env :=
  mkEnv (proc_result offline_env) (fun _ => false) (fun _ _ => false)
        (fun _ => 0%nat) (Some (lit "0.0.0.0", 80%Z))
        (fun _ _ _ => Some (SystemExit 1)).

(** The device listing exits with status 8. *)
Definition no_listing_env : env :=
  mkEnv (fun _ _ => Completed 8 []) (fun _ => false) (fun _ _ => false)
        (fun _ => 0%nat) None (fun _ _ _ => None).

(** ** The launcher *)

(** The events a computation of the launcher added. *)
Definition added (t t' : list Bootstrap.event) : list Bootstrap.event :=
  skipn (List.length t) t'.

(** The addresses downloaded from and the scripts launched, in order. *)
Definition downloads (evs : list Bootstrap.event) : list str :=
  flat_map (fun e => match e with Bootstrap.Download u => [u] | _ => [] end)
    evs.

Definition launches (evs : list Bootstrap.event) : list Bootstrap.script :=
  flat_map (fun e => match e with Bootstrap.Launch p => [p] | _ => [] end)
    evs.

(** The addresses up to the first one that satisfies [ok], that one
    included. *)
Fixpoint until_first (ok : str -> bool) (urls : list str) : list str :=
  match urls with
  | [] => []
  | u :: rest => if ok u then [u] else u :: until_first ok rest
  end.

Definition is_cloud (choice : option Bootstrap.script) : bool :=
  match choice with
  | Some Bootstrap.CLOUD_GPIO_SCRIPT => true
  | _ => false
  end.

(** Sample surroundings of the launcher: online, the address [b] answers,
    the local script exists, a launched script exits with code 3. *)
Definition launcher_env : Bootstrap.env :=
  Bootstrap.mkEnv (fun _ => true) (fun _ u => str_eqb u (lit "b"))
                  (fun _ => true) (fun _ _ => Some 3%Z).

(** Offline, and there is no local script. *)
Definition stranded_env : Bootstrap.env :=
  Bootstrap.mkEnv (fun _ => false) (fun _ _ => false) (fun _ => false)
                  (fun _ _ => None).

(* ===================================================================== *)
(** * Facts about strings *)
(* ===================================================================== *)

Section StringFacts.

Lemma startswith_app (p s : str) : startswith p (p ++ s) = true.
Proof.
  induction p as [|x p IH]; simpl; [reflexivity|].
  rewrite N.eqb_refl. exact IH.
Qed.

Lemma startswith_split (p s : str) :
  startswith p s = true -> exists r, s = p ++ r.
Proof.
  revert s. induction p as [|x p IH]; intros s H.
  - exists s. reflexivity.
  - destruct s as [|y s]; simpl in H; [discriminate|].
    apply andb_true_iff in H. destruct H as [Hxy Hp].
    apply N.eqb_eq in Hxy. subst y.
    destruct (IH _ Hp) as [r ->]. exists r. reflexivity.
Qed.

Lemma str_in_intro (n a b : str) : str_in n (a ++ n ++ b) = true.
Proof.
  induction a as [|x a IH].
  - change ([] ++ n ++ b) with (n ++ b).
    pose proof (startswith_app n b) as H.
    destruct (n ++ b); simpl; rewrite H; reflexivity.
  - simpl. rewrite IH. apply orb_true_r.
Qed.

Lemma str_in_elim (n h : str) :
  str_in n h = true -> exists a b, h = a ++ n ++ b.
Proof.
  induction h as [|x h IH]; simpl; intro H.
  - rewrite orb_false_r in H. apply startswith_split in H.
    destruct H as [r ->]. exists [], r. reflexivity.
  - apply orb_true_iff in H. destruct H as [H|H].
    + apply startswith_split in H. destruct H as [r ->].
      exists [], r. reflexivity.
    + destruct (IH H) as (a & b & ->). exists (x :: a), b. reflexivity.
Qed.

Lemma str_in_false_iff (n h : str) :
  str_in n h = false <-> forall a b, h <> a ++ n ++ b.
Proof.
  split.
  - intros H a b ->. rewrite str_in_intro in H. discriminate.
  - intro H. destruct (str_in n h) eqn:Hin; [|reflexivity].
    destruct (str_in_elim _ _ Hin) as (a & b & Hab).
    exfalso. exact (H a b Hab).
Qed.

Lemma str_eqb_eq (a b : str) : str_eqb a b = true <-> a = b.
Proof.
  revert b. induction a as [|x a IH]; intros [|y b]; simpl;
    try (split; [discriminate | discriminate]); try tauto.
  rewrite andb_true_iff, N.eqb_eq, IH. split.
  - intros [-> ->]. reflexivity.
  - intro H. injection H as -> ->. tauto.
Qed.

(** Replacing a one-character pattern works character by character. *)
Lemma replace_single (c : char) (new s : str) :
  replace [c] new s = flat_map (fun x => if N.eqb x c then new else [x]) s.
Proof.
  unfold replace. induction s as [|x s IH]; [reflexivity|].
  cbn [replace_from startswith List.length Nat.sub flat_map].
  rewrite andb_true_r, N.eqb_sym. destruct (N.eqb x c).
  - rewrite IH. reflexivity.
  - rewrite IH. reflexivity.
Qed.

(** ** Trimming *)

Lemma lstrip_head (s : str) :
  match lstrip s with [] => True | c :: _ => isspace c = false end.
Proof.
  induction s as [|c s IH]; cbn; [exact I|].
  destruct (isspace c) eqn:Hc; [exact IH | exact Hc].
Qed.

Lemma lstrip_suffix (s : str) : exists pre, s = pre ++ lstrip s.
Proof.
  induction s as [|c s [pre IH]]; cbn.
  - exists []. reflexivity.
  - destruct (isspace c).
    + exists (c :: pre). cbn. rewrite <- IH. reflexivity.
    + exists []. reflexivity.
Qed.

Lemma strip_head (s : str) :
  match strip s with [] => True | c :: _ => isspace c = false end.
Proof.
  unfold strip, rstrip.
  pose proof (lstrip_head s) as Hh.
  destruct (lstrip_suffix (rev (lstrip s))) as [pre Hp].
  apply (f_equal (@rev char)) in Hp.
  rewrite rev_involutive, rev_app_distr in Hp.
  destruct (rev (lstrip (rev (lstrip s)))) as [|c r]; [exact I|].
  rewrite Hp in Hh. exact Hh.
Qed.

(** A trimmed string does not begin with a line feed. *)
Lemma strip_no_leading_line_feed (s : str) : startswith [LF] (strip s) = false.
Proof.
  pose proof (strip_head s) as H.
  destruct (strip s) as [|c r]; [reflexivity|].
  cbn [startswith]. rewrite andb_true_r. apply N.eqb_neq. intros <-.
  discriminate.
Qed.

End StringFacts.

(* ===================================================================== *)
(** * Facts about escaping *)
(* ===================================================================== *)

Lemma escape_char_cases (c : char) :
  (c = BSL /\ escape_char c = [BSL; BSL])
  \/ (c = DQ /\ escape_char c = [BSL; DQ])
  \/ (c <> BSL /\ c <> DQ /\ escape_char c = [c]).
Proof.
  unfold escape_char.
  destruct (N.eqb_spec c BSL) as [->|Hb]; [left; auto|].
  destruct (N.eqb_spec c DQ) as [->|Hq]; [right; left; auto|].
  right; right; auto.
Qed.

Ltac case_escape c H :=
  let Hc := fresh "Hc" in
  destruct (escape_char_cases c) as [[? Hc]|[[? Hc]|(? & ? & Hc)]];
  rewrite Hc in H; clear Hc; try subst c; cbn [app] in H.

Section EscapeFacts.

Lemma escape_wpa_chars (value : str) :
  escape_wpa value = flat_map escape_char value.
Proof.
  unfold escape_wpa. rewrite !replace_single.
  induction value as [|c v IH]; [reflexivity|].
  cbn [flat_map]. unfold escape_char at 1.
  destruct (N.eqb c BSL) eqn:Hb.
  - cbn [flat_map app]. rewrite IH. reflexivity.
  - cbn [flat_map app]. destruct (N.eqb c DQ); rewrite IH; reflexivity.
Qed.

Lemma escape_wpa_cons (c : char) (v : str) :
  escape_wpa (c :: v) = escape_char c ++ escape_wpa v.
Proof. rewrite !escape_wpa_chars. reflexivity. Qed.

Lemma escape_wpa_nil : escape_wpa [] = [].
Proof. reflexivity. Qed.

(** The escaped forms are a prefix code closed by the double quote: two
    escaped strings, each followed by a double quote, that start the same
    text come from the same string. *)
Lemma escape_wpa_closed (a b r1 r2 : str) :
  escape_wpa a ++ DQ :: r1 = escape_wpa b ++ DQ :: r2 -> a = b.
Proof.
  revert b. induction a as [|x a IH]; intros [|y b] H.
  - reflexivity.
  - rewrite escape_wpa_cons, escape_wpa_nil in H.
    case_escape y H; try discriminate.
    injection H as H _. congruence.
  - rewrite escape_wpa_cons, escape_wpa_nil in H.
    case_escape x H; try discriminate.
    injection H as H _. congruence.
  - rewrite !escape_wpa_cons in H.
    case_escape x H; case_escape y H; try discriminate;
      try (injection H as H; f_equal; eauto; congruence);
      try (injection H as H1 H2; congruence).
Qed.

Lemma escape_wpa_injective (a b : str) : escape_wpa a = escape_wpa b -> a = b.
Proof.
  intro H. apply escape_wpa_closed with (r1 := []) (r2 := []).
  rewrite H. reflexivity.
Qed.

(** Inside an escaped string every double quote comes right after a
    backslash. *)
Lemma escape_wpa_quote_after_backslash (v x y : str) :
  escape_wpa v = x ++ DQ :: y -> exists x', x = x' ++ [BSL].
Proof.
  revert x. induction v as [|c v IH]; intros x H.
  - rewrite escape_wpa_nil in H. destruct x; discriminate.
  - rewrite escape_wpa_cons in H.
    case_escape c H.
    + destruct x as [|x0 [|x1 x]]; try discriminate.
      injection H as <- <- H. destruct (IH _ H) as [x' ->].
      exists (BSL :: BSL :: x'). reflexivity.
    + destruct x as [|x0 [|x1 x]]; try discriminate.
      * injection H as <- _. exists []. reflexivity.
      * injection H as <- <- H. destruct (IH _ H) as [x' ->].
        exists (BSL :: DQ :: x'). reflexivity.
    + destruct x as [|x0 x]; cbn [app] in H.
      * injection H as H _. congruence.
      * injection H as <- H. destruct (IH _ H) as [x' ->].
        exists (c :: x'). reflexivity.
Qed.

Lemma quotes_escaped_escape_wpa (v : str) :
  quotes_escaped (escape_wpa v) = true.
Proof.
  unfold quotes_escaped. induction v as [|c v IH]; [reflexivity|].
  rewrite escape_wpa_cons.
  destruct (escape_char_cases c) as [[-> Hc]|[[-> Hc]|(Hb & Hq & Hc)]];
    rewrite Hc; cbn; try exact IH.
  apply N.eqb_neq in Hb, Hq. rewrite Hb, Hq. exact IH.
Qed.

End EscapeFacts.

(* ===================================================================== *)
(** * Facts about text files *)
(* ===================================================================== *)

Section TextFacts.

Local Open Scope N_scope.

Local Ltac Zify.zify_post_hook ::= Z.to_euclidean_division_equations.

Local Ltac bool_prop :=
  unfold lead2, lead3, lead4, cont;
  repeat rewrite ?andb_true_iff, ?orb_true_iff, ?N.eqb_eq, ?N.leb_le,
    ?N.ltb_lt.

Local Ltac bool_true := bool_prop; lia.

Local Ltac bool_false :=
  let H := fresh "H" in
  apply not_true_is_false; intro H; revert H; bool_prop; lia.

Lemma decode_ascii (b0 : byte) (r0 : list byte) :
  b0 < 0x80 -> utf8_decode_ignore (b0 :: r0) = b0 :: utf8_decode_ignore r0.
Proof.
  intro H. apply N.ltb_lt in H. cbn [utf8_decode_ignore]. rewrite H.
  reflexivity.
Qed.

Lemma decode_two (b0 b1 : byte) (r1 : list byte) :
  lead2 b0 && cont b1 = true ->
  utf8_decode_ignore (b0 :: b1 :: r1) = cp2 b0 b1 :: utf8_decode_ignore r1.
Proof.
  intro H. cbn [utf8_decode_ignore]. rewrite H.
  replace (b0 <? 0x80) with false; [reflexivity|].
  symmetry. revert H. bool_prop. intro H. apply N.ltb_ge. lia.
Qed.

Lemma decode_three (b0 b1 b2 : byte) (r2 : list byte) :
  lead3 b0 b1 && cont b2 = true ->
  utf8_decode_ignore (b0 :: b1 :: b2 :: r2)
  = cp3 b0 b1 b2 :: utf8_decode_ignore r2.
Proof.
  intro H. cbn [utf8_decode_ignore]. rewrite H.
  replace (b0 <? 0x80) with false.
  2:{ symmetry. revert H. bool_prop. intro H. apply N.ltb_ge. lia. }
  replace (lead2 b0 && cont b1)%bool with false; [reflexivity|].
  symmetry. revert H. bool_prop. intro H. bool_false.
Qed.

Lemma decode_four (b0 b1 b2 b3 : byte) (r3 : list byte) :
  lead4 b0 b1 && cont b2 && cont b3 = true ->
  utf8_decode_ignore (b0 :: b1 :: b2 :: b3 :: r3)
  = cp4 b0 b1 b2 b3 :: utf8_decode_ignore r3.
Proof.
  intro H. cbn [utf8_decode_ignore]. rewrite H.
  replace (b0 <? 0x80) with false.
  2:{ symmetry. revert H. bool_prop. intro H. apply N.ltb_ge. lia. }
  replace (lead2 b0 && cont b1)%bool with false.
  2:{ symmetry. revert H. bool_prop. intro H. bool_false. }
  replace (lead3 b0 b1 && cont b2)%bool with false; [reflexivity|].
  symmetry. revert H. bool_prop. intro H. bool_false.
Qed.

Lemma cp2_encode (c : char) :
  0x80 <= c -> c < 0x800 -> cp2 (0xC0 + c / 64) (0x80 + c mod 64) = c.
Proof. intros. unfold cp2. lia. Qed.

Lemma cp3_encode (c : char) :
  0x800 <= c -> c < 0x10000 ->
  cp3 (0xE0 + c / 4096) (0x80 + (c / 64) mod 64) (0x80 + c mod 64) = c.
Proof. intros. unfold cp3. lia. Qed.

Lemma cp4_encode (c : char) :
  0x10000 <= c -> c < 0x110000 ->
  cp4 (0xF0 + c / 262144) (0x80 + (c / 4096) mod 64)
      (0x80 + (c / 64) mod 64) (0x80 + c mod 64) = c.
Proof. intros. unfold cp4. lia. Qed.

Lemma Some_eq {A} (x y : A) : Some x = Some y -> x = y.
Proof. congruence. Qed.

(** Decoding gives back what was encoded. *)
Lemma decode_encode_char (c : char) (bs rest : list byte) :
  encode_char c = Some bs ->
  utf8_decode_ignore (bs ++ rest) = c :: utf8_decode_ignore rest.
Proof.
  unfold encode_char.
  destruct (N.ltb_spec c 0x80) as [H1|H1].
  { intro H. apply Some_eq in H. subst bs. apply decode_ascii. exact H1. }
  destruct (N.ltb_spec c 0x800) as [H2|H2].
  { intro H. apply Some_eq in H. subst bs. cbn [app].
    rewrite decode_two by bool_true.
    rewrite cp2_encode by assumption. reflexivity. }
  destruct (N.ltb_spec c 0x10000) as [H3|H3].
  { destruct ((0xD800 <=? c) && (c <=? 0xDFFF))%bool eqn:Hs; [discriminate|].
    intro H. apply Some_eq in H. subst bs. cbn [app].
    apply not_true_iff_false in Hs. revert Hs. bool_prop. intro Hs.
    rewrite decode_three by bool_true.
    rewrite cp3_encode by assumption. reflexivity. }
  destruct (N.ltb_spec c 0x110000) as [H4|H4]; [|discriminate].
  intro H. apply Some_eq in H. subst bs. cbn [app].
  rewrite decode_four by bool_true.
  rewrite cp4_encode by assumption. reflexivity.
Qed.

Lemma decode_encode (s : str) (bs rest : list byte) :
  utf8_encode s = Some bs ->
  utf8_decode_ignore (bs ++ rest) = (s ++ utf8_decode_ignore rest)%list.
Proof.
  revert bs. induction s as [|c s IH]; intros bs H; cbn in H.
  - injection H as <-. reflexivity.
  - destruct (encode_char c) as [b1|] eqn:Hc; [|discriminate].
    destruct (utf8_encode s) as [b2|] eqn:Hs; [|discriminate].
    injection H as <-. rewrite <- app_assoc.
    rewrite (decode_encode_char _ _ Hc), (IH _ eq_refl). reflexivity.
Qed.

Lemma utf8_encode_app (s t : str) (bs bt : list byte) :
  utf8_encode s = Some bs -> utf8_encode t = Some bt ->
  utf8_encode (s ++ t) = Some (bs ++ bt)%list.
Proof.
  revert bs. induction s as [|c s IH]; intros bs Hs Ht; cbn in *.
  - injection Hs as <-. exact Ht.
  - destruct (encode_char c) as [b1|]; [|discriminate].
    destruct (utf8_encode s) as [b2|]; [|discriminate].
    injection Hs as <-. rewrite (IH _ eq_refl Ht), app_assoc. reflexivity.
Qed.

(** One step of the decoder, with the recursive calls left folded. *)
Lemma decode_unfold (b0 : byte) (r0 : list byte) :
  utf8_decode_ignore (b0 :: r0) =
    if b0 <? 0x80 then b0 :: utf8_decode_ignore r0
    else
      match r0 with
      | [] => []
      | b1 :: r1 =>
          if lead2 b0 && cont b1 then cp2 b0 b1 :: utf8_decode_ignore r1
          else
            match r1 with
            | [] => utf8_decode_ignore r0
            | b2 :: r2 =>
                if lead3 b0 b1 && cont b2
                then cp3 b0 b1 b2 :: utf8_decode_ignore r2
                else
                  match r2 with
                  | [] => utf8_decode_ignore r0
                  | b3 :: r3 =>
                      if lead4 b0 b1 && cont b2 && cont b3
                      then cp4 b0 b1 b2 b3 :: utf8_decode_ignore r3
                      else utf8_decode_ignore r0
                  end
            end
      end.
Proof. reflexivity. Qed.

(** Data that starts with an ASCII byte is decoded on its own, whatever
    bytes, well-formed or not, come before it. *)
Lemma decode_app_ascii_len (n : nat) :
  forall (old : list byte) (a : byte) (t : list byte),
    (List.length old <= n)%nat -> a < 0x80 ->
    utf8_decode_ignore (old ++ a :: t)
    = (utf8_decode_ignore old ++ utf8_decode_ignore (a :: t))%list.
Proof.
  induction n as [|n IH]; intros old a t Hlen Ha.
  { destruct old; [reflexivity | cbn in Hlen; lia]. }
  destruct old as [|b0 r0]; [reflexivity|].
  assert (Hc : cont a = false) by bool_false.
  assert (Hl3 : forall b, lead3 b a = false) by (intro; bool_false).
  assert (Hl4 : forall b, lead4 b a = false) by (intro; bool_false).
  cbn [List.length] in Hlen.
  cbn [app]. rewrite (decode_unfold b0 (r0 ++ a :: t)), (decode_unfold b0 r0).
  destruct (b0 <? 0x80).
  { rewrite IH by (assumption || lia). reflexivity. }
  destruct r0 as [|b1 r1]; cbn [app List.length] in *.
  { rewrite Hc, andb_false_r.
    destruct t as [|b2 [|b3 r3]]; rewrite ?Hl3, ?Hl4; reflexivity. }
  destruct (lead2 b0 && cont b1)%bool.
  { rewrite IH by (assumption || lia). reflexivity. }
  destruct r1 as [|b2 r2]; cbn [app List.length] in *.
  { rewrite Hc, andb_false_r.
    change (b1 :: a :: t) with ([b1] ++ a :: t)%list.
    destruct t as [|b3 r3]; rewrite ?Hc, ?andb_false_r;
      apply IH; cbn; (assumption || lia). }
  destruct (lead3 b0 b1 && cont b2)%bool.
  { rewrite IH by (assumption || lia). reflexivity. }
  destruct r2 as [|b3 r3]; cbn [app List.length] in *.
  { rewrite Hc, andb_false_r.
    change (b1 :: b2 :: a :: t) with ([b1; b2] ++ a :: t)%list.
    apply IH; cbn; (assumption || lia). }
  destruct (lead4 b0 b1 && cont b2 && cont b3)%bool.
  { rewrite IH by (assumption || lia). reflexivity. }
  change (b1 :: b2 :: b3 :: r3 ++ a :: t)%list
    with ((b1 :: b2 :: b3 :: r3) ++ a :: t)%list.
  apply IH; cbn; (assumption || lia).
Qed.

Lemma decode_app_ascii (old : list byte) (a : byte) (t : list byte) :
  a < 0x80 ->
  utf8_decode_ignore (old ++ a :: t)
  = (utf8_decode_ignore old ++ utf8_decode_ignore (a :: t))%list.
Proof. intro Ha. exact (decode_app_ascii_len old t (le_n _) Ha). Qed.

(** ** Universal newlines *)

Lemma universal_newlines_no_cr_app (s t : str) :
  no_cr s = true ->
  universal_newlines (s ++ t) = (s ++ universal_newlines t)%list.
Proof.
  induction s as [|c s IH]; intro H; [reflexivity|].
  cbn in H. apply andb_true_iff in H. destruct H as [Hc Hs].
  cbn [app universal_newlines].
  apply negb_true_iff in Hc. rewrite Hc, (IH Hs). reflexivity.
Qed.

Lemma universal_newlines_no_cr (s : str) :
  no_cr s = true -> universal_newlines s = s.
Proof.
  intro H. rewrite <- (app_nil_r s) at 1.
  rewrite universal_newlines_no_cr_app by exact H. apply app_nil_r.
Qed.

(** Text that does not start with a line feed is translated on its own,
    whatever comes before it. *)
Lemma universal_newlines_app_len (n : nat) :
  forall (s : str) (c : char) (t : str),
    (List.length s <= n)%nat -> c <> LF ->
    universal_newlines (s ++ c :: t)
    = (universal_newlines s ++ universal_newlines (c :: t))%list.
Proof.
  induction n as [|n IH]; intros s c t Hlen Hc.
  { destruct s; [reflexivity | cbn in Hlen; lia]. }
  destruct s as [|x s]; [reflexivity|].
  cbn [List.length] in Hlen.
  cbn [app]. cbn [universal_newlines]. fold universal_newlines.
  destruct (N.eqb x CR).
  - destruct s as [|d s]; cbn [app List.length] in *.
    + apply N.eqb_neq in Hc. rewrite Hc. reflexivity.
    + cbn [app]. destruct (N.eqb d LF).
      * rewrite IH by (assumption || lia). reflexivity.
      * change (d :: s ++ c :: t)%list with ((d :: s) ++ c :: t)%list.
        rewrite IH by (cbn; assumption || lia). reflexivity.
  - rewrite IH by (assumption || lia). reflexivity.
Qed.

Lemma universal_newlines_app (s : str) (c : char) (t : str) :
  c <> LF ->
  universal_newlines (s ++ c :: t)
  = (universal_newlines s ++ universal_newlines (c :: t))%list.
Proof. intro Hc. exact (universal_newlines_app_len s t (le_n _) Hc). Qed.

Lemma universal_newlines_app_text (s t : str) :
  startswith [LF] t = false ->
  universal_newlines (s ++ t)
  = (universal_newlines s ++ universal_newlines t)%list.
Proof.
  destruct t as [|c t]; intro H.
  - rewrite !app_nil_r. reflexivity.
  - apply universal_newlines_app. intros ->. discriminate.
Qed.

End TextFacts.

(* ===================================================================== *)
(** * Facts about the network block *)
(* ===================================================================== *)

Section BlockFacts.

Lemma network_block_entries (ssid password : str) :
  network_block ssid password
  = block_open ++ ssid_entry ssid ++ block_mid ++ psk_entry password
    ++ block_close.
Proof.
  unfold network_block, ssid_entry, psk_entry, block_open, block_mid,
    block_close.
  repeat rewrite <- app_assoc. reflexivity.
Qed.

(** The same block cut at its four double quotes. *)
Lemma network_block_quotes (ssid password : str) :
  network_block ssid password
  = (block_open ++ lit "ssid=") ++ [DQ] ++ escape_wpa ssid
    ++ [DQ] ++ (block_mid ++ lit "psk=") ++ [DQ] ++ escape_wpa password
    ++ [DQ] ++ block_close.
Proof.
  unfold network_block, block_open, block_mid, block_close.
  repeat rewrite <- app_assoc. reflexivity.
Qed.

Lemma entry_occurrence (l1 b l2 : str) :
  l1 ++ ssid_entry b ++ l2
  = (l1 ++ lit "ssid=") ++ [DQ] ++ escape_wpa b ++ [DQ] ++ l2.
Proof. unfold ssid_entry. repeat rewrite <- app_assoc. reflexivity. Qed.

(** Two ways of cutting one list at an element [q]: the cuts coincide, or
    one lies inside a side of the other. *)
Lemma app_cons_split {A} (q : A) (x1 y1 x2 y2 : list A) :
  x1 ++ [q] ++ y1 = x2 ++ [q] ++ y2 ->
  (x1 = x2 /\ y1 = y2)
  \/ (exists m, x2 = x1 ++ [q] ++ m /\ y1 = m ++ [q] ++ y2)
  \/ (exists m, x1 = x2 ++ [q] ++ m /\ y2 = m ++ [q] ++ y1).
Proof.
  revert x2. induction x1 as [|a x1 IH]; intros [|b x2] H; cbn in H.
  - injection H as H. left. auto.
  - injection H as <- H. right. left. exists x2. auto.
  - injection H as -> H. right. right. exists x1. auto.
  - injection H as <- H.
    destruct (IH _ H) as [[-> ->]|[[m [-> ->]]|[m [-> ->]]]].
    + left. auto.
    + right. left. exists m. auto.
    + right. right. exists m. auto.
Qed.

Lemma suffix_eq {A} (x y s t : list A) :
  List.length s = List.length t -> x ++ s = y ++ t -> s = t.
Proof.
  intros Hl H.
  assert (Hxy : List.length x = List.length y).
  { apply (f_equal (@List.length A)) in H. rewrite !length_app in H. lia. }
  clear Hl. revert y H Hxy.
  induction x as [|a x IH]; intros [|b y] H Hxy; cbn in *;
    try discriminate; [exact H|].
  injection H as _ H. injection Hxy as Hxy. exact (IH _ H Hxy).
Qed.

Lemma no_quote_inside (pre m rest : str) :
  existsb (N.eqb DQ) pre = false -> pre <> m ++ [DQ] ++ rest.
Proof.
  intros Hn ->. rewrite existsb_app in Hn. cbn in Hn.
  rewrite orb_true_r in Hn. discriminate.
Qed.

Lemma escape_wpa_head (b : str) (h : char) (r : str) :
  escape_wpa b = h :: r -> h <> BSL -> exists b', b = h :: b'.
Proof.
  destruct b as [|x b]; [discriminate|].
  rewrite escape_wpa_cons. intros H Hh.
  case_escape x H; injection H as H _; try congruence.
  subst h. exists b. reflexivity.
Qed.

(** An escaped string closed by its quote cannot start a text that begins
    with a line feed, unless the string itself begins with a line feed. *)
Lemma closed_escape_before_line_feed (b r1 r2 : str) :
  startswith [LF] b = false ->
  escape_wpa b ++ [DQ] ++ r1 <> LF :: r2.
Proof.
  intros Hb H. destruct (escape_wpa b) as [|h r] eqn:He; cbn in H.
  - discriminate.
  - injection H as -> _.
    destruct (escape_wpa_head _ He) as [b' ->]; [discriminate|].
    discriminate.
Qed.

(** The entry looked for never ends on a quote that lies inside an escaped
    string: there the quote follows a backslash, in the entry it follows
    the equals sign. *)
Lemma entry_quote_not_inside (v x y pre l1 : str) :
  escape_wpa v = x ++ [DQ] ++ y -> l1 ++ lit "ssid=" <> pre ++ x.
Proof.
  intros He H. destruct (escape_wpa_quote_after_backslash _ _ _ He) as [x' ->].
  assert (Hs : lit "=" = [BSL]).
  { apply (@suffix_eq _ (l1 ++ lit "ssid") (pre ++ x')); [reflexivity|].
    rewrite <- !app_assoc. exact H. }
  discriminate.
Qed.

(** The entry of one SSID does not occur in the block written for another
    one, provided the SSID looked for does not begin with a line feed. *)
Lemma entry_not_in_other_block (a b p : str) :
  a <> b -> startswith [LF] b = false ->
  str_in (ssid_entry b) (network_block a p) = false.
Proof.
  intros Hab Hb. apply str_in_false_iff. intros l1 l2 H.
  rewrite network_block_quotes, entry_occurrence in H.
  apply app_cons_split in H.
  destruct H as [[H1 H2]|[[m [H1 H2]]|[m [H1 H2]]]].
  - apply escape_wpa_closed in H2. congruence.
  - (* the quote of the entry lies after the opening quote of the SSID *)
    apply app_cons_split in H2.
    destruct H2 as [[H3 H4]|[[m2 [H3 H4]]|[m2 [H3 H4]]]].
    + symmetry in H4. exact (closed_escape_before_line_feed _ _ Hb H4).
    + subst m.
      apply app_cons_split in H4.
      destruct H4 as [[H5 H6]|[[m3 [H5 H6]]|[m3 [H5 H6]]]].
      * (* the opening quote of the password: [psk=] is not [ssid=] *)
        subst m2.
        assert (Hs : lit "d=" = lit "k=").
        { apply (@suffix_eq _ (l1 ++ lit "ssi")
                   ((block_open ++ lit "ssid=") ++ [DQ] ++ escape_wpa a
                    ++ [DQ] ++ block_mid ++ lit "ps")); [reflexivity|].
          rewrite <- (app_assoc l1).
          change (lit "ssi" ++ lit "d=") with (lit "ssid=").
          rewrite H1. repeat rewrite <- app_assoc. reflexivity. }
        discriminate.
      * subst m2.
        apply app_cons_split in H6.
        destruct H6 as [[H7 H8]|[[m4 [H7 H8]]|[m4 [H7 H8]]]].
        -- symmetry in H8.
           exact (closed_escape_before_line_feed _ _ Hb H8).
        -- exact (@no_quote_inside block_close _ _ eq_refl H8).
        -- rewrite !app_assoc in H1.
           exact (@entry_quote_not_inside _ _ _ _ _ H7 H1).
      * exact (@no_quote_inside (block_mid ++ lit "psk=") _ _ eq_refl H5).
    + rewrite !app_assoc in H1.
      exact (@entry_quote_not_inside _ _ _ _ _ H3 H1).
  - exact (@no_quote_inside (block_open ++ lit "ssid=") _ _ eq_refl H1).
Qed.

Lemma no_cr_app (s t : str) : no_cr (s ++ t) = no_cr s && no_cr t.
Proof. apply forallb_app. Qed.

Lemma no_cr_escape_wpa (v : str) : no_cr v = true -> no_cr (escape_wpa v) = true.
Proof.
  induction v as [|c v IH]; intro H; [reflexivity|].
  cbn in H. apply andb_true_iff in H. destruct H as [Hc Hv].
  rewrite escape_wpa_cons, no_cr_app, (IH Hv), andb_true_r.
  destruct (escape_char_cases c) as [[-> He]|[[-> He]|(_ & _ & He)]];
    rewrite He; try reflexivity.
  cbn. rewrite Hc. reflexivity.
Qed.

Lemma no_cr_ssid_entry (ssid : str) :
  no_cr ssid = true -> no_cr (ssid_entry ssid) = true.
Proof.
  intro H. unfold ssid_entry. rewrite !no_cr_app, (no_cr_escape_wpa _ H).
  reflexivity.
Qed.

Lemma no_cr_network_block (ssid password : str) :
  no_cr ssid = true -> no_cr password = true ->
  no_cr (network_block ssid password) = true.
Proof.
  intros Hs Hp. unfold network_block.
  rewrite !no_cr_app, (no_cr_escape_wpa _ Hs), (no_cr_escape_wpa _ Hp).
  reflexivity.
Qed.

(** The block as it is read back when it was the last thing written to a
    file, for an SSID without carriage return: the entry is found. *)
Lemma appended_entry_present (old data : list byte) (ssid password : str) :
  no_cr ssid = true ->
  utf8_encode (network_block ssid password) = Some data ->
  str_in (ssid_entry ssid) (decode_text (old ++ data)) = true.
Proof.
  intros Hcr Henc. unfold decode_text.
  assert (Hd : utf8_decode_ignore (old ++ data)
               = utf8_decode_ignore old ++ network_block ssid password).
  { pose proof (decode_encode _ [] Henc) as Hde.
    rewrite app_nil_r in Hde. cbn [utf8_decode_ignore] in Hde.
    rewrite app_nil_r in Hde. rewrite <- Hde.
    unfold network_block in Henc. cbn [app utf8_encode] in Henc.
    change (encode_char LF) with (Some [LF]) in Henc.
    destruct (utf8_encode _) as [d1|] in Henc; [|discriminate].
    apply Some_eq in Henc. subst data. cbn [app].
    apply decode_app_ascii. reflexivity. }
  rewrite Hd, network_block_entries, app_assoc.
  rewrite universal_newlines_app_text by reflexivity.
  rewrite (@universal_newlines_no_cr_app (ssid_entry ssid) _
             (no_cr_ssid_entry _ Hcr)).
  apply str_in_intro.
Qed.

End BlockFacts.

(* ===================================================================== *)
(** * Effects of a computation *)
(* ===================================================================== *)

Section Tame.

Variable P : event -> bool.

Lemma tame_ret {A} (a : A) : tame P (ret a).
Proof.
  intro w. cbn. repeat split; try congruence.
  exists []. rewrite app_nil_r. auto.
Qed.

Lemma tame_get {A} (f : world -> A) : tame P (get f).
Proof. exact (fun w => tame_ret (f w) w). Qed.

Lemma tame_raise {A} (e : exn) : is_Exception e = true -> tame P (@raise A e).
Proof.
  intros He w. cbn. repeat split; try congruence.
  exists []. rewrite app_nil_r. auto.
Qed.

Lemma tame_emit (e : event) : P e = true -> tame P (emit e).
Proof.
  intros He w. cbn. repeat split; try congruence.
  exists [e]. cbn. rewrite He. auto.
Qed.

Lemma tame_bind {A B} (m : M A) (k : A -> M B) :
  tame P m -> (forall a, tame P (k a)) -> tame P (bind m k).
Proof.
  intros Hm Hk w. unfold bind.
  destruct (Hm w) as ([evs [Ht Hp]] & Hi & Hn & Hx & Hr).
  destruct (m w) as [[a|e|c] w1]; cbn [fst snd] in *.
  - destruct (Hk a w1) as ([evs' [Ht' Hp']] & Hi' & Hn' & Hx' & Hr').
    repeat split; try congruence; auto.
    exists (evs ++ evs'). rewrite Ht', Ht, app_assoc, forallb_app, Hp, Hp'.
    auto.
  - split; [exists evs; auto|]. repeat split; try congruence.
    intros e0 He. injection He as <-. exact (Hr e eq_refl).
  - exfalso. exact (Hx c eq_refl).
Qed.

End Tame.

Section TameFiles.

Variables (E : env) (P : event -> bool).

Ltac tame_now :=
  cbn; repeat split; try congruence;
  try (eexists []; rewrite app_nil_r; split; reflexivity);
  try (intros ? He; injection He as <-; reflexivity).

Lemma tame_read_text : tame P (read_text E).
Proof.
  intro w. unfold read_text.
  destruct (io_fault E (trace w) OpRead); [tame_now|].
  destruct (config_file w); tame_now.
Qed.

Lemma tame_mkdir_parent : tame P (mkdir_parent E).
Proof.
  intro w. unfold mkdir_parent.
  destruct (io_fault E (trace w) OpMkdir); tame_now.
Qed.

Lemma tame_append_text (text : str) : tame P (append_text E text).
Proof.
  intro w. unfold append_text.
  destruct (io_fault E (trace w) OpOpen || negb (config_dir w)); [tame_now|].
  destruct (utf8_encode text); [|tame_now].
  destruct (io_fault E (trace w) OpWrite); tame_now.
Qed.

End TameFiles.

(* ===================================================================== *)
(** * Credential Persistor *)
(* ===================================================================== *)

Section Persist.

Variable E : env.

Lemma persist_present (ssid password : str) (w : world) :
  (config_file w <> None -> io_fault E (trace w) OpRead = false) ->
  str_in (ssid_entry ssid) (existing_text w) = true ->
  write_wifi_credentials E ssid password w =
    (Ret tt,
     extend w
       [Log INFO
          "SSID already present in wpa_supplicant. Skipping file append." []]).
Proof.
  intros Hread Hin. unfold write_wifi_credentials, existing_text in *.
  unfold bind, config_exists, get, read_text.
  destruct (config_file w) as [data|] eqn:Hf.
  - rewrite Hread by discriminate. rewrite Hf. cbv beta iota.
    rewrite Hin. reflexivity.
  - unfold ret. cbv beta iota. rewrite Hin. reflexivity.
Qed.

Lemma persist_absent (ssid password : str) (w : world) (data : list byte) :
  (config_file w <> None -> io_fault E (trace w) OpRead = false) ->
  str_in (ssid_entry ssid) (existing_text w) = false ->
  io_fault E (trace w) OpMkdir = false ->
  io_fault E (trace w) OpOpen = false ->
  io_fault E (trace w) OpWrite = false ->
  utf8_encode (network_block ssid password) = Some data ->
  write_wifi_credentials E ssid password w =
    (Ret tt,
     mkWorld (Some (file_bytes w ++ data)) true (WIFI_INTERFACE w)
             (HOTSPOT_CONNECTION_NAME w)
             (trace w ++
                [Log INFO "Wi-Fi credentials appended to %s"
                     [Str WPA_SUPPLICANT_FILE]])).
Proof.
  intros Hread Hin Hmk Hop Hwr Henc.
  unfold write_wifi_credentials, existing_text, file_bytes in *.
  unfold bind, config_exists, get, read_text, mkdir_parent, append_text,
    set_config, LOGGER_info, emit, ret.
  destruct (config_file w) as [old|] eqn:Hf.
  - rewrite Hread by discriminate. rewrite Hf. cbv beta iota.
    rewrite Hin, Hmk. cbn [trace config_dir config_file].
    rewrite Hop. cbn [negb orb]. rewrite Henc, Hwr, Hf. reflexivity.
  - cbv beta iota. rewrite Hin, Hmk. cbn [trace config_dir config_file].
    rewrite Hop. cbn [negb orb]. rewrite Henc, Hwr, Hf. reflexivity.
Qed.

(** Whatever happens, [write_wifi_credentials] only logs: it runs no
    command, starts no thread, leaves the globals alone, does not end the
    process and raises only what [except Exception] catches. *)
Lemma persist_tame (ssid password : str) :
  tame is_log (write_wifi_credentials E ssid password).
Proof.
  unfold write_wifi_credentials.
  apply tame_bind; [apply tame_get|]. intro ex.
  apply tame_bind.
  - destruct ex; [apply tame_read_text | apply tame_ret].
  - intro existing. destruct (str_in _ existing).
    + apply tame_emit. reflexivity.
    + apply tame_bind; [apply tame_mkdir_parent|]. intros _.
      apply tame_bind; [apply tame_append_text|]. intros _.
      apply tame_emit. reflexivity.
Qed.

(** For an SSID without carriage return the presence check finds the block
    that an earlier call appended: a second call, with any password,
    appends nothing. *)
Lemma persist_again_skips (ssid password password' : str) (w : world)
      (data : list byte) :
  no_cr ssid = true ->
  (forall tr op, io_fault E tr op = false) ->
  str_in (ssid_entry ssid) (existing_text w) = false ->
  utf8_encode (network_block ssid password) = Some data ->
  let w1 := snd (write_wifi_credentials E ssid password w) in
  config_file w1 = Some (file_bytes w ++ data)
  /\ fst (write_wifi_credentials E ssid password' w1) = Ret tt
  /\ config_file (snd (write_wifi_credentials E ssid password' w1))
     = config_file w1.
Proof.
  intros Hcr Hio Hin Henc.
  rewrite (@persist_absent ssid password w data); auto.
  cbn [snd config_file]. split; [reflexivity|].
  rewrite persist_present.
  - cbn. auto.
  - intros _. apply Hio.
  - unfold existing_text. cbn [config_file].
    apply appended_entry_present with (password := password); assumption.
Qed.

End Persist.

(** C1 (defect of the code).  The claim: when the escaped SSID is already in
    the configuration file, [write_wifi_credentials] returns without
    changing the file, so that persisting one SSID twice leaves one block.
    The code reads the file in text mode with universal newlines, which
    turns every carriage return into a line feed before the presence check:
    for the SSID [a\rb] the first call appends the block, whose bytes hold
    the entry [ssid="a\rb"]; the second call does not find that entry in
    the text it reads and appends the same block again. *)
Theorem persist_twice_carriage_return_duplicates :
  let ssid := lit "a" ++ [CR] ++ lit "b" in
  let password := lit "x" in
  let w1 := snd (write_wifi_credentials quiet_env ssid password fresh_world) in
  let r2 := write_wifi_credentials quiet_env ssid password w1 in
  exists data entry,
    utf8_encode (network_block ssid password) = Some data
    /\ utf8_encode (ssid_entry ssid) = Some entry
    /\ config_file w1 = Some data
    /\ str_in entry data = true
    /\ str_in (ssid_entry ssid) (existing_text w1) = false
    /\ fst r2 = Ret tt
    /\ config_file (snd r2) = Some (data ++ data).
Proof.
  cbv zeta. eexists. eexists.
  split; [vm_compute; reflexivity|].
  split; [vm_compute; reflexivity|].
  repeat split; vm_compute; reflexivity.
Qed.

(** On the path where the text read from the file shows no entry of the
    SSID and no file operation fails, [write_wifi_credentials] returns
    normally, the file holds its former bytes followed by the UTF-8
    encoding of one network block, and the parent directory exists
    afterwards; the block consists of the entry of the escaped SSID, the
    entry of the escaped password and the directive [key_mgmt=WPA-PSK]. *)
Lemma persist_appends_one_block (E : env) (ssid password : str) (w : world)
        (data : list byte) :
  (config_file w <> None -> io_fault E (trace w) OpRead = false) ->
  str_in (ssid_entry ssid) (existing_text w) = false ->
  io_fault E (trace w) OpMkdir = false ->
  io_fault E (trace w) OpOpen = false ->
  io_fault E (trace w) OpWrite = false ->
  utf8_encode (network_block ssid password) = Some data ->
  let r := write_wifi_credentials E ssid password w in
  fst r = Ret tt
  /\ config_file (snd r) = Some (file_bytes w ++ data)
  /\ config_dir (snd r) = true
  /\ network_block ssid password
     = block_open ++ ssid_entry ssid ++ block_mid ++ psk_entry password
       ++ block_close
  /\ str_in (lit "key_mgmt=WPA-PSK") block_close = true.
Proof.
  intros Hread Hin Hmk Hop Hwr Henc.
  rewrite (@persist_absent E ssid password w data); auto.
  cbn. repeat split. apply network_block_entries.
Qed.

(** C4 (defect of the code).  The claim: when the SSID is not yet in the
    configuration file, [write_wifi_credentials] appends one block for it.
    The code decides on the text it reads, in which every carriage return
    of the file has become a line feed (the defect of C1).  The file that
    holds the block of the SSID [x\ry] does not hold the entry of the
    SSID [x\ny], in its bytes; both SSIDs are trimmed, so the portal
    passes them.  Yet the call for [x\ny] takes it for present: it
    returns normally and has appended nothing. *)
Theorem persist_skips_unwritten_ssid :
  let a := lit "x" ++ [CR] ++ lit "y" in
  let b := lit "x" ++ [LF] ++ lit "y" in
  let w1 := snd (write_wifi_credentials quiet_env a (lit "pw") fresh_world) in
  let r := write_wifi_credentials quiet_env b (lit "pw2") w1 in
  exists data entry,
    strip a = a /\ strip b = b
    /\ config_file w1 = Some data
    /\ utf8_encode (ssid_entry b) = Some entry
    /\ str_in entry data = false
    /\ fst r = Ret tt
    /\ config_file (snd r) = Some data.
Proof.
  cbv zeta. eexists. eexists.
  split; [vm_compute; reflexivity|].
  split; [vm_compute; reflexivity|].
  split; [vm_compute; reflexivity|].
  split; [vm_compute; reflexivity|].
  repeat split; vm_compute; reflexivity.
Qed.

(** C5.  [escape_wpa] puts a doubled backslash for every backslash and a
    backslash and a double quote for every double quote, and leaves every
    other character as it is; the block holds the SSID and the password in
    that form; the password [pa"ss] is written as [pa\"ss]; and in the
    escaped form no double quote stands without a backslash that escapes
    it. *)
Theorem escape_wpa_in_block :
  (forall value, escape_wpa value = flat_map escape_char value)
  /\ (forall ssid password,
        str_in (ssid_entry ssid) (network_block ssid password) = true
        /\ str_in (psk_entry password) (network_block ssid password) = true)
  /\ escape_wpa (lit "pa" ++ [DQ] ++ lit "ss") = lit "pa" ++ [BSL; DQ] ++ lit "ss"
  /\ (forall ssid,
        str_in (lit "psk=" ++ [DQ] ++ lit "pa" ++ [BSL; DQ] ++ lit "ss" ++ [DQ])
               (network_block ssid (lit "pa" ++ [DQ] ++ lit "ss")) = true)
  /\ (forall ssid password,
        quotes_escaped (escape_wpa ssid) = true
        /\ quotes_escaped (escape_wpa password) = true).
Proof.
  split; [exact escape_wpa_chars|].
  split.
  { intros ssid password. rewrite network_block_entries. split.
    - apply str_in_intro.
    - rewrite !app_assoc, <- (app_assoc _ (psk_entry password)).
      apply str_in_intro. }
  split; [reflexivity|].
  split.
  { intro ssid. rewrite network_block_entries.
    change (lit "psk=" ++ [DQ] ++ lit "pa" ++ [BSL; DQ] ++ lit "ss" ++ [DQ])
      with (psk_entry (lit "pa" ++ [DQ] ++ lit "ss")).
    rewrite !app_assoc, <- (app_assoc _ (psk_entry _)).
    apply str_in_intro. }
  intros ssid password. split; apply quotes_escaped_escape_wpa.
Qed.

(** [escape_wpa] is injective.  For two different SSIDs [a] and [b], of
    which [b] does not begin with a line feed, the entry looked for [b]
    does not occur in the block written for [a]; every SSID the portal
    passes is trimmed and so does not begin with a line feed.  When
    moreover [a] and its password hold no carriage return, a call for [b]
    on the file that holds the block of [a] does not take [b] for
    present: it appends the block of [b]. *)
Lemma presence_check_keeps_ssids_apart :
  (forall x y : str, escape_wpa x = escape_wpa y -> x = y)
  /\ (forall a b p : str,
        a <> b -> startswith [LF] b = false ->
        str_in (ssid_entry b) (network_block a p) = false)
  /\ (forall a b p : str,
        a <> strip b ->
        str_in (ssid_entry (strip b)) (network_block a p) = false)
  /\ (forall (E : env) (a b p q : str) (w : world) (da db : list byte),
        a <> b ->
        startswith [LF] b = false ->
        no_cr a = true -> no_cr p = true ->
        config_file w = None ->
        (forall tr op, io_fault E tr op = false) ->
        utf8_encode (network_block a p) = Some da ->
        utf8_encode (network_block b q) = Some db ->
        let w1 := snd (write_wifi_credentials E a p w) in
        config_file w1 = Some da
        /\ fst (write_wifi_credentials E b q w1) = Ret tt
        /\ config_file (snd (write_wifi_credentials E b q w1))
           = Some (da ++ db)).
Proof.
  split; [exact escape_wpa_injective|].
  split; [intros a b p; apply entry_not_in_other_block|].
  split.
  { intros a b p Hab. apply entry_not_in_other_block; [exact Hab|].
    apply strip_no_leading_line_feed. }
  intros E a b p q w da db Hab Hb Ha Hp Hnone Hio Hda Hdb.
  pose proof (entry_not_in_other_block p Hab Hb) as Hsep.
  cbv zeta.
  rewrite (@persist_absent E a p w da); auto.
  2:{ unfold existing_text. rewrite Hnone. reflexivity. }
  unfold file_bytes at 1 2 3. rewrite Hnone. cbn [snd config_file app].
  split; [reflexivity|].
  rewrite (@persist_absent E b q _ db); auto.
  unfold existing_text. cbn [config_file]. unfold decode_text.
  pose proof (decode_encode _ [] Hda) as Hde.
  rewrite app_nil_r in Hde. cbn [utf8_decode_ignore] in Hde.
  rewrite app_nil_r in Hde. rewrite Hde.
  rewrite universal_newlines_no_cr by (apply no_cr_network_block; assumption).
  exact Hsep.
Qed.

(** C10 (defect of the code).  The claim: [escape_wpa] is injective, and so
    the presence check never takes the record of one SSID for that of
    another.  [escape_wpa] is injective, and in the block as written the
    entry of another trimmed SSID does not occur.  But the check looks at
    the text read from the file, in which every carriage return has become
    a line feed (the defect of C1): the file that holds only the record of
    the SSID [x\ry] is read as holding the entry of the different SSID
    [x\ny], and the call for [x\ny] writes nothing.  Both SSIDs are
    trimmed, so the portal passes them. *)
Theorem presence_check_confuses_line_breaks :
  (forall x y : str, escape_wpa x = escape_wpa y -> x = y)
  /\ (let a := lit "x" ++ [CR] ++ lit "y" in
      let b := lit "x" ++ [LF] ++ lit "y" in
      let w1 :=
        snd (write_wifi_credentials quiet_env a (lit "pw") fresh_world) in
      let r := write_wifi_credentials quiet_env b (lit "pw2") w1 in
      a <> b /\ strip a = a /\ strip b = b
      /\ escape_wpa a <> escape_wpa b
      /\ config_file w1 = utf8_encode (network_block a (lit "pw"))
      /\ str_in (ssid_entry b) (network_block a (lit "pw")) = false
      /\ str_in (ssid_entry b) (existing_text w1) = true
      /\ fst r = Ret tt
      /\ config_file (snd r) = config_file w1).
Proof.
  split; [exact escape_wpa_injective|].
  cbv zeta. split; [discriminate|].
  split; [vm_compute; reflexivity|].
  split; [vm_compute; reflexivity|].
  split; [discriminate|].
  repeat split; vm_compute; reflexivity.
Qed.

(* ===================================================================== *)
(** * External commands *)
(* ===================================================================== *)

(** The arguments written out in the program are accepted as they are. *)
Ltac literal_args :=
  repeat match goal with
         | |- context [arg_error (lit ?s)] =>
             let v := eval vm_compute in (arg_error (lit s)) in
             change (arg_error (lit s)) with v
         end.

Section Commands.

Variable E : env.

Lemma extend_extend (w : world) (a b : list event) :
  extend (extend w a) b = extend w (a ++ b).
Proof. unfold extend. cbn. rewrite app_assoc. reflexivity. Qed.

Lemma extend_nil (w : world) : extend w [] = w.
Proof. destruct w. unfold extend. cbn. rewrite app_nil_r. reflexivity. Qed.

Lemma new_events_extend (w : world) (evs : list event) :
  new_events w (extend w evs) = evs.
Proof.
  unfold new_events, extend. cbn [trace].
  rewrite skipn_app, skipn_all, Nat.sub_diag. reflexivity.
Qed.

Lemma run_commands_app (a b : list event) :
  run_commands (a ++ b) = run_commands a ++ run_commands b.
Proof. apply flat_map_app. Qed.

Lemma run_commands_logs (evs : list event) :
  forallb is_log evs = true -> run_commands evs = [].
Proof.
  induction evs as [|e evs IH]; [reflexivity|].
  cbn. intro H. apply andb_true_iff in H. destruct H as [He Hevs].
  destruct e; try discriminate. exact (IH Hevs).
Qed.

Lemma arg_error_command_error (a : str) (e : exn) :
  arg_error a = Some e -> command_error e = true.
Proof.
  unfold arg_error. destruct (negb (forallb fs_encodable a)).
  - intro H. injection H as <-. reflexivity.
  - destruct (existsb (N.eqb 0) a); [|discriminate].
    intro H. injection H as <-. reflexivity.
Qed.

Lemma argument_error_command_error (command : list str) (e : exn) :
  argument_error command = Some e -> command_error e = true.
Proof.
  induction command as [|a rest IH]; cbn [argument_error]; [discriminate|].
  destruct (arg_error a) as [e'|] eqn:Ha; [|exact IH].
  intro H. injection H as <-. exact (arg_error_command_error _ Ha).
Qed.

Lemma command_error_is_Exception (e : exn) :
  command_error e = true -> is_Exception e = true.
Proof. destruct e; try discriminate; reflexivity. Qed.

(** [run_command] logs and hands the command over.  Arguments at fault
    and a program that cannot be started raise before the command runs;
    output that cannot be read raises after it ran; a status that is not
    zero raises when the status is checked. *)
Lemma run_command_eq (command : list str) (check : bool) (w : world) :
  run_command E command check w =
    let w0 := extend w [executing command] in
    let w' := extend w [executing command; Run command] in
    match argument_error command with
    | Some e => (Raise e, w0)
    | None =>
        match proc_result E (trace w ++ [executing command]) command with
        | NotStarted => (Raise OSError, w0)
        | Undecodable => (Raise UnicodeDecodeError, w')
        | Completed returncode stdout =>
            if check && negb (Z.eqb returncode 0)
            then (Raise (CalledProcessError returncode command), w')
            else (Ret (returncode, stdout), w')
        end
    end.
Proof.
  unfold run_command, subprocess_run, bind, LOGGER_info, emit, extend,
    executing.
  cbn [trace config_file config_dir WIFI_INTERFACE HOTSPOT_CONNECTION_NAME].
  destruct (argument_error command); [reflexivity|].
  destruct (proc_result E _ command) as [rc out| |];
    cbn [snd trace config_file config_dir WIFI_INTERFACE
         HOTSPOT_CONNECTION_NAME];
    rewrite <- ?app_assoc; reflexivity.
Qed.

(** A command whose arguments are accepted and that ran to its end. *)
Lemma run_command_completed (command : list str) (check : bool) (w : world)
      (rc : Z) (out : str) :
  argument_error command = None ->
  proc_result E (trace w ++ [executing command]) command = Completed rc out ->
  run_command E command check w =
    if check && negb (Z.eqb rc 0)
    then (Raise (CalledProcessError rc command),
          extend w [executing command; Run command])
    else (Ret (rc, out), extend w [executing command; Run command]).
Proof. intros Ha Hp. rewrite run_command_eq. cbv zeta. rewrite Ha, Hp. reflexivity. Qed.

(** When [run_command] returns, the command ran to its end. *)
Lemma run_command_returns (command : list str) (check : bool) (w w' : world)
      (r : Z * str) :
  run_command E command check w = (Ret r, w') ->
  argument_error command = None
  /\ proc_result E (trace w ++ [executing command]) command
     = Completed (fst r) (snd r)
  /\ w' = extend w [executing command; Run command]
  /\ (check = true -> fst r = 0%Z).
Proof.
  rewrite run_command_eq. cbv zeta.
  destruct (argument_error command); [discriminate|].
  destruct (proc_result E _ command) as [rc out| |]; try discriminate.
  destruct check; cbn [andb].
  - destruct (Z.eqb rc 0) eqn:Hrc; cbn [negb]; [|discriminate].
    intro H. injection H as <- <-. apply Z.eqb_eq in Hrc.
    repeat split; auto.
  - intro H. injection H as <- <-. repeat split; auto. discriminate.
Qed.

(** Whatever happens, [run_command] only logs and runs its command. *)
Lemma run_command_world (command : list str) (check : bool) (w : world) :
  (exists evs, snd (run_command E command check w) = extend w evs
               /\ forallb is_log_or_run evs = true)
  /\ (forall c, fst (run_command E command check w) <> Exit c)
  /\ (forall e, fst (run_command E command check w) = Raise e ->
                command_error e = true).
Proof.
  rewrite run_command_eq. cbv zeta.
  destruct (argument_error command) as [e0|] eqn:Ha.
  { cbn [fst snd]. split; [eexists; split; reflexivity|].
    split; [discriminate|]. intros e H. injection H as <-.
    exact (argument_error_command_error _ Ha). }
  destruct (proc_result E _ command) as [rc out| |].
  - destruct (check && negb (Z.eqb rc 0)); cbn [fst snd];
      (split; [eexists; split; reflexivity|]);
      (split; [discriminate|]); intros e H; [|discriminate].
    injection H as <-. reflexivity.
  - cbn [fst snd]. split; [eexists; split; reflexivity|].
    split; [discriminate|]. intros e H. injection H as <-. reflexivity.
  - cbn [fst snd]. split; [eexists; split; reflexivity|].
    split; [discriminate|]. intros e H. injection H as <-. reflexivity.
Qed.

Lemma run_command_tame (command : list str) (check : bool) :
  tame is_log_or_run (run_command E command check).
Proof.
  intro w. destruct (run_command_world command check w)
    as ((evs & Hw & Hevs) & Hx & Hr).
  rewrite Hw. cbn [extend trace WIFI_INTERFACE HOTSPOT_CONNECTION_NAME].
  split; [exists evs; split; [reflexivity | exact Hevs]|].
  split; [reflexivity|]. split; [reflexivity|]. split; [exact Hx|].
  intros e He. apply command_error_is_Exception. exact (Hr e He).
Qed.

Lemma run_command_commands_only (command : list str) (check : bool) :
  commands_only (run_command E command check).
Proof.
  intro w. destruct (run_command_world command check w)
    as ((evs & Hw & Hevs) & Hx & Hr).
  rewrite Hw. cbn [extend trace WIFI_INTERFACE config_file].
  split; [reflexivity|]. split; [reflexivity|].
  split; [exists evs; split; [reflexivity | exact Hevs]|].
  split; [exact Hx | exact Hr].
Qed.

Lemma commands_only_ret {A} (a : A) : commands_only (ret a).
Proof.
  intro w. cbn. repeat split; try discriminate.
  exists []. rewrite app_nil_r. split; reflexivity.
Qed.

Lemma commands_only_get {A} (f : world -> A) : commands_only (get f).
Proof.
  intro w. cbn. repeat split; try discriminate.
  exists []. rewrite app_nil_r. split; reflexivity.
Qed.

Lemma commands_only_log (lv : level) (fmt : string) (args : list arg) :
  commands_only (emit (Log lv fmt args)).
Proof.
  intro w. cbn. repeat split; try discriminate.
  eexists. split; reflexivity.
Qed.

Lemma commands_only_set_name (v : str) :
  commands_only (set_HOTSPOT_CONNECTION_NAME v).
Proof.
  intro w. cbn. repeat split; try discriminate.
  exists []. rewrite app_nil_r. split; reflexivity.
Qed.

Lemma commands_only_bind {A B} (m : M A) (k : A -> M B) :
  commands_only m -> (forall a, commands_only (k a)) ->
  commands_only (bind m k).
Proof.
  intros Hm Hk w. unfold bind.
  destruct (Hm w) as (Hf & Hi & (evs & Ht & Hevs) & Hx & Hr).
  destruct (m w) as [[a|e|c] w1]; cbn [fst snd] in *.
  - destruct (Hk a w1) as (Hf' & Hi' & (evs' & Ht' & Hevs') & Hx' & Hr').
    split; [congruence|]. split; [congruence|].
    split; [|split; assumption].
    exists (evs ++ evs'). rewrite Ht', Ht, app_assoc, forallb_app, Hevs, Hevs'.
    split; reflexivity.
  - split; [exact Hf|]. split; [exact Hi|].
    split; [exists evs; split; assumption|].
    split; [discriminate|].
    intros e0 He. injection He as <-. exact (Hr e eq_refl).
  - exfalso. exact (Hx c eq_refl).
Qed.



(** An SSID that is refused as an argument stops [connect_to_wifi] at the
    deletion: nothing is run. *)
Lemma connect_to_wifi_refused (ssid password : str) (w : world) (e : exn) :
  arg_error ssid = Some e ->
  connect_to_wifi E ssid password w
  = (Raise e, extend w [executing (delete_command ssid)]).
Proof.
  intro Hs. unfold connect_to_wifi, bind at 1.
  fold (delete_command ssid). rewrite run_command_eq. cbv zeta.
  unfold delete_command at 1. cbn [argument_error]. literal_args.
  cbv beta iota. rewrite Hs. reflexivity.
Qed.

Lemma connect_to_wifi_tame (ssid password : str) :
  tame is_log_or_run (connect_to_wifi E ssid password).
Proof.
  unfold connect_to_wifi.
  apply tame_bind; [apply run_command_tame|]. intros _.
  apply tame_bind; [apply tame_get|]. intro iface.
  apply tame_bind; [apply run_command_tame|]. intros _.
  apply tame_emit. reflexivity.
Qed.

Lemma connect_to_wifi_commands_only (ssid password : str) :
  commands_only (connect_to_wifi E ssid password).
Proof.
  unfold connect_to_wifi.
  apply commands_only_bind; [apply run_command_commands_only|]. intros _.
  apply commands_only_bind; [apply commands_only_get|]. intro iface.
  apply commands_only_bind; [apply run_command_commands_only|]. intros _.
  apply commands_only_log.
Qed.


(** [stop_hotspot] with a remembered name, step by step. *)
Lemma stop_hotspot_eq (w : world) :
  truthy (HOTSPOT_CONNECTION_NAME w) = true ->
  let down := down_command (HOTSPOT_CONNECTION_NAME w) in
  stop_hotspot E w =
    match run_command E down false w with
    | (Ret _, w') =>
        (Ret tt,
         extend w'
           [Log INFO "Hotspot connection '%s' stopped."
                [Str (HOTSPOT_CONNECTION_NAME w)]])
    | (Raise e, w') => (Raise e, w')
    | (Exit c, w') => (Exit c, w')
    end.
Proof.
  intro Hn. cbv zeta. unfold stop_hotspot, bind at 1, get at 1. rewrite Hn.
  unfold bind. fold (down_command (HOTSPOT_CONNECTION_NAME w)).
  destruct (run_command E _ false w) as [[r|e|c] w']; reflexivity.
Qed.

(** The command that brings the profile down ran to its end: its status
    plays no part. *)
Lemma stop_hotspot_completed (w : world) (rc : Z) (out : str) :
  let name := HOTSPOT_CONNECTION_NAME w in
  truthy name = true ->
  argument_error (down_command name) = None ->
  proc_result E (trace w ++ [executing (down_command name)])
    (down_command name) = Completed rc out ->
  stop_hotspot E w =
    (Ret tt,
     extend w [executing (down_command name); Run (down_command name);
               Log INFO "Hotspot connection '%s' stopped." [Str name]]).
Proof.
  cbv zeta. intros Hn Ha Hp. rewrite (stop_hotspot_eq _ Hn). cbv zeta.
  rewrite (@run_command_completed _ false w rc out Ha Hp). cbn [andb].
  rewrite extend_extend. reflexivity.
Qed.


Lemma stop_hotspot_commands_only : commands_only (stop_hotspot E).
Proof.
  unfold stop_hotspot.
  apply commands_only_bind; [apply commands_only_get|]. intro name.
  destruct (truthy name); [|apply commands_only_ret].
  apply commands_only_bind; [apply run_command_commands_only|]. intros _.
  apply commands_only_log.
Qed.

End Commands.

(* ===================================================================== *)
(** * Hotspot Controller and Connection Establisher *)
(* ===================================================================== *)

Section Hotspot.

Variable E : env.

Lemma bind_returns {A B} (m : M A) (k : A -> M B) (w w' : world) (b : B) :
  bind m k w = (Ret b, w') ->
  exists a w1, m w = (Ret a, w1) /\ k a w1 = (Ret b, w').
Proof.
  unfold bind. destruct (m w) as [[a|e|c] w1]; try discriminate.
  intro H. exists a, w1. split; [reflexivity | exact H].
Qed.

Lemma argument_error_active : argument_error active_command = None.
Proof. vm_compute. reflexivity. Qed.

Lemma argument_error_status : argument_error status_command = None.
Proof. vm_compute. reflexivity. Qed.

(** [get_active_connection_for_device], case by case. *)
Lemma get_active_connection_eq (device : str) (w : world) :
  let w0 := extend w [executing active_command] in
  let w' := extend w [executing active_command; Run active_command] in
  get_active_connection_for_device E device w =
    match proc_result E (trace w ++ [executing active_command]) active_command
    with
    | NotStarted => (Raise OSError, w0)
    | Undecodable => (Raise UnicodeDecodeError, w')
    | Completed rc out =>
        if negb (Z.eqb rc 0)
        then (Raise (CalledProcessError rc active_command), w')
        else (Ret (first_connection_on device (splitlines out)), w')
    end.
Proof.
  cbv zeta. unfold get_active_connection_for_device, bind.
  fold active_command. rewrite run_command_eq. cbv zeta.
  rewrite argument_error_active.
  destruct (proc_result E _ active_command) as [rc out| |]; try reflexivity.
  cbn [andb]. destruct (negb (Z.eqb rc 0)); reflexivity.
Qed.

(** What [start_hotspot] leaves when it returns: its three commands ran
    to their end, the query with status 0, and the name is taken from the
    output of the query. *)
Lemma start_hotspot_returns (w wd : world) :
  start_hotspot E w = (Ret tt, wd) ->
  let iface := WIFI_INTERFACE w in
  exists output,
    proc_result E (trace w ++ until_query iface) active_command
    = Completed 0 output
    /\ wd = mkWorld (config_file w) (config_dir w) iface
              (remembered_name iface output)
              (trace w ++ until_query iface
               ++ [Run active_command; hotspot_started iface]).
Proof.
  cbv zeta. unfold start_hotspot. intro H.
  apply bind_returns in H. destruct H as (iface & w0 & Hget & H).
  unfold get in Hget. injection Hget as <- <-.
  fold (managed_command (WIFI_INTERFACE w)) in H.
  fold (hotspot_command (WIFI_INTERFACE w)) in H.
  apply bind_returns in H. destruct H as (r1 & w1 & H1 & H).
  apply run_command_returns in H1. destruct H1 as (_ & _ & -> & _).
  apply bind_returns in H. destruct H as (r2 & w2 & H2 & H).
  apply run_command_returns in H2. destruct H2 as (_ & _ & -> & _).
  apply bind_returns in H. destruct H as (name & w3 & H3 & H).
  rewrite get_active_connection_eq in H3. cbv zeta in H3.
  rewrite !extend_extend in H3. cbn [trace extend app] in H3.
  rewrite <- app_assoc in H3. cbn [app] in H3.
  change (trace w ++ executing (managed_command (WIFI_INTERFACE w))
            :: Run (managed_command (WIFI_INTERFACE w))
            :: executing (hotspot_command (WIFI_INTERFACE w))
            :: Run (hotspot_command (WIFI_INTERFACE w))
            :: [executing active_command])
    with (trace w ++ until_query (WIFI_INTERFACE w)) in H3.
  destruct (proc_result E (trace w ++ until_query (WIFI_INTERFACE w))
              active_command) as [rc out| |]; try discriminate.
  destruct (Z.eqb rc 0) eqn:Hrc; cbn [negb] in H3; [|discriminate].
  apply Z.eqb_eq in Hrc. subst rc.
  injection H3 as <- <-. exists out. split; [reflexivity|].
  unfold bind, set_HOTSPOT_CONNECTION_NAME, LOGGER_info, emit in H.
  injection H as <-.
  unfold remembered_name, until_query, until_hotspot, hotspot_started, extend.
  cbn [trace config_file config_dir WIFI_INTERFACE HOTSPOT_CONNECTION_NAME].
  rewrite <- !app_assoc. reflexivity.
Qed.

(** Whatever happens, [start_hotspot] only logs and runs commands, and
    leaves the file and the interface as they were. *)
Lemma start_hotspot_commands_only : commands_only (start_hotspot E).
Proof.
  unfold start_hotspot.
  apply commands_only_bind; [apply commands_only_get|]. intro iface.
  apply commands_only_bind; [apply run_command_commands_only|]. intros _.
  apply commands_only_bind; [apply run_command_commands_only|]. intros _.
  apply commands_only_bind.
  { unfold get_active_connection_for_device.
    apply commands_only_bind; [apply run_command_commands_only|]. intro r.
    apply commands_only_ret. }
  intro name.
  apply commands_only_bind; [apply commands_only_set_name|]. intros _.
  apply commands_only_log.
Qed.


Lemma str_or_truthy (a b : str) : truthy b = true -> truthy (str_or a b) = true.
Proof. unfold str_or. destruct (truthy a) eqn:Ha; auto. Qed.

End Hotspot.







(* ===================================================================== *)
(** * Credential Capture Portal and Shutdown Sequencer *)
(* ===================================================================== *)

Section Portal.

Variable E : env.

(** A POST whose form Flask refuses: [portal] raises at once. *)
Lemma portal_refused (request : Request) (w : world) (e : exn) :
  str_eqb (method request) (lit "POST") = true ->
  form_error request = Some e ->
  portal E request w = (Raise e, w).
Proof.
  intros Hm Hf. unfold portal. rewrite Hm. unfold request_form. rewrite Hf.
  reflexivity.
Qed.

Lemma portal_invalid (request : Request) (w : world) :
  str_eqb (method request) (lit "POST") = true ->
  form_error request = None ->
  submitted_ssid request = [] \/ submitted_password request = [] ->
  portal E request w = (Ret required_page, w).
Proof.
  intros Hm Hf Hempty. unfold portal. rewrite Hm. unfold request_form.
  rewrite Hf. unfold bind at 1, ret at 1. cbv beta iota zeta.
  unfold bind at 1, ret at 1. cbv beta iota zeta.
  fold (submitted_ssid request). fold (submitted_password request).
  destruct Hempty as [-> | ->]; cbn [truthy negb orb];
    rewrite ?orb_true_r; reflexivity.
Qed.

Lemma portal_valid (request : Request) (w : world) :
  str_eqb (method request) (lit "POST") = true ->
  form_error request = None ->
  truthy (submitted_ssid request) = true ->
  truthy (submitted_password request) = true ->
  portal E request w =
    try_except
      (write_wifi_credentials E (submitted_ssid request)
         (submitted_password request) ;;
       connect_to_wifi E (submitted_ssid request)
         (submitted_password request) ;;
       schedule_shutdown ;;
       ret success_page)
      (fun exc => emit (provisioning_failed exc) ;; ret failure_page) w.
Proof.
  intros Hm Hf Hs Hp. unfold portal. rewrite Hm. unfold request_form.
  rewrite Hf. unfold bind at 1, ret at 1. cbv beta iota zeta.
  unfold bind at 1, ret at 1. cbv beta iota zeta.
  fold (submitted_ssid request). fold (submitted_password request).
  rewrite Hs, Hp. reflexivity.
Qed.

(** The handler of [portal]: log the exception, answer the failure page. *)
Lemma portal_handler (e : exn) (w : world) :
  (emit (provisioning_failed e) ;; ret failure_page) w
  = (Ret failure_page, extend w [provisioning_failed e]).
Proof. reflexivity. Qed.

Lemma portal_persist_raises (request : Request) (w : world) (e : exn) :
  str_eqb (method request) (lit "POST") = true ->
  form_error request = None ->
  truthy (submitted_ssid request) = true ->
  truthy (submitted_password request) = true ->
  fst (write_wifi_credentials E (submitted_ssid request)
         (submitted_password request) w) = Raise e ->
  portal E request w
  = (Ret failure_page,
     extend (snd (write_wifi_credentials E (submitted_ssid request)
                    (submitted_password request) w))
       [provisioning_failed e]).
Proof.
  intros Hm Hf Hs Hp Hw. rewrite portal_valid by assumption.
  destruct (persist_tame E (submitted_ssid request)
              (submitted_password request) w) as (_ & _ & _ & _ & Hex).
  specialize (Hex e Hw).
  unfold try_except, bind at 1.
  destruct (write_wifi_credentials E _ _ w) as [o w1].
  cbn [fst snd] in *. subst o. rewrite Hex. apply portal_handler.
Qed.

Lemma portal_connect_raises (request : Request) (w : world) (e : exn) :
  str_eqb (method request) (lit "POST") = true ->
  form_error request = None ->
  truthy (submitted_ssid request) = true ->
  truthy (submitted_password request) = true ->
  let ssid := submitted_ssid request in
  let password := submitted_password request in
  let w1 := snd (write_wifi_credentials E ssid password w) in
  fst (write_wifi_credentials E ssid password w) = Ret tt ->
  fst (connect_to_wifi E ssid password w1) = Raise e ->
  portal E request w
  = (Ret failure_page,
     extend (snd (connect_to_wifi E ssid password w1))
       [provisioning_failed e]).
Proof.
  cbv zeta. intros Hm Hf Hs Hp Hw Hc. rewrite portal_valid by assumption.
  destruct (connect_to_wifi_tame E (submitted_ssid request)
              (submitted_password request)
              (snd (write_wifi_credentials E (submitted_ssid request)
                      (submitted_password request) w)))
    as (_ & _ & _ & _ & Hex).
  specialize (Hex e Hc).
  unfold try_except, bind at 1.
  destruct (write_wifi_credentials E _ _ w) as [o w1].
  cbn [fst snd] in *. subst o. unfold bind at 1.
  destruct (connect_to_wifi E _ _ w1) as [o2 w2].
  cbn [fst snd] in *. subst o2. rewrite Hex. apply portal_handler.
Qed.

Lemma portal_succeeds (request : Request) (w : world) :
  str_eqb (method request) (lit "POST") = true ->
  form_error request = None ->
  truthy (submitted_ssid request) = true ->
  truthy (submitted_password request) = true ->
  let ssid := submitted_ssid request in
  let password := submitted_password request in
  let w1 := snd (write_wifi_credentials E ssid password w) in
  fst (write_wifi_credentials E ssid password w) = Ret tt ->
  fst (connect_to_wifi E ssid password w1) = Ret tt ->
  portal E request w
  = (Ret success_page,
     extend (snd (connect_to_wifi E ssid password w1))
       [ThreadStart Target_shutdown]).
Proof.
  cbv zeta. intros Hm Hf Hs Hp Hw Hc. rewrite portal_valid by assumption.
  unfold try_except, bind at 1.
  destruct (write_wifi_credentials E _ _ w) as [o w1].
  cbn [fst snd] in *. subst o. unfold bind at 1.
  destruct (connect_to_wifi E _ _ w1) as [o2 w2].
  cbn [fst snd] in *. subst o2. reflexivity.
Qed.

(** The worker of the shutdown sequencer, step by step: the process is
    ended when [stop_hotspot] has returned. *)
Lemma _shutdown_eq (u : world) :
  let u1 :=
    extend u
      [Sleep 2;
       Log INFO "Shutting down setup portal after successful provisioning." []]
  in
  _shutdown E u
  = match stop_hotspot E u1 with
    | (Ret _, u2) => (Exit 0, extend u2 [Sleep 1])
    | (Raise e, u2) => (Raise e, u2)
    | (Exit c, u2) => (Exit c, u2)
    end.
Proof.
  cbv zeta.
  change (_shutdown E u)
    with ((stop_hotspot E ;; sleep 1 ;; @os_exit unit 0)
            (extend (extend u [Sleep 2])
               [Log INFO
                  "Shutting down setup portal after successful provisioning."
                  []])).
  rewrite extend_extend. cbn [app]. set (u1 := extend u _).
  unfold bind at 1. destruct (stop_hotspot E u1) as [[[]|e|c] u2]; reflexivity.
Qed.

End Portal.

Lemma new_events_trace (w w' : world) (evs : list event) :
  trace w' = trace w ++ evs -> new_events w w' = evs.
Proof.
  intro H. unfold new_events. rewrite H.
  rewrite skipn_app, skipn_all, Nat.sub_diag. reflexivity.
Qed.

Lemma new_events_same (w : world) : new_events w w = [].
Proof. apply new_events_trace. symmetry. apply app_nil_r. Qed.

Lemma log_or_run_no_thread_no_serve (evs : list event) :
  forallb is_log_or_run evs = true ->
  existsb is_thread_start evs = false /\ existsb is_serve evs = false.
Proof.
  induction evs as [|x evs IH]; [split; reflexivity|].
  cbn. intro H. apply andb_true_iff in H. destruct H as [Hx Hevs].
  destruct (IH Hevs) as [-> ->]. destruct x; try discriminate; auto.
Qed.

(** C2.  A POST whose form was read and whose SSID or password is empty
    after trimming is answered with the form and the message that both
    are required, shown as an error, and the world is left as it was: the
    configuration file is the same and no event (no command, no thread
    start) was added. *)
Theorem portal_rejects_empty_fields (E : env) (request : Request) (w : world) :
  str_eqb (method request) (lit "POST") = true ->
  form_error request = None ->
  submitted_ssid request = [] \/ submitted_password request = [] ->
  let r := portal E request w in
  fst r = Ret required_page
  /\ snd r = w
  /\ config_file (snd r) = config_file w
  /\ new_events w (snd r) = []
  /\ str_in (lit "SSID and password are required.") required_page = true
  /\ str_in (lit "color: #b91c1c;") required_page = true.
Proof.
  intros Hm Hf Hempty. cbv zeta. rewrite portal_invalid by assumption.
  cbn [fst snd].
  split; [reflexivity|]. split; [reflexivity|]. split; [reflexivity|].
  split; [apply new_events_same|].
  split; vm_compute; reflexivity.
Qed.

Lemma portal_rejects_empty_fields_witness :
  let r := portal quiet_env (post (lit "   ") (lit "hunter2")) fresh_world in
  fst r = Ret required_page
  /\ snd r = fresh_world
  /\ config_file (snd r) = config_file fresh_world
  /\ new_events fresh_world (snd r) = []
  /\ str_in (lit "SSID and password are required.") required_page = true
  /\ str_in (lit "color: #b91c1c;") required_page = true.
Proof.
  cbv zeta.
  apply (@portal_rejects_empty_fields quiet_env
           (post (lit "   ") (lit "hunter2")) fresh_world).
  - reflexivity.
  - reflexivity.
  - left. vm_compute. reflexivity.
Defined.

(** C3.  For a POST whose form was read, with both fields non-empty after
    trimming, Persist runs first and runs no command.  When Persist
    raises, the answer is the failure page and no command at all was run:
    Connect was not attempted.  When Persist returns, Connect is run from
    the world Persist left, and after it [portal] adds no command.  When
    Connect then raises, whatever it raises (the status of the connect
    command, an argument that is refused, a command that cannot be
    started), the answer is the failure page and the configuration file
    is as Persist left it. *)
Theorem portal_persist_before_connect (E : env) (request : Request)
        (w : world) :
  str_eqb (method request) (lit "POST") = true ->
  form_error request = None ->
  truthy (submitted_ssid request) = true ->
  truthy (submitted_password request) = true ->
  let ssid := submitted_ssid request in
  let password := submitted_password request in
  let rp := write_wifi_credentials E ssid password w in
  let w1 := snd rp in
  let rc := connect_to_wifi E ssid password w1 in
  let r := portal E request w in
  run_commands (new_events w w1) = []
  /\ (forall e, fst rp = Raise e ->
        r = (Ret failure_page, extend w1 [provisioning_failed e])
        /\ run_commands (new_events w (snd r)) = [])
  /\ (fst rp = Ret tt ->
        exists tail, snd r = extend (snd rc) tail /\ run_commands tail = [])
  /\ (fst rp = Ret tt -> forall e, fst rc = Raise e ->
        r = (Ret failure_page, extend (snd rc) [provisioning_failed e])
        /\ config_file (snd r) = config_file w1)
  /\ str_in (lit "Connection failed. Please verify credentials and retry.")
            failure_page = true.
Proof.
  intros Hm Hf Hs Hp. cbv zeta.
  destruct (persist_tame E (submitted_ssid request)
              (submitted_password request) w)
    as ([evs [Htr Hlogs]] & Hif & _ & Hnx & _).
  pose proof (@run_commands_logs _ Hlogs) as Hnone.
  split; [rewrite (@new_events_trace _ _ _ Htr); exact Hnone|].
  split.
  { intros e He. rewrite (@portal_persist_raises E _ _ _ Hm Hf Hs Hp He).
    split; [reflexivity|]. cbn [snd].
    rewrite (@new_events_trace w _ (evs ++ [provisioning_failed e])).
    - rewrite run_commands_app, Hnone. reflexivity.
    - unfold extend. cbn [trace]. rewrite Htr, app_assoc. reflexivity. }
  split.
  { intro Hw.
    destruct (connect_to_wifi_tame E (submitted_ssid request)
                (submitted_password request)
                (snd (write_wifi_credentials E (submitted_ssid request)
                        (submitted_password request) w)))
      as (_ & _ & _ & Hcx & _).
    destruct (fst (connect_to_wifi E (submitted_ssid request)
                     (submitted_password request)
                     (snd (write_wifi_credentials E (submitted_ssid request)
                             (submitted_password request) w)))) as [[]|e|c]
      eqn:Hc.
    - rewrite (@portal_succeeds E _ _ Hm Hf Hs Hp Hw Hc). cbn [snd].
      eexists. split; reflexivity.
    - rewrite (@portal_connect_raises E _ _ _ Hm Hf Hs Hp Hw Hc). cbn [snd].
      eexists. split; reflexivity.
    - exfalso. exact (Hcx c eq_refl). }
  split.
  { intros Hw e Hc.
    rewrite (@portal_connect_raises E _ _ _ Hm Hf Hs Hp Hw Hc).
    split; [reflexivity|]. cbn [snd extend config_file].
    destruct (connect_to_wifi_commands_only E (submitted_ssid request)
                (submitted_password request)
                (snd (write_wifi_credentials E (submitted_ssid request)
                        (submitted_password request) w)))
      as (Hfile & _).
    exact Hfile. }
  vm_compute. reflexivity.
Qed.

Lemma portal_persist_before_connect_witness :
  let request := post (lit "HomeWiFi") (lit "hunter2") in
  let nul := post (lit "Home" ++ [0%N] ++ lit "Net") (lit "hunter2") in
  (portal no_directory_env request fresh_world
   = (Ret failure_page, extend fresh_world [provisioning_failed OSError])
   /\ run_commands
        (new_events fresh_world
           (snd (portal no_directory_env request fresh_world))) = [])
  /\ (fst (portal no_join_env request fresh_world) = Ret failure_page
      /\ config_file (snd (portal no_join_env request fresh_world))
         = utf8_encode (network_block (lit "HomeWiFi") (lit "hunter2")))
  /\ (fst (portal quiet_env nul fresh_world) = Ret failure_page
      /\ config_file (snd (portal quiet_env nul fresh_world))
         = utf8_encode
             (network_block (lit "Home" ++ [0%N] ++ lit "Net")
                (lit "hunter2"))).
Proof.
  cbv zeta. split; [|split].
  - destruct (@portal_persist_before_connect no_directory_env
                (post (lit "HomeWiFi") (lit "hunter2")) fresh_world
                eq_refl eq_refl eq_refl eq_refl) as (_ & Hraise & _).
    destruct (Hraise OSError eq_refl) as [Hr Hnone].
    split; [exact Hr | exact Hnone].
  - destruct (@portal_persist_before_connect no_join_env
                (post (lit "HomeWiFi") (lit "hunter2")) fresh_world
                eq_refl eq_refl eq_refl eq_refl) as (_ & _ & _ & Hconn & _).
    destruct (Hconn eq_refl
                (CalledProcessError 4
                   (connect_command (lit "HomeWiFi") (lit "hunter2")
                      (lit "wlan0"))) eq_refl) as [Hr Hfile].
    split.
    + rewrite Hr. reflexivity.
    + rewrite Hfile. vm_compute. reflexivity.
  - destruct (@portal_persist_before_connect quiet_env
                (post (lit "Home" ++ [0%N] ++ lit "Net") (lit "hunter2"))
                fresh_world eq_refl eq_refl eq_refl eq_refl)
      as (_ & _ & _ & Hconn & _).
    destruct (Hconn eq_refl ValueError eq_refl) as [Hr Hfile].
    split.
    + rewrite Hr. reflexivity.
    + rewrite Hfile. vm_compute. reflexivity.
Defined.




(* ===================================================================== *)
(** * Startup *)
(* ===================================================================== *)

Section Startup.

Variable E : env.

Lemma bind_ret_eq {A B} (m : M A) (k : A -> M B) (w w' : world) (a : A) :
  m w = (Ret a, w') -> bind m k w = k a w'.
Proof. intro H. unfold bind. rewrite H. reflexivity. Qed.

Lemma bind_raise_eq {A B} (m : M A) (k : A -> M B) (w w' : world) (e : exn) :
  m w = (Raise e, w') -> bind m k w = (Raise e, w').
Proof. intro H. unfold bind. rewrite H. reflexivity. Qed.

(** [detect_wifi_interface], case by case. *)
Lemma detect_wifi_interface_eq (w : world) :
  let w0 := extend w [executing status_command] in
  let w' := extend w [executing status_command; Run status_command] in
  detect_wifi_interface E w =
    match proc_result E (trace w ++ [executing status_command]) status_command
    with
    | NotStarted => (Raise OSError, w0)
    | Undecodable => (Raise UnicodeDecodeError, w')
    | Completed rc out =>
        if negb (Z.eqb rc 0)
        then (Raise (CalledProcessError rc status_command), w')
        else (Ret (first_wifi_device (splitlines out)), w')
    end.
Proof.
  cbv zeta. unfold detect_wifi_interface, bind.
  fold status_command. rewrite run_command_eq. cbv zeta.
  rewrite argument_error_status.
  destruct (proc_result E _ status_command) as [rc out| |]; try reflexivity.
  cbn [andb]. destruct (negb (Z.eqb rc 0)); reflexivity.
Qed.

(** When [detect_wifi_interface] returns, the listing ran to its end and
    is the one command run. *)
Lemma detect_wifi_interface_returns (w wb : world) (iface : str) :
  detect_wifi_interface E w = (Ret iface, wb) ->
  wb = extend w [executing status_command; Run status_command].
Proof.
  rewrite detect_wifi_interface_eq. cbv zeta.
  destruct (proc_result E _ status_command) as [rc out| |]; try discriminate.
  destruct (negb (Z.eqb rc 0)); [discriminate|].
  intro H. injection H as _ <-. reflexivity.
Qed.

Lemma detect_wifi_interface_commands_only :
  commands_only (detect_wifi_interface E).
Proof.
  unfold detect_wifi_interface.
  apply commands_only_bind; [apply run_command_commands_only|]. intro r.
  apply commands_only_ret.
Qed.

(** [main] up to the call of [start_hotspot]: the device is offline and a
    wireless interface was found. *)
Lemma main_reaches_start_hotspot (w wb : world) (iface : str) :
  probe_result E (trace w ++ [setup_start]) = false ->
  detect_wifi_interface E (extend w [setup_start; Probe]) = (Ret iface, wb) ->
  truthy iface = true ->
  main E w =
    (start_hotspot E ;;
     match parse_args E with
     | None => raise (SystemExit 2)
     | Some (host, port) =>
         LOGGER_info "Portal started at http://%s:%s" [Str host; Int port] ;;
         app_run E host port ;;
         ret 0%Z
     end) (with_interface wb iface).
Proof.
  intros Hoff Hdet Hif. unfold main.
  rewrite (@bind_ret_eq _ _ setup_logger _ w w tt) by reflexivity.
  rewrite (@bind_ret_eq _ _ (LOGGER_info _ _) _ w (extend w [setup_start]) tt)
    by reflexivity.
  rewrite (@bind_ret_eq _ _ (is_internet_connected E) _ _
             (extend w [setup_start; Probe]) false).
  2:{ unfold is_internet_connected, emit, extend. cbn [trace].
      rewrite Hoff, <- app_assoc. reflexivity. }
  rewrite (@bind_ret_eq _ _ _ _ _ _ _ Hdet).
  rewrite (@bind_ret_eq _ _ (set_WIFI_INTERFACE iface) _ wb
             (with_interface wb iface) tt) by reflexivity.
  rewrite Hif. reflexivity.
Qed.

End Startup.

(** C7.  When [main] has found the device offline and a wireless interface,
    and [start_hotspot] then raises, [main] ends with that exception, the
    exception of a command, and it has bound no listener: no [Serve] event
    is among the events it added. *)
Theorem main_aborts_when_hotspot_fails (E : env) (w wb wd : world)
        (iface : str) (e : exn) :
  probe_result E (trace w ++ [setup_start]) = false ->
  detect_wifi_interface E (extend w [setup_start; Probe]) = (Ret iface, wb) ->
  truthy iface = true ->
  start_hotspot E (with_interface wb iface) = (Raise e, wd) ->
  main E w = (Raise e, wd)
  /\ existsb is_serve (new_events w wd) = false
  /\ command_error e = true.
Proof.
  intros Hoff Hdet Hif Hstart.
  rewrite (@main_reaches_start_hotspot E _ _ _ Hoff Hdet Hif).
  rewrite (@bind_raise_eq _ _ _ _ _ _ _ Hstart).
  destruct (start_hotspot_commands_only E (with_interface wb iface))
    as (_ & _ & (evs & Htr & Hevs) & _ & Hexn).
  rewrite Hstart in Htr, Hexn. cbn [fst snd] in Htr, Hexn.
  split; [reflexivity|]. split; [|exact (Hexn e eq_refl)].
  apply detect_wifi_interface_returns in Hdet. subst wb.
  destruct (log_or_run_no_thread_no_serve _ Hevs) as [_ Hns].
  rewrite (@new_events_trace w _
             ([setup_start; Probe]
              ++ [executing status_command; Run status_command] ++ evs)).
  - rewrite !existsb_app, Hns. reflexivity.
  - rewrite Htr. unfold extend, with_interface. cbn [trace].
    rewrite <- !app_assoc. reflexivity.
Qed.

Lemma main_aborts_when_hotspot_fails_witness :
  fst (main no_hotspot_env fresh_world)
  = Raise (CalledProcessError 10 (hotspot_command (lit "wlan0")))
  /\ existsb is_serve
       (new_events fresh_world (snd (main no_hotspot_env fresh_world)))
     = false.
Proof.
  destruct (@main_aborts_when_hotspot_fails no_hotspot_env fresh_world
              (snd (detect_wifi_interface no_hotspot_env
                      (extend fresh_world [setup_start; Probe])))
              (snd (main no_hotspot_env fresh_world))
              (lit "wlan0")
              (CalledProcessError 10 (hotspot_command (lit "wlan0"))))
    as (Hmain & Hserve & _).
  - reflexivity.
  - vm_compute. reflexivity.
  - reflexivity.
  - vm_compute. reflexivity.
  - rewrite Hmain. split; [reflexivity | exact Hserve].
Defined.

(* ===================================================================== *)
(** * Further properties: escaping and trimming *)
(* ===================================================================== *)

Section MoreStrings.

Lemma escape_wpa_length (s : str) :
  List.length (escape_wpa s)
  = (List.length s + List.length (filter is_wpa_special s))%nat.
Proof.
  induction s as [|c s IH]; [reflexivity|].
  rewrite escape_wpa_cons, length_app, IH. cbn [filter List.length].
  unfold is_wpa_special at 2.
  destruct (escape_char_cases c) as [[-> He]|[[-> He]|(Hb & Hq & He)]];
    rewrite He; cbn [List.length].
  - cbn. lia.
  - cbn. lia.
  - apply N.eqb_neq in Hb, Hq. rewrite Hb, Hq. cbn. lia.
Qed.

Lemma escape_wpa_plain (s : str) :
  existsb is_wpa_special s = false -> escape_wpa s = s.
Proof.
  induction s as [|c s IH]; intro H; [reflexivity|].
  cbn in H. apply orb_false_iff in H. destruct H as [Hc Hs].
  rewrite escape_wpa_cons, (IH Hs).
  unfold is_wpa_special in Hc. apply orb_false_iff in Hc.
  destruct Hc as [Hb Hq]. unfold escape_char. rewrite Hb, Hq. reflexivity.
Qed.

Lemma filter_nil_existsb {A} (f : A -> bool) (l : list A) :
  filter f l = [] -> existsb f l = false.
Proof.
  induction l as [|x l IH]; [reflexivity|]. cbn.
  destruct (f x); [discriminate | exact IH].
Qed.

Lemma html_escape_chars (s : str) : html_escape s = flat_map html_char s.
Proof.
  unfold html_escape.
  change (lit "&") with [38%N]. change (lit "<") with [60%N].
  change (lit ">") with [62%N].
  rewrite !replace_single.
  induction s as [|c s IH]; [reflexivity|].
  cbn [flat_map]. rewrite !flat_map_app. f_equal; [|exact IH].
  unfold html_char.
  destruct (N.eqb_spec c 38) as [->|H1]; [reflexivity|].
  destruct (N.eqb_spec c 60) as [->|H2]; [reflexivity|].
  destruct (N.eqb_spec c 62) as [->|H3]; [reflexivity|].
  destruct (N.eqb_spec c DQ) as [->|H4]; [reflexivity|].
  destruct (N.eqb_spec c 39) as [->|H5]; [reflexivity|].
  cbn [flat_map app].
  apply N.eqb_neq in H1, H2, H3, H4, H5.
  rewrite H2. cbn [flat_map app]. rewrite H3. cbn [flat_map app].
  rewrite H4. cbn [flat_map app]. rewrite H5. reflexivity.
Qed.

Lemma html_escape_no_markup (s : str) :
  existsb is_markup (html_escape s) = false.
Proof.
  rewrite html_escape_chars.
  induction s as [|c s IH]; [reflexivity|].
  cbn [flat_map]. rewrite existsb_app, IH, orb_false_r.
  unfold html_char.
  destruct (N.eqb_spec c 38); [reflexivity|].
  destruct (N.eqb_spec c 60); [reflexivity|].
  destruct (N.eqb_spec c 62); [reflexivity|].
  destruct (N.eqb_spec c DQ); [reflexivity|].
  destruct (N.eqb_spec c 39); [reflexivity|].
  cbn [existsb]. unfold is_markup. rewrite orb_false_r.
  repeat (apply orb_false_iff; split); apply N.eqb_neq; assumption.
Qed.

Lemma html_escape_plain (s : str) :
  existsb is_html_special s = false -> html_escape s = s.
Proof.
  rewrite html_escape_chars.
  induction s as [|c s IH]; intro H; [reflexivity|].
  cbn in H. apply orb_false_iff in H. destruct H as [Hc Hs].
  cbn [flat_map]. rewrite (IH Hs).
  unfold is_html_special in Hc.
  repeat (apply orb_false_iff in Hc; destruct Hc as [Hc ?]).
  unfold html_char.
  repeat match goal with H : N.eqb _ _ = false |- _ => rewrite H; clear H end.
  reflexivity.
Qed.

Lemma lstrip_idempotent (s : str) : lstrip (lstrip s) = lstrip s.
Proof.
  pose proof (lstrip_head s) as H.
  destruct (lstrip s) as [|c r]; [reflexivity|].
  cbn. rewrite H. reflexivity.
Qed.

Lemma lstrip_fixed (s : str) :
  match s with [] => True | c :: _ => isspace c = false end -> lstrip s = s.
Proof. destruct s as [|c s]; [reflexivity|]. cbn. intros ->. reflexivity. Qed.

(** What [strip] returns neither begins nor ends with whitespace. *)
Lemma strip_trimmed (s : str) : trimmed (strip s).
Proof.
  pose proof (strip_head s) as Hh. unfold strip, rstrip in *.
  pose proof (lstrip_head (rev (lstrip s))) as Hl.
  destruct (rev (lstrip (rev (lstrip s)))) as [|c r] eqn:Hr; [exact I|].
  split; [exact Hh|].
  apply (f_equal (@rev char)) in Hr. rewrite rev_involutive in Hr.
  rewrite Hr in Hl. cbn [rev] in Hl.
  destruct (rev r) as [|d r'] eqn:Hrr.
  - apply (f_equal (@rev char)) in Hrr. rewrite rev_involutive in Hrr.
    subst r. exact Hh.
  - cbn [app] in Hl.
    assert (Hlast : last (c :: r) c = d).
    { apply (f_equal (@rev char)) in Hrr. rewrite rev_involutive in Hrr.
      subst r. cbn [rev]. rewrite app_comm_cons. apply last_last. }
    rewrite Hlast. exact Hl.
Qed.

(** Trimming a trimmed string changes nothing. *)
Lemma strip_fixed (s : str) : trimmed s -> strip s = s.
Proof.
  destruct s as [|c s]; [reflexivity|]. intros [Hc Hl].
  unfold strip, rstrip. rewrite (lstrip_fixed (c :: s)) by exact Hc.
  assert (Hrev : exists r, rev (c :: s) = last (c :: s) c :: r).
  { destruct (@exists_last _ (c :: s)) as (l & a & Hla); [discriminate|].
    rewrite Hla, last_last, rev_app_distr. cbn. eauto. }
  destruct Hrev as [r Hr]. rewrite Hr.
  rewrite lstrip_fixed by exact Hl. rewrite <- Hr. apply rev_involutive.
Qed.

End MoreStrings.

Lemma existsb_filter_length {A} (f : A -> bool) (l : list A) :
  existsb f l = true -> (0 < List.length (filter f l))%nat.
Proof.
  induction l as [|x l IH]; [discriminate|]. cbn.
  destruct (f x); cbn; [lia | exact IH].
Qed.

(** X1.  [escape_wpa] leaves a string as it is exactly when the string
    holds neither a backslash nor a double quote; in general it makes the
    string longer by one character for each of them. *)
Theorem escape_wpa_changes_only_special (s : str) :
  str_eqb (escape_wpa s) s = negb (existsb is_wpa_special s)
  /\ List.length (escape_wpa s)
     = (List.length s + List.length (filter is_wpa_special s))%nat.
Proof.
  split; [|apply escape_wpa_length].
  destruct (existsb is_wpa_special s) eqn:Hs; cbn [negb].
  - destruct (str_eqb (escape_wpa s) s) eqn:He; [|reflexivity].
    apply str_eqb_eq in He. apply (f_equal (@List.length char)) in He.
    rewrite escape_wpa_length in He.
    apply existsb_filter_length in Hs. lia.
  - apply str_eqb_eq. apply escape_wpa_plain. exact Hs.
Qed.

(** X2.  Whatever the message, the page [render_form] returns differs from
    the fixed template only by the colour and by the escaped message, and
    the escaped message holds no angle bracket and no quote: each
    character of the message is replaced as [html_char] says. *)
Theorem render_form_escapes_message (message : str) (is_error : bool) :
  exists m,
    render_form message is_error
    = template_head ++ (if is_error then lit "#b91c1c" else lit "#166534")
      ++ template_mid ++ m ++ template_tail
    /\ m = flat_map html_char message
    /\ existsb is_markup m = false.
Proof.
  exists (html_escape message). split; [reflexivity|].
  split; [apply html_escape_chars | apply html_escape_no_markup].
Qed.

(** X3.  The SSID and the password that [portal] takes from a request are
    trimmed: each is empty or neither begins nor ends with whitespace, and
    trimming it again changes nothing. *)
Theorem portal_credentials_trimmed (request : Request) :
  trimmed (submitted_ssid request)
  /\ trimmed (submitted_password request)
  /\ strip (submitted_ssid request) = submitted_ssid request
  /\ strip (submitted_password request) = submitted_password request.
Proof.
  unfold submitted_ssid, submitted_password.
  repeat split; try apply strip_trimmed; apply strip_fixed, strip_trimmed.
Qed.

(* ===================================================================== *)
(** * Further properties: Credential Persistor *)
(* ===================================================================== *)

Section MorePersist.

Variable E : env.

Lemma startswith_firstn (n : nat) (l : str) : startswith (firstn n l) l = true.
Proof.
  revert n. induction l as [|x l IH]; intros [|n]; cbn; try reflexivity.
  rewrite N.eqb_refl. apply IH.
Qed.

Lemma startswith_refl (l : str) : startswith l l = true.
Proof. rewrite <- (app_nil_r l) at 2. apply startswith_app. Qed.

(** The file after [write_wifi_credentials], in every outcome: the former
    bytes followed by some first part of the encoded block. *)
Lemma persist_file (ssid password : str) (w : world) :
  exists suffix,
    file_bytes (snd (write_wifi_credentials E ssid password w))
    = file_bytes w ++ suffix
    /\ match utf8_encode (network_block ssid password) with
       | Some data => startswith suffix data = true
       | None => suffix = []
       end
    /\ (config_file w <> None ->
        config_file (snd (write_wifi_credentials E ssid password w)) <> None).
Proof.
  assert (Hnil : match utf8_encode (network_block ssid password) with
                 | Some data => startswith [] data = true
                 | None => @nil N = []
                 end) by (destruct (utf8_encode _); reflexivity).
  unfold write_wifi_credentials, bind, config_exists, get.
  destruct (config_file w) as [old|] eqn:Hf.
  - unfold read_text. rewrite Hf.
    destruct (io_fault E (trace w) OpRead).
    { exists []. cbn [snd]. unfold file_bytes. rewrite Hf, app_nil_r.
      repeat split; [exact Hnil | congruence]. }
    destruct (str_in (ssid_entry ssid) (decode_text old)).
    { exists []. cbn. unfold file_bytes. cbn. rewrite Hf, app_nil_r.
      repeat split; [exact Hnil | congruence]. }
    unfold mkdir_parent. destruct (io_fault E (trace w) OpMkdir).
    { exists []. cbn [snd]. unfold file_bytes. rewrite Hf, app_nil_r.
      repeat split; [exact Hnil | congruence]. }
    unfold append_text, set_config. cbn [trace config_dir config_file negb].
    rewrite orb_false_r, Hf.
    destruct (io_fault E (trace w) OpOpen).
    { exists []. cbn [snd]. unfold file_bytes. cbn. rewrite Hf, app_nil_r.
      repeat split; [exact Hnil | congruence]. }
    destruct (utf8_encode (network_block ssid password)) as [data|].
    2:{ exists []. cbn [snd]. unfold file_bytes. cbn. rewrite Hf, app_nil_r.
        repeat split; congruence. }
    destruct (io_fault E (trace w) OpWrite).
    + exists (firstn (torn_write E (trace w)) data). cbn [snd].
      unfold file_bytes. cbn. rewrite Hf.
      repeat split; [apply startswith_firstn | congruence].
    + exists data. cbn. unfold file_bytes. cbn. rewrite Hf.
      repeat split; [apply startswith_refl | congruence].
  - unfold ret.
    destruct (str_in (ssid_entry ssid) []).
    { exists []. cbn. unfold file_bytes. cbn. rewrite Hf.
      repeat split; [exact Hnil | congruence]. }
    unfold mkdir_parent. destruct (io_fault E (trace w) OpMkdir).
    { exists []. cbn [snd]. unfold file_bytes. rewrite Hf.
      repeat split; [exact Hnil | congruence]. }
    unfold append_text, set_config. cbn [trace config_dir config_file negb].
    rewrite orb_false_r, Hf.
    destruct (io_fault E (trace w) OpOpen).
    { exists []. cbn [snd]. unfold file_bytes. cbn. rewrite Hf.
      repeat split; [exact Hnil | congruence]. }
    destruct (utf8_encode (network_block ssid password)) as [data|].
    2:{ exists []. cbn [snd]. unfold file_bytes. cbn. rewrite Hf.
        repeat split; congruence. }
    destruct (io_fault E (trace w) OpWrite).
    + exists (firstn (torn_write E (trace w)) data). cbn [snd].
      unfold file_bytes. cbn. rewrite Hf.
      repeat split; [apply startswith_firstn | congruence].
    + exists data. cbn. unfold file_bytes. cbn. rewrite Hf.
      repeat split; [apply startswith_refl | congruence].
Qed.

(** Without file errors [write_wifi_credentials] returns normally, provided
    the block can be encoded. *)
Lemma persist_returns (ssid password : str) (w : world) (data : list byte) :
  (forall tr op, io_fault E tr op = false) ->
  utf8_encode (network_block ssid password) = Some data ->
  fst (write_wifi_credentials E ssid password w) = Ret tt.
Proof.
  intros Hio Henc.
  destruct (str_in (ssid_entry ssid) (existing_text w)) eqn:Hin.
  - rewrite persist_present; auto.
  - rewrite (@persist_absent E ssid password w data); auto.
Qed.

(** After a call that returned, for an SSID without carriage return, the
    entry of the SSID is in the text read from the file. *)
Lemma persist_leaves_entry (ssid password : str) (w : world)
      (data : list byte) :
  no_cr ssid = true ->
  (forall tr op, io_fault E tr op = false) ->
  utf8_encode (network_block ssid password) = Some data ->
  str_in (ssid_entry ssid)
    (existing_text (snd (write_wifi_credentials E ssid password w))) = true.
Proof.
  intros Hcr Hio Henc.
  destruct (str_in (ssid_entry ssid) (existing_text w)) eqn:Hin.
  - rewrite persist_present; auto.
  - rewrite (@persist_absent E ssid password w data); auto.
    unfold existing_text. cbn [snd config_file].
    apply appended_entry_present with (password := password); assumption.
Qed.

End MorePersist.

(** X4.  Whatever happens in [write_wifi_credentials], also when it raises,
    the file keeps its former bytes as they were: what the call adds comes
    after them and is a first part of the encoded block (all of it when
    the call appends and returns, nothing when the SSID is present); a
    file that existed still exists; no command is run and the two globals
    stay as they were. *)
Theorem persist_only_appends (E : env) (ssid password : str) (w : world) :
  let r := write_wifi_credentials E ssid password w in
  (exists suffix,
     file_bytes (snd r) = file_bytes w ++ suffix
     /\ match utf8_encode (network_block ssid password) with
        | Some data => startswith suffix data = true
        | None => suffix = []
        end)
  /\ implb (file_exists w) (file_exists (snd r)) = true
  /\ run_commands (new_events w (snd r)) = []
  /\ WIFI_INTERFACE (snd r) = WIFI_INTERFACE w
  /\ HOTSPOT_CONNECTION_NAME (snd r) = HOTSPOT_CONNECTION_NAME w.
Proof.
  cbv zeta.
  destruct (persist_file E ssid password w) as (suffix & Hfile & Hpre & Hex).
  destruct (persist_tame E ssid password w)
    as ([evs [Htr Hlogs]] & Hif & Hname & _ & _).
  split; [exists suffix; auto|].
  split.
  { unfold file_exists. destruct (config_file w); [|reflexivity].
    destruct (config_file (snd (write_wifi_credentials E ssid password w)));
      [reflexivity|]. exfalso. apply Hex; [discriminate | reflexivity]. }
  split; [|auto].
  rewrite (@new_events_trace _ _ _ Htr). apply run_commands_logs. exact Hlogs.
Qed.

(** X5.  For an SSID without carriage return, and without file errors, a
    call of [write_wifi_credentials] that follows a call for the same SSID
    returns normally and leaves the file byte for byte as it is, whatever
    the second password: a changed password is not recorded. *)
Theorem persist_idempotent_without_carriage_return (E : env)
        (ssid password password' : str) (w : world) (data : list byte) :
  no_cr ssid = true ->
  (forall tr op, io_fault E tr op = false) ->
  utf8_encode (network_block ssid password) = Some data ->
  let w1 := snd (write_wifi_credentials E ssid password w) in
  fst (write_wifi_credentials E ssid password w) = Ret tt
  /\ fst (write_wifi_credentials E ssid password' w1) = Ret tt
  /\ config_file (snd (write_wifi_credentials E ssid password' w1))
     = config_file w1.
Proof.
  intros Hcr Hio Henc. cbv zeta.
  split; [exact (persist_returns E _ _ w Hio Henc)|].
  pose proof (persist_leaves_entry E _ _ w Hcr Hio Henc) as Hin.
  rewrite persist_present; auto.
Qed.

Lemma persist_idempotent_without_carriage_return_witness :
  let ssid := lit "HomeNet" in
  let w1 := snd (write_wifi_credentials quiet_env ssid (lit "secret1")
                   fresh_world) in
  fst (write_wifi_credentials quiet_env ssid (lit "secret1") fresh_world)
  = Ret tt
  /\ fst (write_wifi_credentials quiet_env ssid (lit "secret2") w1) = Ret tt
  /\ config_file (snd (write_wifi_credentials quiet_env ssid (lit "secret2") w1))
     = config_file w1.
Proof.
  cbv zeta.
  apply (@persist_idempotent_without_carriage_return quiet_env
           (lit "HomeNet") (lit "secret1") (lit "secret2") fresh_world
           (match utf8_encode (network_block (lit "HomeNet") (lit "secret1"))
            with Some d => d | None => [] end)).
  - reflexivity.
  - intros tr op. reflexivity.
  - vm_compute. reflexivity.
Defined.

(* ===================================================================== *)
(** * Further properties: the portal over several requests *)
(* ===================================================================== *)

Section MorePortal.

Variable E : env.

Lemma truthy_false (s : str) : truthy s = false -> s = [].
Proof. destruct s; [reflexivity | discriminate]. Qed.

(** The answers of [portal] when it has the form, case by case. *)
Lemma portal_outcome (request : Request) (w : world) :
  refusal request = None ->
  let ssid := submitted_ssid request in
  let password := submitted_password request in
  let rp := write_wifi_credentials E ssid password w in
  let rc := connect_to_wifi E ssid password (snd rp) in
  portal E request w = (Ret (render_form [] false), w)
  \/ portal E request w = (Ret required_page, w)
  \/ (exists e, fst rp = Raise e
                /\ portal E request w
                   = (Ret failure_page, extend (snd rp) [provisioning_failed e]))
  \/ (exists e, fst rp = Ret tt /\ fst rc = Raise e
                /\ portal E request w
                   = (Ret failure_page, extend (snd rc) [provisioning_failed e]))
  \/ (fst rp = Ret tt /\ fst rc = Ret tt
      /\ portal E request w
         = (Ret success_page, extend (snd rc) [ThreadStart Target_shutdown])).
Proof.
  unfold refusal. cbv zeta.
  destruct (str_eqb (method request) (lit "POST")) eqn:Hm.
  2:{ intros _. left. unfold portal. rewrite Hm. reflexivity. }
  intro Hf.
  destruct (truthy (submitted_ssid request)) eqn:Hs.
  2:{ right. left. apply portal_invalid; [exact Hm | exact Hf|].
      left. apply truthy_false. exact Hs. }
  destruct (truthy (submitted_password request)) eqn:Hp.
  2:{ right. left. apply portal_invalid; [exact Hm | exact Hf|].
      right. apply truthy_false. exact Hp. }
  right. right.
  destruct (persist_tame E (submitted_ssid request)
              (submitted_password request) w) as (_ & _ & _ & Hnx & _).
  destruct (fst (write_wifi_credentials E (submitted_ssid request)
                   (submitted_password request) w)) as [[]|e|c] eqn:Hw.
  - right.
    destruct (connect_to_wifi_tame E (submitted_ssid request)
                (submitted_password request)
                (snd (write_wifi_credentials E (submitted_ssid request)
                        (submitted_password request) w)))
      as (_ & _ & _ & Hcx & _).
    destruct (fst (connect_to_wifi E (submitted_ssid request)
                     (submitted_password request)
                     (snd (write_wifi_credentials E (submitted_ssid request)
                             (submitted_password request) w)))) as [[]|e|c]
      eqn:Hc.
    + right. repeat split.
      exact (@portal_succeeds E _ _ Hm Hf Hs Hp Hw Hc).
    + left. exists e. repeat split.
      exact (@portal_connect_raises E _ _ _ Hm Hf Hs Hp Hw Hc).
    + exfalso. exact (Hcx c eq_refl).
  - left. exists e. split; [reflexivity|].
    exact (@portal_persist_raises E _ _ _ Hm Hf Hs Hp Hw).
  - exfalso. exact (Hnx c eq_refl).
Qed.



End MorePortal.

(** X6.  [portal] raises only when Flask refuses the form of a POST, and
    then before it has done anything: the world is as it was.  In every
    other case it answers with a page, whatever fails in Persist or in
    Connect: the empty form, the form with the message that both fields
    are required, the failure page or the success page.  It never ends
    the process; the two globals stay as they were, and the configuration
    file keeps its former bytes at its head. *)
Theorem portal_always_answers (E : env) (request : Request) (w : world) :
  let r := portal E request w in
  (match refusal request with
   | Some e => r = (Raise e, w)
   | None =>
       exists page,
         fst r = Ret page
         /\ In page [render_form [] false; required_page; failure_page;
                     success_page]
   end)
  /\ (forall c, fst r <> Exit c)
  /\ WIFI_INTERFACE (snd r) = WIFI_INTERFACE w
  /\ HOTSPOT_CONNECTION_NAME (snd r) = HOTSPOT_CONNECTION_NAME w
  /\ exists suffix, file_bytes (snd r) = file_bytes w ++ suffix.
Proof.
  cbv zeta.
  destruct (refusal request) as [e|] eqn:Href.
  { unfold refusal in Href.
    destruct (str_eqb (method request) (lit "POST")) eqn:Hm; [|discriminate].
    rewrite (@portal_refused E request w e Hm Href). cbn [fst snd].
    split; [reflexivity|]. split; [discriminate|].
    repeat split. exists []. rewrite app_nil_r. reflexivity. }
  destruct (persist_tame E (submitted_ssid request)
              (submitted_password request) w) as (_ & Hif & Hname & _ & _).
  destruct (persist_file E (submitted_ssid request)
              (submitted_password request) w) as (suffix & Hfile & _ & _).
  destruct (connect_to_wifi_tame E (submitted_ssid request)
              (submitted_password request)
              (snd (write_wifi_credentials E (submitted_ssid request)
                      (submitted_password request) w)))
    as (_ & Hif2 & Hname2 & _ & _).
  destruct (connect_to_wifi_commands_only E (submitted_ssid request)
              (submitted_password request)
              (snd (write_wifi_credentials E (submitted_ssid request)
                      (submitted_password request) w)))
    as (Hfile2 & _).
  assert (Hbytes : file_bytes
                     (snd (connect_to_wifi E (submitted_ssid request)
                             (submitted_password request)
                             (snd (write_wifi_credentials E
                                     (submitted_ssid request)
                                     (submitted_password request) w))))
                   = file_bytes w ++ suffix).
  { unfold file_bytes at 1. rewrite Hfile2. exact Hfile. }
  destruct (portal_outcome E request w Href)
    as [H|[H|[(e & _ & H)|[(e & _ & _ & H)|(_ & _ & H)]]]];
    rewrite H; cbn [fst snd].
  - split; [eexists; split; [reflexivity|cbn; auto]|].
    split; [discriminate|].
    repeat split. exists []. rewrite app_nil_r. reflexivity.
  - split; [eexists; split; [reflexivity|cbn; auto]|].
    split; [discriminate|].
    repeat split. exists []. rewrite app_nil_r. reflexivity.
  - split; [eexists; split; [reflexivity|cbn; auto]|].
    split; [discriminate|].
    split; [exact Hif|]. split; [exact Hname|]. exists suffix. exact Hfile.
  - split; [eexists; split; [reflexivity|cbn; auto]|].
    split; [discriminate|].
    cbn [extend WIFI_INTERFACE HOTSPOT_CONNECTION_NAME].
    split; [congruence|]. split; [congruence|]. exists suffix. exact Hbytes.
  - split; [eexists; split; [reflexivity|cbn; auto 6]|].
    split; [discriminate|].
    cbn [extend WIFI_INTERFACE HOTSPOT_CONNECTION_NAME].
    split; [congruence|]. split; [congruence|]. exists suffix. exact Hbytes.
Qed.



(** X8.  The worker that a successful POST starts brings down the very
    profile that was remembered before the POST: when the remembered name
    is not empty and accepted as an argument, and the command that brings
    it down runs to its end, that command is the one command the worker
    runs, and then the process ends with code 0. *)
Theorem shutdown_stops_remembered_hotspot (E : env) (request : Request)
        (w : world) :
  str_eqb (method request) (lit "POST") = true ->
  form_error request = None ->
  truthy (submitted_ssid request) = true ->
  truthy (submitted_password request) = true ->
  truthy (HOTSPOT_CONNECTION_NAME w) = true ->
  argument_error (down_command (HOTSPOT_CONNECTION_NAME w)) = None ->
  (forall tr,
     completes (proc_result E tr (down_command (HOTSPOT_CONNECTION_NAME w)))
     = true) ->
  let ssid := submitted_ssid request in
  let password := submitted_password request in
  let w1 := snd (write_wifi_credentials E ssid password w) in
  fst (write_wifi_credentials E ssid password w) = Ret tt ->
  fst (connect_to_wifi E ssid password w1) = Ret tt ->
  let w' := snd (portal E request w) in
  existsb is_thread_start (new_events w w') = true
  /\ fst (_shutdown E w') = Exit 0
  /\ run_commands (new_events w' (snd (_shutdown E w')))
     = [down_command (HOTSPOT_CONNECTION_NAME w)].
Proof.
  cbv zeta. intros Hm Hf Hs Hp Hname Ha Hall Hw Hc.
  destruct (persist_tame E (submitted_ssid request)
              (submitted_password request) w)
    as ([pevs [Htr _]] & _ & Hn & _).
  destruct (connect_to_wifi_tame E (submitted_ssid request)
              (submitted_password request)
              (snd (write_wifi_credentials E (submitted_ssid request)
                      (submitted_password request) w)))
    as ([cevs [Htr2 _]] & _ & Hn2 & _).
  rewrite (@portal_succeeds E _ _ Hm Hf Hs Hp Hw Hc). cbn [snd].
  set (wc := snd (connect_to_wifi E (submitted_ssid request)
                    (submitted_password request)
                    (snd (write_wifi_credentials E (submitted_ssid request)
                            (submitted_password request) w)))) in *.
  set (w' := extend wc [ThreadStart Target_shutdown]).
  assert (Hn' : HOTSPOT_CONNECTION_NAME w' = HOTSPOT_CONNECTION_NAME w)
    by (unfold w'; cbn [extend HOTSPOT_CONNECTION_NAME]; congruence).
  split.
  { rewrite (@new_events_trace w _
               (pevs ++ cevs ++ [ThreadStart Target_shutdown])).
    - rewrite !existsb_app. cbn. rewrite !orb_true_r. reflexivity.
    - unfold w', extend. cbn [trace]. rewrite Htr2, Htr, <- !app_assoc.
      reflexivity. }
  rewrite _shutdown_eq. cbv zeta.
  set (u1 := extend w' _).
  assert (Hu1 : HOTSPOT_CONNECTION_NAME u1 = HOTSPOT_CONNECTION_NAME w)
    by exact Hn'.
  destruct (proc_result E
              (trace u1 ++ [executing (down_command (HOTSPOT_CONNECTION_NAME w))])
              (down_command (HOTSPOT_CONNECTION_NAME w)))
    as [rc out| |] eqn:Hp1.
  2,3: pose proof (Hall (trace u1 ++
                         [executing
                            (down_command (HOTSPOT_CONNECTION_NAME w))]))
         as H; rewrite Hp1 in H; discriminate.
  rewrite <- Hu1 in Hp1, Ha, Hname.
  rewrite (@stop_hotspot_completed E u1 rc out Hname Ha Hp1).
  cbn [fst snd]. split; [reflexivity|].
  rewrite Hu1. unfold u1. rewrite !extend_extend, new_events_extend.
  reflexivity.
Qed.

Lemma shutdown_stops_remembered_hotspot_witness :
  let request := post (lit "HomeWiFi") (lit "hunter2") in
  let w' := snd (portal quiet_env request fresh_world) in
  existsb is_thread_start (new_events fresh_world w') = true
  /\ fst (_shutdown quiet_env w') = Exit 0
  /\ run_commands (new_events w' (snd (_shutdown quiet_env w')))
     = [down_command (lit "Hotspot")].
Proof.
  cbv zeta.
  apply (@shutdown_stops_remembered_hotspot quiet_env
           (post (lit "HomeWiFi") (lit "hunter2")) fresh_world);
    reflexivity.
Defined.

(* ===================================================================== *)
(** * Further properties: reading the output of the network manager *)
(* ===================================================================== *)

Section MoreParsing.

Lemma split_from_plain (f cur t : str) :
  plain_field f = true ->
  split_from [COLON] cur 0 (f ++ t) = split_from [COLON] (rev f ++ cur) 0 t.
Proof.
  revert cur. induction f as [|c f IH]; intros cur H; [reflexivity|].
  cbn in H. apply andb_true_iff in H. destruct H as [Hc Hf].
  apply andb_true_iff in Hc. destruct Hc as [Hc _].
  apply negb_true_iff in Hc.
  cbn [app split_from startswith]. rewrite N.eqb_sym, Hc. cbn [andb].
  rewrite (IH _ Hf). cbn [rev]. rewrite <- app_assoc. reflexivity.
Qed.

Lemma split_from_colon (cur t : str) :
  split_from [COLON] cur 0 (COLON :: t)
  = rev cur :: split_from [COLON] [] 0 t.
Proof. reflexivity. Qed.

(** Splitting at colons what was joined with colons gives the fields
    back. *)
Lemma split_join (row : list str) :
  row <> [] -> forallb plain_field row = true ->
  split [COLON] (join [COLON] row) = row.
Proof.
  unfold split. induction row as [|f row IH]; intros Hne H; [congruence|].
  cbn in H. apply andb_true_iff in H. destruct H as [Hf Hrow].
  destruct row as [|g row].
  - cbn [join]. rewrite <- (app_nil_r f) at 1.
    rewrite (@split_from_plain _ _ _ Hf). cbn [split_from].
    rewrite app_nil_r, rev_involutive. reflexivity.
  - change (join [COLON] (f :: g :: row))
      with (f ++ COLON :: join [COLON] (g :: row)).
    rewrite (@split_from_plain _ _ _ Hf), split_from_colon.
    rewrite app_nil_r, rev_involutive, IH; [reflexivity|discriminate|exact Hrow].
Qed.

Lemma splitlines_from_plain (l cur t : str) :
  forallb (fun c => negb (is_linebreak c)) l = true ->
  splitlines_from cur false (l ++ t) = splitlines_from (rev l ++ cur) false t.
Proof.
  revert cur. induction l as [|c l IH]; intros cur H; [reflexivity|].
  cbn in H. apply andb_true_iff in H. destruct H as [Hc Hl].
  apply negb_true_iff in Hc.
  cbn [app splitlines_from andb]. rewrite Hc, (IH _ Hl).
  cbn [rev]. rewrite <- app_assoc. reflexivity.
Qed.

Lemma splitlines_lines (lines : list str) :
  forallb (forallb (fun c => negb (is_linebreak c))) lines = true ->
  splitlines (flat_map (fun l => l ++ [LF]) lines) = lines.
Proof.
  unfold splitlines. induction lines as [|l lines IH]; intro H;
    [reflexivity|].
  cbn in H. apply andb_true_iff in H. destruct H as [Hl Hlines].
  cbn [flat_map]. rewrite <- app_assoc.
  rewrite (@splitlines_from_plain _ _ _ Hl). cbn [app splitlines_from andb].
  change (is_linebreak LF) with true. cbv iota.
  change (N.eqb LF CR) with false.
  rewrite app_nil_r, rev_involutive, (IH Hlines). reflexivity.
Qed.

Lemma plain_field_no_linebreak (f : str) :
  plain_field f = true -> forallb (fun c => negb (is_linebreak c)) f = true.
Proof.
  induction f as [|c f IH]; [reflexivity|]. cbn. intro H.
  apply andb_true_iff in H. destruct H as [Hc Hf].
  apply andb_true_iff in Hc. destruct Hc as [_ Hc].
  rewrite Hc, (IH Hf). reflexivity.
Qed.

Lemma join_no_linebreak (row : list str) :
  forallb plain_field row = true ->
  forallb (fun c => negb (is_linebreak c)) (join [COLON] row) = true.
Proof.
  induction row as [|f row IH]; [reflexivity|]. intro H.
  cbn in H. apply andb_true_iff in H. destruct H as [Hf Hrow].
  destruct row as [|g row]; [exact (@plain_field_no_linebreak _ Hf)|].
  change (join [COLON] (f :: g :: row))
    with (f ++ COLON :: join [COLON] (g :: row)).
  rewrite forallb_app, (@plain_field_no_linebreak _ Hf). cbn [andb forallb].
  change (is_linebreak COLON) with false. cbn [negb andb].
  exact (IH Hrow).
Qed.

Lemma plain_rows_cons (row : list str) (rows : list (list str)) :
  plain_rows (row :: rows) = true ->
  row <> [] /\ forallb plain_field row = true /\ plain_rows rows = true.
Proof.
  unfold plain_rows. cbn [forallb]. intro H.
  apply andb_true_iff in H. destruct H as [H Hrows].
  destruct row as [|f row]; [discriminate|].
  split; [discriminate | auto].
Qed.

(** The lines of the terse output are the rows, joined. *)
Lemma splitlines_terse_output (rows : list (list str)) :
  plain_rows rows = true ->
  splitlines (terse_output rows) = map (join [COLON]) rows.
Proof.
  intro H. unfold terse_output.
  replace (flat_map (fun row => join [COLON] row ++ [LF]) rows)
    with (flat_map (fun l => l ++ [LF]) (map (join [COLON]) rows)).
  2:{ clear H. induction rows as [|row rows IH]; [reflexivity|].
      cbn [map flat_map]. rewrite IH. reflexivity. }
  apply splitlines_lines.
  induction rows as [|row rows IH]; [reflexivity|].
  destruct (@plain_rows_cons _ _ H) as (_ & Hrow & Hrows).
  cbn [map forallb]. rewrite (@join_no_linebreak _ Hrow), (IH Hrows).
  reflexivity.
Qed.

Lemma first_wifi_device_rows (rows : list (list str)) :
  plain_rows rows = true ->
  first_wifi_device (map (join [COLON]) rows)
  = first_field_where is_wifi_row rows.
Proof.
  unfold first_field_where.
  induction rows as [|row rows IH]; intro H; [reflexivity|].
  destruct (@plain_rows_cons _ _ H) as (Hne & Hrow & Hrows).
  cbn [map first_wifi_device find]. cbv zeta.
  rewrite (@split_join _ Hne Hrow). fold (is_wifi_row row).
  destruct (is_wifi_row row); [reflexivity | exact (IH Hrows)].
Qed.

Lemma first_connection_on_rows (device : str) (rows : list (list str)) :
  plain_rows rows = true ->
  first_connection_on device (map (join [COLON]) rows)
  = first_field_where (is_row_of device) rows.
Proof.
  unfold first_field_where.
  induction rows as [|row rows IH]; intro H; [reflexivity|].
  destruct (@plain_rows_cons _ _ H) as (Hne & Hrow & Hrows).
  cbn [map first_connection_on find]. cbv zeta.
  rewrite (@split_join _ Hne Hrow). fold (is_row_of device row).
  destruct (is_row_of device row); [reflexivity | exact (IH Hrows)].
Qed.

End MoreParsing.


(** X9.  When the device listing runs to its end with status 0 and prints
    one line per device, the fields joined with colons,
    [detect_wifi_interface] returns the first field of the first line that
    has at least two fields, the second one being [wifi], and a first
    field that is not empty; when there is no such line it returns the
    empty string.  It runs that one command. *)
Theorem detect_wifi_interface_reads_terse_output (E : env) (w : world)
        (rows : list (list str)) :
  proc_result E (trace w ++ [executing status_command]) status_command
  = Completed 0 (terse_output rows) ->
  plain_rows rows = true ->
  detect_wifi_interface E w
  = (Ret (first_field_where is_wifi_row rows),
     extend w [executing status_command; Run status_command]).
Proof.
  intros Hp Hrows.
  rewrite detect_wifi_interface_eq. cbv zeta. rewrite Hp.
  cbn [Z.eqb negb].
  rewrite (@splitlines_terse_output _ Hrows),
    (@first_wifi_device_rows _ Hrows).
  reflexivity.
Qed.

Lemma detect_wifi_interface_reads_terse_output_witness :
  detect_wifi_interface offline_env fresh_world
  = (Ret (lit "wlan0"),
     extend fresh_world [executing status_command; Run status_command]).
Proof.
  apply (@detect_wifi_interface_reads_terse_output offline_env fresh_world
           [[lit "lo"; lit "loopback"]; [lit "wlan0"; lit "wifi"]]);
    reflexivity.
Defined.

(** X10.  When the query for the active connections runs to its end with
    status 0 and prints one line per connection, name and device joined
    with a colon, [get_active_connection_for_device] returns the name on
    the first line whose second field is the device, even an empty name,
    and the empty string when no line is for the device. *)
Theorem get_active_connection_reads_terse_output (E : env) (device : str)
        (w : world) (rows : list (list str)) :
  proc_result E (trace w ++ [executing active_command]) active_command
  = Completed 0 (terse_output rows) ->
  plain_rows rows = true ->
  get_active_connection_for_device E device w
  = (Ret (first_field_where (is_row_of device) rows),
     extend w [executing active_command; Run active_command]).
Proof.
  intros Hp Hrows.
  rewrite get_active_connection_eq. cbv zeta. rewrite Hp.
  cbn [Z.eqb negb].
  rewrite (@splitlines_terse_output _ Hrows),
    (@first_connection_on_rows _ _ Hrows).
  reflexivity.
Qed.

Lemma get_active_connection_reads_terse_output_witness :
  get_active_connection_for_device offline_env (lit "wlan0") fresh_world
  = (Ret (lit "Hotspot"),
     extend fresh_world [executing active_command; Run active_command]).
Proof.
  apply (@get_active_connection_reads_terse_output offline_env (lit "wlan0")
           fresh_world [[lit "Hotspot"; lit "wlan0"]]);
    reflexivity.
Defined.

(* ===================================================================== *)
(** * Further properties: startup *)
(* ===================================================================== *)

Section MoreStartup.

Variable E : env.

(** The last step of [main]: the listener. *)
Lemma app_run_eq (host : str) (port : Z) (w : world) :
  (app_run E host port ;; ret 0%Z) w
  = match listen_fault E (trace w) host port with
    | Some e => (Raise e, w)
    | None => (Ret 0%Z, extend w [Serve host port])
    end.
Proof.
  unfold bind, app_run. destruct (listen_fault E (trace w) host port);
    reflexivity.
Qed.

(** [main], case by case. *)
Lemma main_eq (w : world) :
  main E w =
    if probe_result E (trace w ++ [setup_start])
    then (Ret 0%Z, extend w [setup_start; Probe; already_online])
    else
      match detect_wifi_interface E (extend w [setup_start; Probe]) with
      | (Ret iface, wb) =>
          if negb (truthy iface)
          then (Ret 1%Z, extend (with_interface wb iface) [no_interface])
          else
            match start_hotspot E (with_interface wb iface) with
            | (Ret _, wd) =>
                match parse_args E with
                | None => (Raise (SystemExit 2), wd)
                | Some (host, port) =>
                    (app_run E host port ;; ret 0%Z)
                      (extend wd [portal_started host port])
                end
            | (Raise e, wd) => (Raise e, wd)
            | (Exit c, wd) => (Exit c, wd)
            end
      | (Raise e, wb) => (Raise e, wb)
      | (Exit c, wb) => (Exit c, wb)
      end.
Proof.
  unfold main.
  rewrite (@bind_ret_eq _ _ setup_logger _ w w tt) by reflexivity.
  rewrite (@bind_ret_eq _ _ (LOGGER_info _ _) _ w (extend w [setup_start]) tt)
    by reflexivity.
  rewrite (@bind_ret_eq _ _ (is_internet_connected E) _ _
             (extend w [setup_start; Probe])
             (probe_result E (trace w ++ [setup_start]))).
  2:{ unfold is_internet_connected, emit, extend. cbn [trace].
      rewrite <- app_assoc. reflexivity. }
  destruct (probe_result E (trace w ++ [setup_start])).
  { unfold bind, LOGGER_info, emit, ret, extend, already_online.
    cbn [trace config_file config_dir WIFI_INTERFACE HOTSPOT_CONNECTION_NAME].
    rewrite <- app_assoc. reflexivity. }
  unfold bind at 1.
  destruct (detect_wifi_interface E (extend w [setup_start; Probe]))
    as [[iface|e|c] wb]; try reflexivity.
  rewrite (@bind_ret_eq _ _ (set_WIFI_INTERFACE iface) _ wb
             (with_interface wb iface) tt) by reflexivity.
  destruct (negb (truthy iface)); [reflexivity|].
  unfold bind at 1.
  destruct (start_hotspot E (with_interface wb iface)) as [[[]|e|c] wd];
    try reflexivity.
  destruct (parse_args E) as [[host port]|]; [|reflexivity].
  rewrite (@bind_ret_eq _ _ (LOGGER_info _ _) _ wd
             (extend wd [portal_started host port]) tt) by reflexivity.
  reflexivity.
Qed.

End MoreStartup.

(** X11.  When the probe finds the device online, [main] returns 0 and has
    done nothing but the probe and two records: no command was run, and
    the file and the globals are as they were. *)
Theorem main_online_changes_nothing (E : env) (w : world) :
  probe_result E (trace w ++ [setup_start]) = true ->
  main E w = (Ret 0%Z, extend w [setup_start; Probe; already_online]).
Proof. intro H. rewrite main_eq, H. reflexivity. Qed.

Lemma main_online_changes_nothing_witness :
  main online_env fresh_world
  = (Ret 0%Z, extend fresh_world [setup_start; Probe; already_online]).
Proof.
  apply (@main_online_changes_nothing online_env fresh_world). reflexivity.
Defined.

(** X12.  When the device is offline and the device listing names no
    wireless interface, [main] returns 1: the one command it ran is the
    listing, the interface global is empty, and neither the hotspot nor
    the portal was started. *)
Theorem main_without_wireless_interface (E : env) (w wb : world) :
  probe_result E (trace w ++ [setup_start]) = false ->
  detect_wifi_interface E (extend w [setup_start; Probe]) = (Ret [], wb) ->
  let r := main E w in
  fst r = Ret 1%Z
  /\ snd r
     = extend (with_interface w [])
         [setup_start; Probe; executing status_command; Run status_command;
          no_interface]
  /\ run_commands (new_events w (snd r)) = [status_command].
Proof.
  intros Hoff Hdet. cbv zeta. rewrite main_eq, Hoff, Hdet. cbn [truthy negb].
  apply detect_wifi_interface_returns in Hdet. subst wb. cbn [fst snd].
  split; [reflexivity|].
  assert (Hw : extend
                 (with_interface
                    (extend (extend w [setup_start; Probe])
                       [executing status_command; Run status_command]) [])
                 [no_interface]
               = extend (with_interface w [])
                   [setup_start; Probe; executing status_command;
                    Run status_command; no_interface]).
  { unfold extend, with_interface. cbn. rewrite <- !app_assoc. reflexivity. }
  rewrite Hw. split; [reflexivity|].
  rewrite (@new_events_trace w _
             [setup_start; Probe; executing status_command;
              Run status_command; no_interface]); reflexivity.
Qed.

Lemma main_without_wireless_interface_witness :
  let r := main quiet_env fresh_world in
  fst r = Ret 1%Z
  /\ snd r
     = extend (with_interface fresh_world [])
         [setup_start; Probe; executing status_command; Run status_command;
          no_interface]
  /\ run_commands (new_events fresh_world (snd r)) = [status_command].
Proof.
  cbv zeta.
  apply (@main_without_wireless_interface quiet_env fresh_world
           (snd (detect_wifi_interface quiet_env
                   (extend fresh_world [setup_start; Probe])))).
  - reflexivity.
  - vm_compute. reflexivity.
Defined.

(** X13.  When the device is offline and the device listing runs to its
    end with a status that is not zero, [main] does not return a code: it
    ends with the [CalledProcessError] of the listing, having run nothing
    else; the interface global is as it was. *)
Theorem main_aborts_when_listing_fails (E : env) (w : world) (rc : Z)
        (out : str) :
  probe_result E (trace w ++ [setup_start]) = false ->
  proc_result E (trace w ++ [setup_start; Probe; executing status_command])
    status_command = Completed rc out ->
  rc <> 0%Z ->
  main E w
  = (Raise (CalledProcessError rc status_command),
     extend w [setup_start; Probe; executing status_command;
               Run status_command]).
Proof.
  intros Hoff Hp Hrc. rewrite main_eq, Hoff.
  rewrite detect_wifi_interface_eq. cbv zeta.
  cbn [trace extend]. rewrite <- !app_assoc. cbn [app]. rewrite Hp.
  apply Z.eqb_neq in Hrc. rewrite Hrc. cbn [negb].
  rewrite extend_extend. reflexivity.
Qed.

Lemma main_aborts_when_listing_fails_witness :
  main no_listing_env fresh_world
  = (Raise (CalledProcessError 8 status_command),
     extend fresh_world [setup_start; Probe; executing status_command;
                         Run status_command]).
Proof.
  apply (@main_aborts_when_listing_fails no_listing_env fresh_world 8%Z []).
  - reflexivity.
  - reflexivity.
  - discriminate.
Defined.

(** The commands [main] has run when [start_hotspot] has returned. *)
Lemma main_commands_until_hotspot (E : env) (w wb wd : world) (iface : str)
      (tail : list event) :
  detect_wifi_interface E (extend w [setup_start; Probe]) = (Ret iface, wb) ->
  start_hotspot E (with_interface wb iface) = (Ret tt, wd) ->
  run_commands tail = [] ->
  run_commands (new_events w (extend wd tail))
  = [status_command; managed_command iface; hotspot_command iface;
     active_command]
  /\ trace wd
     = trace w ++ [setup_start; Probe; executing status_command;
                   Run status_command]
       ++ until_query iface ++ [Run active_command; hotspot_started iface]
  /\ WIFI_INTERFACE wd = iface
  /\ config_file wd = config_file w
  /\ truthy (HOTSPOT_CONNECTION_NAME wd) = true.
Proof.
  intros Hdet Hstart Htail.
  apply detect_wifi_interface_returns in Hdet. subst wb.
  destruct (@start_hotspot_returns E _ _ Hstart) as (output & _ & Hwd).
  cbn [WIFI_INTERFACE with_interface] in Hwd.
  assert (Htr : trace wd
                = trace w ++ [setup_start; Probe; executing status_command;
                              Run status_command]
                  ++ until_query iface
                  ++ [Run active_command; hotspot_started iface]).
  { rewrite Hwd. unfold extend, with_interface. cbn [trace].
    rewrite <- !app_assoc. reflexivity. }
  split.
  { rewrite (@new_events_trace w _
               ([setup_start; Probe; executing status_command;
                 Run status_command]
                ++ until_query iface
                ++ [Run active_command; hotspot_started iface] ++ tail)).
    - rewrite !run_commands_app, Htail. reflexivity.
    - unfold extend at 1. cbn [trace]. rewrite Htr, <- !app_assoc.
      reflexivity. }
  split; [exact Htr|].
  rewrite Hwd. cbn [WIFI_INTERFACE config_file HOTSPOT_CONNECTION_NAME].
  split; [reflexivity|]. split; [reflexivity|].
  apply str_or_truthy. reflexivity.
Qed.

(** X14.  When the device is offline, a wireless interface is found,
    [start_hotspot] returns and the command line is accepted, the one
    step left to [main] is [app.run] on the given host and port, and the
    outcome of [main] is that of [app.run]: its exception when it raises
    (it serves nothing then), and 0 when it returns.  When [main] enters
    [app.run] it has run four commands, in this order: the device listing,
    putting the interface under management, creating the access point,
    and the query for the active connection; the interface global holds
    the interface found, the remembered profile name is not empty, and
    the configuration file is as it was. *)
Theorem main_serves_portal (E : env) (w wb wd : world) (iface host : str)
        (port : Z) :
  probe_result E (trace w ++ [setup_start]) = false ->
  detect_wifi_interface E (extend w [setup_start; Probe]) = (Ret iface, wb) ->
  truthy iface = true ->
  start_hotspot E (with_interface wb iface) = (Ret tt, wd) ->
  parse_args E = Some (host, port) ->
  let wp := extend wd [portal_started host port] in
  main E w = (app_run E host port ;; ret 0%Z) wp
  /\ main E w
     = match listen_fault E (trace wp) host port with
       | Some e => (Raise e, wp)
       | None => (Ret 0%Z, extend wp [Serve host port])
       end
  /\ run_commands (new_events w wp)
     = [status_command; managed_command iface; hotspot_command iface;
        active_command]
  /\ WIFI_INTERFACE wp = iface
  /\ config_file wp = config_file w
  /\ truthy (HOTSPOT_CONNECTION_NAME wp) = true.
Proof.
  intros Hoff Hdet Hif Hstart Hargs. cbv zeta.
  rewrite main_eq, Hoff, Hdet, Hif, Hstart, Hargs. cbn [negb].
  split; [reflexivity|]. split; [apply app_run_eq|].
  destruct (@main_commands_until_hotspot E w wb wd iface
              [portal_started host port] Hdet Hstart eq_refl)
    as (Hruns & _ & Hi & Hc & Hn).
  split; [exact Hruns|]. cbn [extend WIFI_INTERFACE config_file
                              HOTSPOT_CONNECTION_NAME].
  split; [exact Hi|]. split; [exact Hc | exact Hn].
Qed.

Lemma main_serves_portal_witness :
  let r := main offline_env fresh_world in
  fst r = Ret 0%Z
  /\ existsb is_serve (new_events fresh_world (snd r)) = true
  /\ run_commands (new_events fresh_world (snd r))
     = [status_command; managed_command (lit "wlan0");
        hotspot_command (lit "wlan0"); active_command]
  /\ WIFI_INTERFACE (snd r) = lit "wlan0".
Proof.
  cbv zeta.
  destruct (@main_serves_portal offline_env fresh_world
              (snd (detect_wifi_interface offline_env
                      (extend fresh_world [setup_start; Probe])))
              (snd (start_hotspot offline_env
                      (with_interface
                         (snd (detect_wifi_interface offline_env
                                 (extend fresh_world [setup_start; Probe])))
                         (lit "wlan0"))))
              (lit "wlan0") (lit "0.0.0.0") 80%Z)
    as (_ & Hmain & _).
  - reflexivity.
  - vm_compute. reflexivity.
  - reflexivity.
  - vm_compute. reflexivity.
  - reflexivity.
  - rewrite Hmain. repeat split; vm_compute; reflexivity.
Defined.

(** X15.  When the command line is rejected, which [main] finds out only
    after [start_hotspot] has returned, [main] ends with [SystemExit(2)]:
    no listener is bound, and the access point that was created is left
    up, for the four commands run hold no command that brings it down. *)
Theorem main_rejected_arguments_leave_hotspot (E : env) (w wb wd : world)
        (iface : str) :
  probe_result E (trace w ++ [setup_start]) = false ->
  detect_wifi_interface E (extend w [setup_start; Probe]) = (Ret iface, wb) ->
  truthy iface = true ->
  start_hotspot E (with_interface wb iface) = (Ret tt, wd) ->
  parse_args E = None ->
  let r := main E w in
  r = (Raise (SystemExit 2), wd)
  /\ run_commands (new_events w (snd r))
     = [status_command; managed_command iface; hotspot_command iface;
        active_command]
  /\ existsb is_serve (new_events w (snd r)) = false.
Proof.
  intros Hoff Hdet Hif Hstart Hargs. cbv zeta.
  rewrite main_eq, Hoff, Hdet, Hif, Hstart, Hargs. cbn [negb fst snd].
  split; [reflexivity|].
  destruct (@main_commands_until_hotspot E w wb wd iface [] Hdet Hstart
              eq_refl) as (Hruns & Htr & _).
  rewrite extend_nil in Hruns. split; [exact Hruns|].
  rewrite (@new_events_trace w _ _ Htr). reflexivity.
Qed.

Lemma main_rejected_arguments_leave_hotspot_witness :
  let r := main bad_arguments_env fresh_world in
  fst r = Raise (SystemExit 2)
  /\ run_commands (new_events fresh_world (snd r))
     = [status_command; managed_command (lit "wlan0");
        hotspot_command (lit "wlan0"); active_command]
  /\ existsb is_serve (new_events fresh_world (snd r)) = false.
Proof.
  cbv zeta.
  destruct (@main_rejected_arguments_leave_hotspot bad_arguments_env
              fresh_world
              (snd (detect_wifi_interface bad_arguments_env
                      (extend fresh_world [setup_start; Probe])))
              (snd (main bad_arguments_env fresh_world))
              (lit "wlan0"))
    as (Hmain & Hruns & Hserve).
  - reflexivity.
  - vm_compute. reflexivity.
  - reflexivity.
  - vm_compute. reflexivity.
  - reflexivity.
  - split; [rewrite Hmain; reflexivity|]. split; [exact Hruns | exact Hserve].
Defined.

(** X16.  Whatever the surroundings answer, the steps of [main] itself
    (the requests the listener serves are runs of [portal], not steps of
    [main]) leave the configuration file as it was, start no thread and do
    not end the process through [os._exit]: only a served request does any
    of these. *)
Theorem main_never_touches_configuration (E : env) (w : world) :
  let r := main E w in
  config_file (snd r) = config_file w
  /\ existsb is_thread_start (new_events w (snd r)) = false
  /\ (forall c, fst r <> Exit c).
Proof.
  cbv zeta. rewrite main_eq.
  destruct (probe_result E (trace w ++ [setup_start])).
  { cbn [fst snd]. rewrite new_events_extend.
    repeat split; try discriminate. }
  destruct (detect_wifi_interface_commands_only E
              (extend w [setup_start; Probe]))
    as (Hcf1 & _ & (evs1 & Htr1 & Hevs1) & Hx1 & _).
  destruct (log_or_run_no_thread_no_serve _ Hevs1) as [Hnt1 _].
  destruct (detect_wifi_interface E (extend w [setup_start; Probe]))
    as [[iface|e|c] wb]; cbn [fst snd] in *.
  2:{ rewrite (@new_events_trace w wb ([setup_start; Probe] ++ evs1)).
      - rewrite existsb_app, Hnt1. repeat split; try discriminate.
        exact Hcf1.
      - rewrite Htr1. cbn [extend trace]. rewrite <- app_assoc.
        reflexivity. }
  2:{ exfalso. exact (Hx1 c eq_refl). }
  destruct (negb (truthy iface)).
  { cbn [fst snd].
    rewrite (@new_events_trace w _
               ([setup_start; Probe] ++ evs1 ++ [no_interface])).
    - rewrite !existsb_app, Hnt1. repeat split; try discriminate.
      exact Hcf1.
    - unfold extend at 1, with_interface. cbn [trace]. rewrite Htr1.
      cbn [extend trace]. rewrite <- !app_assoc. reflexivity. }
  set (wc := with_interface wb iface).
  destruct (start_hotspot_commands_only E wc)
    as (Hcf2 & _ & (evs2 & Htr2 & Hevs2) & Hx2 & _).
  destruct (log_or_run_no_thread_no_serve _ Hevs2) as [Hnt2 _].
  assert (Htrace : forall tail,
            trace (extend (snd (start_hotspot E wc)) tail)
            = trace w ++ ([setup_start; Probe] ++ evs1 ++ evs2 ++ tail)).
  { intro tail. unfold extend at 1. cbn [trace]. rewrite Htr2.
    unfold wc, with_interface. cbn [trace]. rewrite Htr1.
    cbn [extend trace]. rewrite <- !app_assoc. reflexivity. }
  assert (Hfile : config_file (snd (start_hotspot E wc)) = config_file w).
  { rewrite Hcf2. unfold wc, with_interface. cbn [config_file].
    exact Hcf1. }
  destruct (start_hotspot E wc) as [[[]|e|c] wd]; cbn [fst snd] in *.
  - destruct (parse_args E) as [[host port]|]; cbn [fst snd].
    + rewrite app_run_eq.
      destruct (listen_fault E _ host port); cbn [fst snd].
      * rewrite (@new_events_trace w _ _ (Htrace _)).
        rewrite !existsb_app, Hnt1, Hnt2. repeat split; try discriminate.
        exact Hfile.
      * rewrite extend_extend.
        rewrite (@new_events_trace w _ _ (Htrace _)).
        rewrite !existsb_app, Hnt1, Hnt2. repeat split; try discriminate.
        exact Hfile.
    + specialize (Htrace []). rewrite extend_nil in Htrace.
      rewrite (@new_events_trace w _ _ Htrace).
      rewrite !existsb_app, Hnt1, Hnt2. repeat split; try discriminate.
      exact Hfile.
  - specialize (Htrace []). rewrite extend_nil in Htrace.
    rewrite (@new_events_trace w _ _ Htrace).
    rewrite !existsb_app, Hnt1, Hnt2. repeat split; try discriminate.
    exact Hfile.
  - exfalso. exact (Hx2 c eq_refl).
Qed.

(* ===================================================================== *)
(** * Further properties: the launcher (bootstrap.py) *)
(* ===================================================================== *)

Section Launcher.

Import Bootstrap.

(** The loop keeps [seen] and [deduped] with the same members, [deduped]
    without repetition and without empty string, and only adds at the
    end. *)
Lemma dedupe_spec (urls seen deduped : list str) :
  (forall u, In u seen <-> In u deduped) ->
  NoDup deduped ->
  (forall u, In u deduped -> u <> []) ->
  let r := dedupe urls seen deduped in
  NoDup r
  /\ (forall u, In u r <-> In u deduped \/ (In u urls /\ u <> []))
  /\ exists more, r = deduped ++ more.
Proof.
  revert seen deduped. induction urls as [|url rest IH];
    intros seen deduped Hsame Hnd Hne; cbv zeta; cbn [dedupe].
  - split; [exact Hnd|]. split.
    + intro u. split; [auto|]. intros [H|[[] _]]. exact H.
    + exists []. symmetry. apply app_nil_r.
  - assert (Hmem : existsb (str_eqb url) seen = true <-> In url deduped).
    { rewrite existsb_exists. split.
      - intros (x & Hx & He). apply str_eqb_eq in He. subst x.
        apply Hsame. exact Hx.
      - intro H. exists url. split; [apply Hsame; exact H|].
        apply str_eqb_eq. reflexivity. }
    destruct (truthy url) eqn:Ht; cbn [andb].
    + destruct (existsb (str_eqb url) seen) eqn:Hs; cbn [negb].
      * destruct (IH seen deduped Hsame Hnd Hne) as (H1 & H2 & H3).
        split; [exact H1|]. split; [|exact H3].
        intro u. rewrite H2. cbn [In]. split.
        -- intros [H|[H Hu]]; auto.
        -- intros [H|[[->|H] Hu]]; auto.
           left. apply Hmem. reflexivity.
      * assert (Hnot : ~ In url deduped).
        { intro H. apply Hmem in H. congruence. }
        destruct (IH (url :: seen) (deduped ++ [url])) as (H1 & H2 & H3).
        { intro u. cbn [In]. rewrite in_app_iff, Hsame. cbn [In]. tauto. }
        { apply NoDup_app; [exact Hnd | repeat constructor; intros [] |].
          intros u Hu [<-|[]]. exact (Hnot Hu). }
        { intros u Hu. apply in_app_iff in Hu. destruct Hu as [Hu|[<-|[]]].
          - exact (Hne u Hu).
          - intros ->. discriminate. }
        split; [exact H1|]. split.
        -- intro u. rewrite H2, in_app_iff. cbn [In]. split.
           ++ intros [[H|[<-|[]]]|[H Hu]]; auto.
              right. split; [auto|]. intros ->. discriminate.
           ++ intros [H|[[<-|H] Hu]]; auto.
        -- destruct H3 as [more ->]. exists (url :: more).
           rewrite <- app_assoc. reflexivity.
    + destruct (IH seen deduped Hsame Hnd Hne) as (H1 & H2 & H3).
      split; [exact H1|]. split; [|exact H3].
      intro u. rewrite H2. cbn [In]. split.
      * intros [H|[H Hu]]; auto.
      * intros [H|[[<-|H] Hu]]; auto.
        exfalso. apply Hu. apply truthy_false. exact Ht.
Qed.

Lemma added_app (t evs : list event) : added t (t ++ evs) = evs.
Proof.
  unfold added. induction t as [|e t IH]; [reflexivity | exact IH].
Qed.

Lemma downloads_app (a b : list event) :
  downloads (a ++ b) = downloads a ++ downloads b.
Proof. apply flat_map_app. Qed.

Lemma launches_app (a b : list event) :
  launches (a ++ b) = launches a ++ launches b.
Proof. apply flat_map_app. Qed.

Lemma in_downloads (u : str) (evs : list event) :
  In u (downloads evs) -> In (Download u) evs.
Proof.
  unfold downloads. rewrite in_flat_map. intros (e & He & Hu).
  destruct e; cbn in Hu; try contradiction.
  destruct Hu as [<-|[]]. exact He.
Qed.

(** The addresses of [_cloud_source_urls]: what the loop is given. *)
Lemma cloud_source_urls_spec (P A : str) :
  let r := _cloud_source_urls P A in
  NoDup r
  /\ (forall u, In u r <->
        u <> [] /\ (u = strip P
                    \/ exists item, In item (split [COMMA] A)
                                    /\ u = strip item)).
Proof.
  cbv zeta. unfold _cloud_source_urls.
  destruct (@dedupe_spec
              ([strip P]
               ++ map strip (filter (fun item => truthy (strip item))
                               (split [COMMA] A))) [] [])
    as (Hnd & Hin & _).
  { intro u. tauto. } { constructor. } { intros u []. }
  split; [exact Hnd|]. intro u. rewrite Hin. cbn [In app]. split.
  - intros [[]|[[<-|H] Hu]]; (split; [exact Hu|]).
    + left. reflexivity.
    + right. apply in_map_iff in H. destruct H as (item & <- & H).
      apply filter_In in H. exists item. split; [apply H | reflexivity].
  - intros (Hu & [->|(item & Hi & ->)]); right; (split; [|exact Hu]).
    + left. reflexivity.
    + right. apply in_map_iff. exists item. split; [reflexivity|].
      apply filter_In. split; [exact Hi|].
      destruct (strip item); [contradiction | reflexivity].
Qed.

Section Surroundings.

Variables PRIMARY_CLOUD_URL ADDITIONAL_CLOUD_URLS : str.

Variable E : env.

(** One download attempt: one [Download] event, no launch. *)
Lemma download_latest_gpio_script_events (url : str) (t : list event) :
  exists evs,
    download_latest_gpio_script E url CLOUD_GPIO_SCRIPT t
    = (download_result E
         (t ++ [Log INFO "Attempting cloud GPIO download from %s" [Str url]])
         url,
       t ++ evs)
    /\ downloads evs = [url] /\ launches evs = [].
Proof.
  unfold download_latest_gpio_script, bind, emit.
  destruct (download_result E _ url) eqn:Hd.
  - eexists. split; [rewrite <- app_assoc; reflexivity|].
    split; reflexivity.
  - eexists. split; [rewrite <- app_assoc; reflexivity|].
    split; reflexivity.
Qed.

Lemma try_cloud_urls_cons (u : str) (rest : list str) (t : list event) :
  try_cloud_urls E (u :: rest) t
  = let (ok, t') := download_latest_gpio_script E u CLOUD_GPIO_SCRIPT t in
    if ok
    then (true,
          t' ++ [Log INFO "Using cloud GPIO script: %s"
                     [Path CLOUD_GPIO_SCRIPT]])
    else try_cloud_urls E rest t'.
Proof.
  cbn [try_cloud_urls]. unfold bind at 1.
  destruct (download_latest_gpio_script E u CLOUD_GPIO_SCRIPT t) as [[|] t'];
    reflexivity.
Qed.

(** The loop over the addresses, whatever the surroundings answer. *)
Lemma try_cloud_urls_events (urls : list str) (t : list event) :
  exists evs,
    snd (try_cloud_urls E urls t) = t ++ evs
    /\ launches evs = []
    /\ (exists rest, urls = downloads evs ++ rest)
    /\ (fst (try_cloud_urls E urls t) = true ->
        exists u tr, In u urls /\ In u (downloads evs)
                     /\ download_result E tr u = true).
Proof.
  revert t. induction urls as [|u rest IH]; intro t.
  - exists []. cbn. split; [symmetry; apply app_nil_r|].
    split; [reflexivity|]. split; [exists []; reflexivity | discriminate].
  - rewrite try_cloud_urls_cons.
    destruct (download_latest_gpio_script_events u t)
      as (evs & -> & Hd & Hl).
    destruct (download_result E _ u) eqn:Hok.
    + cbn [fst snd].
      eexists. split; [rewrite <- app_assoc; reflexivity|].
      rewrite launches_app, downloads_app, Hl, Hd. cbn.
      split; [reflexivity|].
      split; [exists rest; reflexivity|].
      intros _. exists u. eexists. split; [left; reflexivity|].
      split; [left; reflexivity | exact Hok].
    + destruct (IH (t ++ evs)) as (evs' & Hs & Hl' & [rest' Hin] & Hfst).
      exists (evs ++ evs'). rewrite Hs, app_assoc.
      split; [reflexivity|].
      rewrite launches_app, downloads_app, Hl, Hl', Hd.
      split; [reflexivity|].
      split.
      * exists rest'. cbn [app]. f_equal. exact Hin.
      * intro H. destruct (Hfst H) as (x & tr & Hx & Hdx & Hr).
        exists x, tr. split; [right; exact Hx|].
        split; [right; exact Hdx | exact Hr].
Qed.

(** The loop when the answer to a download depends on the address
    only. *)
Lemma try_cloud_urls_steady (ok : str -> bool) (urls : list str)
    (t : list event) :
  (forall tr u, download_result E tr u = ok u) ->
  exists evs,
    try_cloud_urls E urls t = (existsb ok urls, t ++ evs)
    /\ downloads evs = until_first ok urls.
Proof.
  intro Hok. revert t. induction urls as [|u rest IH]; intro t.
  - exists []. cbn. unfold ret. rewrite app_nil_r. split; reflexivity.
  - rewrite try_cloud_urls_cons. cbn [existsb until_first].
    destruct (download_latest_gpio_script_events u t)
      as (evs & -> & Hd & Hl).
    rewrite Hok. destruct (ok u); cbn [orb].
    + eexists. split; [rewrite <- app_assoc; reflexivity|].
      rewrite downloads_app, Hd. reflexivity.
    + destruct (IH (t ++ evs)) as (evs' & -> & Hd').
      exists (evs ++ evs'). rewrite app_assoc. split; [reflexivity|].
      rewrite downloads_app, Hd, Hd'. reflexivity.
Qed.

Lemma select_local_events (t : list event) :
  exists evs,
    snd (select_local E t) = t ++ evs
    /\ downloads evs = [] /\ launches evs = []
    /\ is_cloud (fst (select_local E t)) = false.
Proof.
  unfold select_local. destruct (exists_result E t);
    (eexists; split; [reflexivity|]; repeat split).
Qed.

Lemma select_main_script_eq (t : list event) :
  select_main_script PRIMARY_CLOUD_URL ADDITIONAL_CLOUD_URLS E t
  = if probe_result E t
    then
      let (found, t2) :=
        try_cloud_urls E
          (_cloud_source_urls PRIMARY_CLOUD_URL ADDITIONAL_CLOUD_URLS)
          (t ++ [Probe; Log INFO "Internet connectivity check succeeded." []])
      in
      if found then (Some CLOUD_GPIO_SCRIPT, t2)
      else
        select_local E
          (t2 ++ [Log WARNING
                    "Cloud script unavailable, falling back to local GPIO script."
                    []])
    else
      select_local E
        (t ++ [Probe;
               Log WARNING "Internet connectivity check failed: %s" [Exc]]).
Proof.
  unfold select_main_script, bind at 1, is_internet_reachable.
  destruct (probe_result E t); [|reflexivity].
  unfold bind at 1. destruct (try_cloud_urls E _ _) as [[|] t2]; reflexivity.
Qed.

(** The choice of the script, whatever the surroundings answer: nothing
    is launched, the addresses downloaded from are the first ones of the
    list, in its order, and the cloud script is chosen only after a
    download of this run went through. *)
Lemma select_main_script_events (t : list event) :
  let r := select_main_script PRIMARY_CLOUD_URL ADDITIONAL_CLOUD_URLS E t in
  exists evs,
    snd r = t ++ evs
    /\ launches evs = []
    /\ (exists rest,
          _cloud_source_urls PRIMARY_CLOUD_URL ADDITIONAL_CLOUD_URLS
          = downloads evs ++ rest)
    /\ (is_cloud (fst r) = true ->
        exists u tr,
          In u (_cloud_source_urls PRIMARY_CLOUD_URL ADDITIONAL_CLOUD_URLS)
          /\ In u (downloads evs) /\ download_result E tr u = true).
Proof.
  cbv zeta. rewrite select_main_script_eq.
  destruct (probe_result E t).
  - set (t1 := t ++ _).
    destruct (try_cloud_urls_events
                (_cloud_source_urls PRIMARY_CLOUD_URL ADDITIONAL_CLOUD_URLS)
                t1) as (evs & Hs & Hl & Hin & Hfst).
    destruct (try_cloud_urls E _ t1) as [found t2]. cbn [fst snd] in *.
    subst t2. destruct found.
    + cbn [fst snd is_cloud]. subst t1.
      eexists. split; [rewrite <- app_assoc; reflexivity|].
      rewrite launches_app, downloads_app.
      cbn [launches downloads flat_map app].
      split; [exact Hl|]. split; [exact Hin|].
      intros _. exact (Hfst eq_refl).
    + destruct (select_local_events
                  ((t1 ++ evs)
                   ++ [Log WARNING
                         "Cloud script unavailable, falling back to local GPIO script."
                         []]))
        as (evs' & Hs' & Hd' & Hl' & Hc).
      rewrite Hc, Hs'. subst t1.
      eexists. split; [rewrite <- !app_assoc; reflexivity|].
      rewrite !launches_app, !downloads_app, Hl, Hl', Hd'.
      cbn [launches downloads flat_map app]. rewrite app_nil_r.
      split; [reflexivity|]. split; [exact Hin | discriminate].
  - set (t1 := t ++ _).
    destruct (select_local_events t1) as (evs' & Hs' & Hd' & Hl' & Hc).
    rewrite Hc, Hs'. subst t1.
    eexists. split; [rewrite <- app_assoc; reflexivity|].
    rewrite launches_app, downloads_app, Hl', Hd'.
    cbn [launches downloads flat_map app].
    split; [reflexivity|]. split; [eexists; reflexivity | discriminate].
Qed.

(** [main], step by step. *)
Lemma launcher_main_eq (t : list event) :
  Bootstrap.main PRIMARY_CLOUD_URL ADDITIONAL_CLOUD_URLS E t
  = let (choice, t1) :=
      select_main_script PRIMARY_CLOUD_URL ADDITIONAL_CLOUD_URLS E
        (t ++ [Log INFO "=== ELECTRONIC CLIKS SmartLock bootstrap start ==="
                   []]) in
    match choice with
    | None =>
        (1%Z,
         t1 ++ [Log CRITICAL
                  "Bootstrap stopping because no GPIO script could be selected."
                  []])
    | Some p =>
        let t2 := t1 ++ [Log INFO "Launching GPIO runtime: %s" [Path p]] in
        match launch_result E t2 p with
        | Some returncode =>
            (returncode,
             t2 ++ [Launch p;
                    Log INFO "GPIO runtime exited with code %s"
                        [Int returncode];
                    Log INFO
                      "=== ELECTRONIC CLIKS SmartLock bootstrap stop (code=%s) ==="
                      [Int returncode]])
        | None =>
            (1%Z,
             t2 ++ [Launch p;
                    Log EXCEPTION "Failed to execute GPIO runtime: %s" [Exc];
                    Log INFO
                      "=== ELECTRONIC CLIKS SmartLock bootstrap stop (code=%s) ==="
                      [Int 1%Z]])
        end
    end.
Proof.
  unfold Bootstrap.main, bind at 1, emit. unfold bind at 1.
  destruct (select_main_script _ _ E _) as [[p|] t1].
  - unfold bind at 1, run_script, bind at 1, emit. cbv zeta.
    destruct (launch_result E _ p); unfold bind, emit, ret;
      rewrite <- app_assoc; reflexivity.
  - reflexivity.
Qed.

(** What a run of [main] adds: the events of the choice between the start
    line and a tail that downloads nothing and launches the chosen script,
    if there is one. *)
Lemma launcher_main_events (t : list event) :
  let t0 :=
    t ++ [Log INFO "=== ELECTRONIC CLIKS SmartLock bootstrap start ===" []] in
  let sel :=
    select_main_script PRIMARY_CLOUD_URL ADDITIONAL_CLOUD_URLS E t0 in
  let r := Bootstrap.main PRIMARY_CLOUD_URL ADDITIONAL_CLOUD_URLS E t in
  exists tail,
    added t (snd r) = added t (snd sel) ++ tail
    /\ downloads (added t (snd r)) = downloads (added t0 (snd sel))
    /\ launches (added t (snd r))
       = match fst sel with Some p => [p] | None => [] end
    /\ fst r
       = match fst sel with
         | None => 1%Z
         | Some p =>
             match launch_result E
                     (snd sel
                      ++ [Log INFO "Launching GPIO runtime: %s" [Path p]]) p
             with
             | Some returncode => returncode
             | None => 1%Z
             end
         end.
Proof.
  cbv zeta. rewrite launcher_main_eq.
  destruct (select_main_script_events
              (t ++ [Log INFO
                       "=== ELECTRONIC CLIKS SmartLock bootstrap start ==="
                       []]))
    as (evs & Hs & Hl & _).
  cbv zeta in Hs.
  destruct (select_main_script _ _ E _) as [choice t1].
  cbn [fst snd] in *. subst t1.
  assert (Hadd : forall x,
             added t (((t ++ [Log INFO
                       "=== ELECTRONIC CLIKS SmartLock bootstrap start ==="
                       []]) ++ evs) ++ x)
             = ([Log INFO
                       "=== ELECTRONIC CLIKS SmartLock bootstrap start ==="
                       []] ++ evs) ++ x).
  { intro x. rewrite <- !app_assoc. rewrite added_app. reflexivity. }
  pose proof (Hadd []) as Hadd0. rewrite !app_nil_r in Hadd0.
  rewrite Hadd0, added_app.
  destruct choice as [p|].
  - cbv zeta. destruct (launch_result E _ p) as [c|]; cbn [fst snd];
      rewrite <- app_assoc, Hadd;
      (eexists; split; [reflexivity|]);
      rewrite !launches_app, !downloads_app, Hl;
      cbn [launches downloads flat_map app]; rewrite !app_nil_r;
      repeat split; reflexivity.
  - cbn [fst snd]. rewrite Hadd.
    eexists. split; [reflexivity|].
    rewrite !launches_app, !downloads_app, Hl.
    cbn [launches downloads flat_map app]. rewrite !app_nil_r.
    repeat split; reflexivity.
Qed.

End Surroundings.

(** X17.  The addresses [_cloud_source_urls] returns are pairwise
    different and stripped of surrounding white space, and they are
    exactly the non-empty ones among the stripped primary address and the
    stripped items of the comma-separated additional addresses. *)
Theorem cloud_source_urls_distinct_trimmed (P A : str) :
  let r := _cloud_source_urls P A in
  NoDup r
  /\ Forall trimmed r
  /\ (forall u, In u r <->
        u <> [] /\ (u = strip P
                    \/ exists item, In item (split [COMMA] A)
                                    /\ u = strip item)).
Proof.
  cbv zeta. destruct (cloud_source_urls_spec P A) as [Hnd Hin].
  split; [exact Hnd|]. split; [|exact Hin].
  apply Forall_forall. intros u Hu. apply Hin in Hu.
  destruct Hu as (_ & [->|(item & _ & ->)]); apply strip_trimmed.
Qed.

(** X18.  A primary address that is not blank comes first in the list of
    [_cloud_source_urls], whatever the additional addresses are. *)
Theorem cloud_source_urls_primary_first (P A : str) :
  strip P <> [] ->
  exists rest, _cloud_source_urls P A = strip P :: rest.
Proof.
  intro Hne. unfold _cloud_source_urls. cbn [app dedupe existsb negb].
  destruct (strip P) as [|c sp] eqn:Hsp; [contradiction|].
  cbn [truthy andb app].
  destruct (@dedupe_spec
              (map strip (filter (fun item => truthy (strip item))
                            (split [COMMA] A)))
              [c :: sp] [c :: sp]) as (_ & _ & more & Hmore).
  - intro u. tauto.
  - repeat constructor. intros [].
  - intros u [<-|[]]. discriminate.
  - exists more. exact Hmore.
Qed.

Lemma cloud_source_urls_primary_first_witness :
  exists rest,
    _cloud_source_urls (lit " b ") (lit "a, b,,a") = strip (lit " b ") :: rest.
Proof.
  apply (@cloud_source_urls_primary_first (lit " b ") (lit "a, b,,a")).
  vm_compute. discriminate.
Defined.

(** X19.  Online, and with downloads whose outcome depends on the address
    only, [select_main_script] downloads from the addresses in the order
    of the list up to the first one that goes through and from none after
    it, and it chooses the cloud script exactly when one goes through. *)
Theorem select_main_script_stops_at_first_download
    (P A : str) (E : env) (ok : str -> bool) (t : list event) :
  (forall tr u, download_result E tr u = ok u) ->
  probe_result E t = true ->
  let r := select_main_script P A E t in
  downloads (added t (snd r)) = until_first ok (_cloud_source_urls P A)
  /\ is_cloud (fst r) = existsb ok (_cloud_source_urls P A).
Proof.
  intros Hok Hp. cbv zeta. rewrite select_main_script_eq, Hp.
  destruct (@try_cloud_urls_steady E ok (_cloud_source_urls P A)
              (t ++ [Probe;
                     Log INFO "Internet connectivity check succeeded." []])
              Hok) as (evs & -> & Hd).
  destruct (existsb ok (_cloud_source_urls P A)).
  - cbn [fst snd is_cloud]. rewrite <- app_assoc, added_app, downloads_app.
    split; [exact Hd | reflexivity].
  - destruct (select_local_events E
                (((t ++ [Probe;
                         Log INFO "Internet connectivity check succeeded."
                             []]) ++ evs)
                 ++ [Log WARNING
                       "Cloud script unavailable, falling back to local GPIO script."
                       []]))
      as (evs' & -> & Hd' & _ & ->).
    rewrite <- !app_assoc, added_app, !downloads_app, Hd, Hd'.
    cbn [downloads flat_map app]. rewrite app_nil_r.
    split; reflexivity.
Qed.

Lemma select_main_script_stops_at_first_download_witness :
  let r := select_main_script (lit "a") (lit "b,c") launcher_env [] in
  downloads (added [] (snd r))
  = until_first (fun u => str_eqb u (lit "b"))
      (_cloud_source_urls (lit "a") (lit "b,c"))
  /\ is_cloud (fst r)
     = existsb (fun u => str_eqb u (lit "b"))
         (_cloud_source_urls (lit "a") (lit "b,c")).
Proof.
  apply (@select_main_script_stops_at_first_download
           (lit "a") (lit "b,c") launcher_env
           (fun u => str_eqb u (lit "b")) []).
  - intros tr u. reflexivity.
  - reflexivity.
Defined.

(** X20.  When the probe fails, [main] downloads nothing and launches the
    local script if it exists and nothing otherwise: offline, the cloud
    script is never launched. *)
Theorem main_offline_uses_local_script
    (P A : str) (E : env) (present : bool) (t : list event) :
  (forall tr, probe_result E tr = false) ->
  (forall tr, exists_result E tr = present) ->
  let evs := added t (snd (Bootstrap.main P A E t)) in
  downloads evs = []
  /\ launches evs = if present then [LOCAL_GPIO_SCRIPT] else [].
Proof.
  intros Hp He. cbv zeta.
  destruct (launcher_main_events P A E t) as (_ & _ & -> & -> & _).
  rewrite select_main_script_eq, Hp. unfold select_local. rewrite He.
  destruct present; cbn [fst snd]; rewrite <- app_assoc, added_app;
    split; reflexivity.
Qed.

Lemma main_offline_uses_local_script_witness :
  let evs :=
    added [] (snd (Bootstrap.main (lit "a") (lit "b") stranded_env [])) in
  downloads evs = []
  /\ launches evs = if false then [LOCAL_GPIO_SCRIPT] else [].
Proof.
  apply (@main_offline_uses_local_script
           (lit "a") (lit "b") stranded_env false []);
    intro tr; reflexivity.
Defined.

(** X21.  [main] launches at most one script.  When it launches none it
    returns 1; when it launches one it returns the exit code of that
    script, or 1 when launching it raised. *)
Theorem main_returns_exit_code_of_launched_script
    (P A : str) (E : env) (t : list event) :
  let r := Bootstrap.main P A E t in
  (launches (added t (snd r)) = [] /\ fst r = 1%Z)
  \/ (exists p before after,
        snd r = before ++ Launch p :: after
        /\ launches (added t (snd r)) = [p]
        /\ fst r = match launch_result E before p with
                   | Some returncode => returncode
                   | None => 1%Z
                   end).
Proof.
  cbv zeta.
  destruct (launcher_main_events P A E t) as (_ & _ & _ & Hl & _).
  cbv zeta in Hl. rewrite Hl. clear Hl. rewrite launcher_main_eq.
  destruct (select_main_script P A E _) as [[p|] t1]; cbn [fst snd].
  - right. cbv zeta.
    exists p, (t1 ++ [Log INFO "Launching GPIO runtime: %s" [Path p]]).
    destruct (launch_result E _ p) as [c|]; cbn [fst snd];
      (eexists; split; [reflexivity | split; reflexivity]).
  - left. split; reflexivity.
Qed.

(** X22.  [main] launches the cloud script only after a download of this
    run, from one of the addresses of the list, went through: a cloud
    script left by an earlier run is never launched on its own. *)
Theorem main_cloud_script_is_fresh
    (P A : str) (E : env) (t : list event) :
  let evs := added t (snd (Bootstrap.main P A E t)) in
  In CLOUD_GPIO_SCRIPT (launches evs) ->
  exists u tr,
    In u (_cloud_source_urls P A)
    /\ In (Download u) evs
    /\ download_result E tr u = true.
Proof.
  cbv zeta. intro Hin.
  destruct (launcher_main_events P A E t) as (tail & _ & Hd & Hl & _).
  cbv zeta in Hd, Hl. rewrite Hl in Hin.
  destruct (select_main_script_events P A E
              (t ++ [Log INFO
                       "=== ELECTRONIC CLIKS SmartLock bootstrap start ==="
                       []]))
    as (evs & Hs & _ & _ & Hc).
  cbv zeta in Hs, Hc. rewrite Hs, added_app in Hd.
  destruct (fst (select_main_script P A E _)) as [[|]|];
    cbn [In] in Hin.
  - destruct (Hc eq_refl) as (u & tr & Hu & Hdu & Hr).
    exists u, tr. split; [exact Hu|]. split; [|exact Hr].
    apply in_downloads. rewrite Hd. exact Hdu.
  - destruct Hin as [Hin|[]]. discriminate.
  - contradiction.
Qed.

Lemma main_cloud_script_is_fresh_witness :
  exists u tr,
    In u (_cloud_source_urls (lit "a") (lit "b,c"))
    /\ In (Download u)
         (added [] (snd (Bootstrap.main (lit "a") (lit "b,c")
                           launcher_env [])))
    /\ download_result launcher_env tr u = true.
Proof.
  apply (@main_cloud_script_is_fresh (lit "a") (lit "b,c") launcher_env []).
  vm_compute. left. reflexivity.
Defined.

(** X23.  Whatever the surroundings answer, the addresses [main]
    downloads from are the first ones of the list of [_cloud_source_urls],
    in the order of the list, and none is downloaded from twice. *)
Theorem main_downloads_in_list_order
    (P A : str) (E : env) (t : list event) :
  let tried := downloads (added t (snd (Bootstrap.main P A E t))) in
  NoDup tried
  /\ exists rest, _cloud_source_urls P A = tried ++ rest.
Proof.
  cbv zeta.
  destruct (launcher_main_events P A E t) as (_ & _ & -> & _).
  destruct (select_main_script_events P A E
              (t ++ [Log INFO
                       "=== ELECTRONIC CLIKS SmartLock bootstrap start ==="
                       []]))
    as (evs & Hs & _ & [rest Hrest] & _).
  cbv zeta in Hs. rewrite Hs, added_app.
  split; [|exists rest; exact Hrest].
  destruct (cloud_source_urls_spec P A) as [Hnd _]. cbv zeta in Hnd.
  rewrite Hrest in Hnd. exact (NoDup_app_remove_r _ _ Hnd).
Qed.

End Launcher.
